(** * Verification of the hospital-discharge ingestion pipeline
      (sprint_12_saude_chile_rev_1.py)

    The development embeds the functions of the script as Rocq functions:
    - Python [str] values are [string]s whose characters are the code
      points 0..255 (the range of the script's Latin-1 inputs);
    - a Python call that can raise returns a [result];
    - a [float] is an IEEE-754 binary64 value ([spec_float], precision 53);
    - a DataFrame is a list of column names and a list of labelled rows;
    - the SQLite store is a finite map from table names to tables.
    Console output ([print]) is not modelled. *)

From Stdlib Require Import ZArith Ascii String List Bool Lia SpecFloat.
From stdpp Require Import base option list strings gmap.

Local Open Scope string_scope.
Local Open Scope Z_scope.

(** ** Exceptions and results *)

(** The subclasses of Python's [Exception] that the script can meet. *)
Inductive exception : Type :=
| ValueError
| IndexError
| TypeError
| OverflowError
| IntCastingNaNError
| FileNotFoundError
| OperationalError (msg : string)
| OtherError (msg : string).

Inductive result (A : Type) : Type :=
| Ok (a : A)
| Raise (e : exception).
Arguments Ok {A} a.
Arguments Raise {A} e.

(** Sequencing: the first exception raised ends the computation. *)
#[global] Instance result_ret : MRet result := fun A a => Ok a.
#[global] Instance result_bind : MBind result := fun A B k r =>
  match r with
  | Ok a => k a
  | Raise e => Raise e
  end.

(** [try: body except (classes): handler]. *)
Definition try_except {A} (body : result A) (caught : exception -> bool)
    (handler : exception -> result A) : result A :=
  match body with
  | Ok a => Ok a
  | Raise e => if caught e then handler e else Raise e
  end.

Definition returns {A} (r : result A) : Prop := exists a, r = Ok a.

(** ** Strings *)

Module PyStr.

Definition code (c : ascii) : N := N_of_ascii c.

(** [\d] and the digits of [int()]: over code points 0..255 these are
    exactly the ASCII digits. *)
Definition is_digit (c : ascii) : bool :=
  ((48 <=? code c) && (code c <=? 57))%N.

Definition digit_value (c : ascii) : Z := Z.of_N (code c) - 48.

(** White space that [int()] strips from a [str]: tab, line feed, vertical
    tab, form feed, carriage return, space, NEL and no-break space. *)
Definition is_space (c : ascii) : bool :=
  let n := code c in
  (((9 <=? n) && (n <=? 13)) || (n =? 32) || (n =? 133) || (n =? 160))%N.

Definition newline : ascii := ascii_of_N 10.

Fixpoint lstrip (s : string) : string :=
  match s with
  | String c s' => if is_space c then lstrip s' else s
  | EmptyString => EmptyString
  end.

(** [rstrip] keeps a character when it is not white space or when something
    other than white space follows it. *)
Fixpoint rstrip (s : string) : string :=
  match s with
  | String c s' =>
      match rstrip s' with
      | EmptyString => if is_space c then EmptyString else String c EmptyString
      | t => String c t
      end
  | EmptyString => EmptyString
  end.

(** Decimal digits with single underscores between digits; [acc] is the
    value read so far and [prev_digit] tells whether the previous character
    was a digit. *)
Fixpoint parse_digits (acc : Z) (prev_digit : bool) (s : string) : option Z :=
  match s with
  | EmptyString => if prev_digit then Some acc else None
  | String c s' =>
      if is_digit c then parse_digits (10 * acc + digit_value c) true s'
      else if Ascii.eqb c "_" then
        (if prev_digit then
           match s' with
           | String d _ => if is_digit d then parse_digits acc false s' else None
           | EmptyString => None
           end
         else None)
      else None
  end.

(** [int(s)] for a [str] in base 10. *)
Definition int (s : string) : result Z :=
  let t := rstrip (lstrip s) in
  let '(neg, body) :=
    match t with
    | String c r =>
        if Ascii.eqb c "-" then (true, r)
        else if Ascii.eqb c "+" then (false, r)
        else (false, t)
    | EmptyString => (false, t)
    end in
  match parse_digits 0 false body with
  | Some n => Ok (if neg : bool then - n else n)
  | None => Raise ValueError
  end.

(** [s.split(sep)] for a one-character separator: never empty. *)
Fixpoint split (sep : ascii) (s : string) : list string :=
  match s with
  | EmptyString => [EmptyString]
  | String c s' =>
      if Ascii.eqb c sep then EmptyString :: split sep s'
      else match split sep s' with
           | p :: ps => String c p :: ps
           | [] => [String c EmptyString]
           end
  end.

Fixpoint drop (n : nat) (s : string) : string :=
  match n, s with
  | S n', String _ s' => drop n' s'
  | _, _ => s
  end.

(** [s[-k:]] for [k > 0]: the last [k] characters, or all of a shorter [s]. *)
Definition last_chars (k : nat) (s : string) : string :=
  drop (String.length s - k) s.

Definition startswith (p s : string) : bool := String.prefix p s.

Fixpoint endswith_char (c : ascii) (s : string) : bool :=
  match s with
  | EmptyString => false
  | String d EmptyString => Ascii.eqb c d
  | String _ s' => endswith_char c s'
  end.

End PyStr.

(** [l[0]] and [l[-1]] on a Python list. *)
Definition index_first {A} (l : list A) : result A :=
  match l with
  | x :: _ => Ok x
  | [] => Raise IndexError
  end.

Definition index_last {A} (l : list A) : result A :=
  match last l with
  | Some x => Ok x
  | None => Raise IndexError
  end.

(** ** Year extractor *)

(** The end of the subject for [$]: the end of the string, or just before a
    newline that ends the string. *)
Definition at_dollar (rest : string) : bool :=
  String.eqb rest EmptyString || String.eqb rest (String PyStr.newline EmptyString).

(** One attempt of [(\d{4})\.csv$] at the start of [s]; the result is
    group 1. *)
Definition match_year_csv_here (s : string) : option string :=
  match s with
  | String d1 (String d2 (String d3 (String d4 rest))) =>
      if PyStr.is_digit d1 && PyStr.is_digit d2 && PyStr.is_digit d3
         && PyStr.is_digit d4 && PyStr.startswith ".csv" rest
         && at_dollar (PyStr.drop 4 rest)
      then Some (String d1 (String d2 (String d3 (String d4 EmptyString))))
      else None
  | _ => None
  end.

(** [re.search(r'(\d{4})\.csv$', s)]: the leftmost position that matches. *)
Fixpoint re_search_year_csv (s : string) : option string :=
  match match_year_csv_here s with
  | Some g => Some g
  | None =>
      match s with
      | String _ s' => re_search_year_csv s'
      | EmptyString => None
      end
  end.

Definition caught_value_index (e : exception) : bool :=
  match e with
  | ValueError | IndexError | IntCastingNaNError => true
  | _ => false
  end.

Definition extract_year_from_path (file_path : string) : result (option Z) :=
  match re_search_year_csv file_path with
  | Some group1 => y ← PyStr.int group1; Ok (Some y)
  | None =>
      try_except
        (seg ← index_last (PyStr.split "/" file_path);
         stem ← index_first (PyStr.split "." seg);
         let year_str := PyStr.last_chars 4 stem in
         y ← PyStr.int year_str;
         Ok (Some y))
        caught_value_index
        (fun _ => Ok None)
  end.

(** ** Floats

    Python's [float] is IEEE-754 binary64. *)

Module PyFloat.

Definition prec : Z := 53.
Definition emax : Z := 1024.

Definition of_mantissa_exponent (m e : Z) : spec_float :=
  binary_normalize prec emax m e false.

(** [float(n)] for an [int]: rounds to nearest even, and raises on an
    integer too large for a float. *)
Definition of_int (n : Z) : result spec_float :=
  match of_mantissa_exponent n 0 with
  | S754_infinity _ => Raise OverflowError
  | f => Ok f
  end.

(** [n * x] for an [int] and a [float]. *)
Definition int_mul (n : Z) (x : spec_float) : result spec_float :=
  fn ← of_int n; Ok (SFmul prec emax fn x).

(** [int(x)]: truncation toward zero. *)
Definition to_int (x : spec_float) : result Z :=
  match x with
  | S754_zero _ => Ok 0
  | S754_finite s m e => Ok (cond_Zopp s (Z.shiftl (Z.pos m) e))
  | S754_nan => Raise ValueError
  | S754_infinity _ => Raise OverflowError
  end.

(** The mathematical floor of a finite float. *)
Definition floor (x : spec_float) : option Z :=
  match x with
  | S754_zero _ => Some 0
  | S754_finite s m e => Some (Z.shiftl (cond_Zopp s (Z.pos m)) e)
  | _ => None
  end.

Definition is_finite (x : spec_float) : bool :=
  match x with
  | S754_zero _ | S754_finite _ _ _ => true
  | _ => false
  end.

Definition is_nan (x : spec_float) : bool :=
  match x with
  | S754_nan => true
  | _ => false
  end.

(** The sign bit is clear: [+0.0] or a positive finite number. *)
Definition is_nonneg (x : spec_float) : bool :=
  match x with
  | S754_zero _ | S754_finite false _ _ => true
  | _ => false
  end.

Definition zero : spec_float := S754_zero false.
Definition half : spec_float := of_mantissa_exponent 1 (-1).

End PyFloat.

(** ** Record batches *)

Inductive cell : Type :=
| CStr (s : string)
| CInt (z : Z)
| CFloat (f : spec_float)
| CBool (b : bool).

(** A missing value is the float NaN. *)
Definition NaN : cell := CFloat S754_nan.

#[global] Instance cell_inhabited : Inhabited cell := populate NaN.

Record row : Type := { label : Z; cells : list cell }.

Record DataFrame : Type := { columns : list string; rows : list row }.

(** [pd.DataFrame()]. *)
Definition empty_frame : DataFrame := {| columns := []; rows := [] |}.

(** [df.empty]: some axis has length zero. *)
Definition empty (df : DataFrame) : bool :=
  match columns df, rows df with
  | [], _ | _, [] => true
  | _, _ => false
  end.

Definition labels (df : DataFrame) : list Z := map label (rows df).

(** [x == '*'] on one cell. *)
Definition is_star (c : cell) : bool :=
  match c with
  | CStr s => String.eqb s "*"
  | _ => false
  end.

(** [(x == '*').sum()] on one row. *)
Definition count_stars (r : row) : Z :=
  Z.of_nat (length (List.filter is_star (cells r))).

(** ** Preprocessor *)

Definition column_mapping : gmap string string :=
  list_to_map
    [ ("PERTE", "PERTENENCIA_ESTABLECIMIENTO_SALUD");
      ("SEXO_PERSONA", "SEXO");
      ("EDAD_GRUPO", "GRUPO_EDAD");
      ("GRUPOS_ETAREOS", "ETNIA");
      ("GLOSA_PAIS_ORIGEN", "GLOSA_PAIS_ORIGEN");
      ("COMUNA_RESIDENCIA", "COMUNA_RESIDENCIA");
      ("GLOSA_COMUNA_RESIDENCIA", "GLOSA_COMUNA_RESIDENCIA");
      ("REGION_RESIDENCIA", "REGION_RESIDENCIA");
      ("GLOSA_REGION_RESIDENCIA", "GLOSA_REGION_RESIDENCIA");
      ("PREVISION", "PREVISION");
      ("GLOSA_PREVISION", "GLOSA_PREVISION");
      ("ANO_EGRESO", "ANO_EGRESO");
      ("DIAG1", "DIAG1");
      ("DIAG2", "DIAG2");
      ("DIAS_ESTADIA", "DIAS_ESTADA");
      ("CONDICION_EGRESO", "CONDICION_EGRESO");
      ("INTERV_Q", "INTERV_Q");
      ("PROCED", "PROCED") ].

Definition int_columns_to_convert : list string :=
  [ "COMUNA_RESIDENCIA"; "REGION_RESIDENCIA"; "ANO_EGRESO"; "DIAS_ESTADA" ].

(** [{k: v for k, v in column_mapping.items() if k in cols}]. *)
Definition valid_column_mapping (cols : list string) : gmap string string :=
  filter (fun kv => kv.1 ∈ cols) column_mapping.

(** [rename(columns=mapping)]: a name that is a key is replaced, any other
    name is kept. *)
Definition rename_with (mapping : gmap string string) (cols : list string)
    : list string :=
  map (fun c => default c (mapping !! c)) cols.

(** The rename step of [preprocess_data] on a list of column names. *)
Definition rename_columns (cols : list string) : list string :=
  rename_with (valid_column_mapping cols) cols.

(** The positions of the columns called [col]. *)
Fixpoint positions (col : string) (cols : list string) (from : nat) : list nat :=
  match cols with
  | [] => []
  | c :: cols' =>
      if String.eqb c col then from :: positions col cols' (S from)
      else positions col cols' (S from)
  end.

(** A numeric value of [pd.to_numeric]: an integer or a float64. *)
Inductive numeric : Type :=
| NInt (z : Z)
| NFloat (f : spec_float).

Definition int64_min : Z := - 2 ^ 63.
Definition int64_max : Z := 2 ^ 63 - 1.

(** The float64 to int64 cast of [astype(int)] on a finite value: truncation
    toward zero; a value out of range gives the x86-64 "integer indefinite"
    value. *)
Definition float_to_int64 (f : spec_float) : Z :=
  match PyFloat.to_int f with
  | Ok z => if (int64_min <=? z) && (z <=? int64_max) then z else int64_min
  | Raise _ => int64_min
  end.

Section Preprocessor.

(** The text-to-number parser of [pd.to_numeric]; [None] when the text is
    not parseable as a number. *)
Variable parse_number : string -> option numeric.

(** [pd.to_numeric(..., errors='coerce')] on one cell. *)
Definition to_numeric_cell (c : cell) : numeric :=
  match c with
  | CInt z => NInt z
  | CBool b => NInt (if b then 1 else 0)
  | CFloat f => NFloat f
  | CStr s =>
      match parse_number s with
      | Some n => n
      | None => NFloat S754_nan
      end
  end.

Definition is_int (n : numeric) : bool :=
  match n with
  | NInt _ => true
  | NFloat _ => false
  end.

Definition as_float (n : numeric) : spec_float :=
  match n with
  | NInt z => PyFloat.of_mantissa_exponent z 0
  | NFloat f => f
  end.

(** [.fillna(0)] on one float. *)
Definition fillna_zero (f : spec_float) : spec_float :=
  if PyFloat.is_nan f then PyFloat.zero else f.

(** [pd.to_numeric(s, errors='coerce').fillna(0).astype(int)] on the cells
    of one column. A column of integers stays as it is; otherwise the column
    is a float64 column, its missing values become 0, and the cast raises
    when a value is infinite. *)
Definition to_int_series (cs : list cell) : result (list cell) :=
  let nums := map to_numeric_cell cs in
  if forallb is_int nums then
    Ok (map (fun n => match n with NInt z => CInt z | NFloat _ => CInt 0 end) nums)
  else
    let filled := map (fun n => fillna_zero (as_float n)) nums in
    if forallb PyFloat.is_finite filled
    then Ok (map (fun f => CInt (float_to_int64 f)) filled)
    else Raise IntCastingNaNError.

Definition column_values (j : nat) (rs : list row) : list cell :=
  map (fun r => cells r !!! j) rs.

Definition set_column (j : nat) (vs : list cell) (rs : list row) : list row :=
  zip_with (fun r v => {| label := label r; cells := <[j := v]> (cells r) |}) rs vs.

(** One turn of the loop over [int_columns_to_convert]. [cleaned_df[col]]
    is a Series when one column has that name and a DataFrame when several
    have it, which [pd.to_numeric] refuses. *)
Definition convert_int_column (df : DataFrame) (col : string) : result DataFrame :=
  match positions col (columns df) 0 with
  | [] => Ok df
  | [j] =>
      vs ← to_int_series (column_values j (rows df));
      Ok {| columns := columns df; rows := set_column j vs (rows df) |}
  | _ => Raise TypeError
  end.

Fixpoint convert_int_columns (df : DataFrame) (cols : list string) : result DataFrame :=
  match cols with
  | [] => Ok df
  | col :: cols' => df' ← convert_int_column df col; convert_int_columns df' cols'
  end.

(** [int(num_columns * threshold)]. *)
Definition allowed_stars_of (num_columns : Z) (threshold : spec_float) : result Z :=
  p ← PyFloat.int_mul num_columns threshold; PyFloat.to_int p.

(** The boolean-mask row selection of line 158. *)
Definition filter_rows (allowed_stars : Z) (rs : list row) : list row :=
  filter (fun r => count_stars r <= allowed_stars) rs.

Definition preprocess_data (df : DataFrame) (threshold : spec_float) : result DataFrame :=
  if empty df then Ok df
  else
    let num_columns := Z.of_nat (length (columns df)) in
    allowed_stars ← allowed_stars_of num_columns threshold;
    let cleaned_df :=
      {| columns := columns df; rows := filter_rows allowed_stars (rows df) |} in
    let cleaned_df :=
      {| columns := rename_columns (columns cleaned_df); rows := rows cleaned_df |} in
    convert_int_columns cleaned_df int_columns_to_convert.

End Preprocessor.

(** A stand-in parser for examples: plain decimal integers only. *)
Definition parse_decimal (s : string) : option numeric :=
  match s with
  | EmptyString => None
  | _ => NInt <$> PyStr.parse_digits 0 false s
  end.

(** ** The relational store *)

Inductive sql_value : Type :=
| SqlNull
| SqlInteger (z : Z)
| SqlReal (f : spec_float)
| SqlText (s : string).

#[global] Instance spec_float_eq_dec : EqDecision spec_float.
Proof. solve_decision. Defined.

#[global] Instance sql_value_eq_dec : EqDecision sql_value.
Proof. solve_decision. Defined.

(** How [to_sql] binds a cell: a missing value is stored as NULL. *)
Definition to_sql_value (c : cell) : sql_value :=
  match c with
  | CStr s => SqlText s
  | CInt z => SqlInteger z
  | CBool b => SqlInteger (if b then 1 else 0)
  | CFloat f => if PyFloat.is_nan f then SqlNull else SqlReal f
  end.

Record Table : Type := { t_columns : list string; t_rows : list (list sql_value) }.

(** The engine: the tables of the database file, and the failure (a locked
    or unreadable file, say) that every statement meets, if any. Table and
    column names are plain identifiers, compared as written. *)
Record Engine : Type := {
  tables : gmap string Table;
  failure : option exception
}.

Definition year_column : string := "ANO_EGRESO".

(** [WHERE ANO_EGRESO = :year_val] on one stored row; the column has
    integer affinity, so only a stored integer can be equal to the year. *)
Definition year_matches (j : nat) (year : Z) (r : list sql_value) : Prop :=
  r !! j = Some (SqlInteger year).

#[global] Instance year_matches_dec j year r : Decision (year_matches j year r).
Proof. unfold year_matches. apply _. Defined.

(** The rows that [SELECT ... FROM table_name WHERE ANO_EGRESO = year]
    ranges over. *)
Definition select_year (e : Engine) (table_name : string) (year : Z)
    : result (list (list sql_value)) :=
  match failure e with
  | Some err => Raise err
  | None =>
      match tables e !! table_name with
      | None => Raise (OperationalError ("no such table: " +:+ table_name))
      | Some t =>
          match positions year_column (t_columns t) 0 with
          | [] => Raise (OperationalError ("no such column: " +:+ year_column))
          | j :: _ => Ok (filter (year_matches j year) (t_rows t))
          end
      end
  end.

(** [connection.execute(SELECT 1 ... LIMIT 1).fetchone()]. *)
Definition fetch_one_year (e : Engine) (table_name : string) (year : Z)
    : result (option (list sql_value)) :=
  found ← select_year e table_name year;
  Ok (match found with
      | [] => None
      | _ :: _ => Some [SqlInteger 1]
      end).

(** The number of rows of the table for a year; 0 when the table or the
    year column is missing. *)
Definition year_count (e : Engine) (table_name : string) (year : Z) : nat :=
  match tables e !! table_name with
  | None => 0%nat
  | Some t =>
      match positions year_column (t_columns t) 0 with
      | [] => 0%nat
      | j :: _ => length (filter (year_matches j year) (t_rows t))
      end
  end.

(** ** Existence checker *)

Definition any_exception (e : exception) : bool := true.

Definition is_operational_error (e : exception) : bool :=
  match e with
  | OperationalError _ => true
  | _ => false
  end.

Definition data_already_exist (engine : Engine) (table_name : string)
    (year : option Z) : result bool :=
  match year with
  | None => Ok false
  | Some year =>
      try_except
        (try_except
           (fetched ← fetch_one_year engine table_name year;
            let exists_ := bool_decide (fetched ≠ None) in
            Ok exists_)
           is_operational_error
           (fun _ => Ok false))
        any_exception
        (fun _ => Ok false)
  end.

(** ** Data loader *)

(** The files that [pd.read_csv(path, encoding='latin1', sep=';')] can be
    asked for: what reading each one gives. A path that is not in the map
    does not exist. *)
Definition read_csv (files : gmap string (result DataFrame)) (file_path : string)
    : result DataFrame :=
  match files !! file_path with
  | Some r => r
  | None => Raise FileNotFoundError
  end.

Definition is_file_not_found (e : exception) : bool :=
  match e with
  | FileNotFoundError => true
  | _ => false
  end.

Definition load_data (files : gmap string (result DataFrame)) (file_path : string)
    : result DataFrame :=
  try_except
    (try_except
       (df ← read_csv files file_path; Ok df)
       is_file_not_found
       (fun _ => Ok empty_frame))
    any_exception
    (fun _ => Ok empty_frame).

(** ** Persister *)

(** The values of one batch row in the order of the table's columns; a
    table column that the batch does not have gets NULL. *)
Definition insert_values (table_columns batch_columns : list string) (r : row)
    : list sql_value :=
  map (fun c =>
         match positions c batch_columns 0 with
         | j :: _ => to_sql_value (cells r !!! j)
         | [] => SqlNull
         end) table_columns.

(** [df.to_sql(name=table_name, con=engine, if_exists='append', index=False)].
    The table is created from the batch's columns when it does not exist.
    A batch with a repeated column name, or with a column that an existing
    table does not have, is refused and nothing is written. The write is
    taken as one step: a statement that SQLite refuses after the table was
    created (a value it cannot store, such as an integer beyond 64 bits) is
    not followed, and values are stored as they are bound, whatever the
    affinity of the column. *)
Definition to_sql_append (df : DataFrame) (e : Engine) (table_name : string)
    : result Engine :=
  match failure e with
  | Some err => Raise err
  | None =>
      if bool_decide (NoDup (columns df)) then
        match tables e !! table_name with
        | None =>
            let t := {| t_columns := columns df;
                        t_rows := map (insert_values (columns df) (columns df)) (rows df) |} in
            Ok {| tables := <[table_name := t]> (tables e); failure := failure e |}
        | Some t =>
            if bool_decide (columns df ⊆ t_columns t) then
              let t' := {| t_columns := t_columns t;
                           t_rows := t_rows t ++
                             map (insert_values (t_columns t) (columns df)) (rows df) |} in
              Ok {| tables := <[table_name := t']> (tables e); failure := failure e |}
            else Raise (OperationalError ("table " +:+ table_name +:+ " has no column named"))
        end
      else Raise (OtherError "duplicate column name")
  end.

(** [save_to_database] returns nothing; the function gives the engine after
    the call. *)
Definition save_to_database (df : DataFrame) (engine : Engine) (table_name : string)
    : Engine :=
  if empty df then engine
  else
    match to_sql_append df engine table_name with
    | Ok engine' => engine'
    | Raise _ => engine
    end.

(** ** Driver *)

(** [posixpath.join(a, b)]. *)
Definition os_path_join (a b : string) : string :=
  if PyStr.startswith "/" b then b
  else if String.eqb a "" || PyStr.endswith_char "/" a then a +:+ b
  else a +:+ "/" +:+ b.

Definition file_prefix : string := "EGRE_DATOS_ABIERTOS_".

(** [re.match(r'EGRE_DATOS_ABIERTOS_\d{4}\.csv$', filename)]. *)
Definition re_match_filename (filename : string) : bool :=
  PyStr.startswith file_prefix filename
  && bool_decide (is_Some (match_year_csv_here
                             (PyStr.drop (String.length file_prefix) filename))).

Definition table_name : string := "egresos_pacientes".

(** The calls the driver makes for the file at a path. *)
Inductive call : Type :=
| LoadData (file_path : string)
| PreprocessData (file_path : string)
| SaveToDatabase (file_path : string).

#[global] Instance call_eq_dec : EqDecision call.
Proof. solve_decision. Defined.

Definition call_path (c : call) : string :=
  match c with
  | LoadData p | PreprocessData p | SaveToDatabase p => p
  end.

(** The state the loop carries: the store behind the engine, the flag, and
    the calls made so far (most recent first). *)
Record State : Type := {
  engine : Engine;
  processed_any_file : bool;
  calls : list call
}.

Definition called (c : call) (st : State) : State :=
  {| engine := engine st;
     processed_any_file := processed_any_file st;
     calls := c :: calls st |}.

Definition initial_state (e : Engine) : State :=
  {| engine := e; processed_any_file := false; calls := [] |}.

(** How the script ends: it reaches its last line, an exception leaves it,
    or [sys.exit] is called. *)
Inductive outcome : Type :=
| Completed
| Crashed (err : exception)
| Exited (code : Z).

Section Driver.

Variable parse_number : string -> option numeric.
Variable files : gmap string (result DataFrame).
Variable data_directory : string.

(** The body of the [for] loop for one file name: the state after it, and
    the exception that leaves the loop, if one is raised. *)
Definition process_file (st : State) (filename : string) : State * option exception :=
  if re_match_filename filename then
    let file_path := os_path_join data_directory filename in
    match extract_year_from_path file_path with
    | Raise err => (st, Some err)
    | Ok None => (st, None)
    | Ok (Some year) =>
        match data_already_exist (engine st) table_name (Some year) with
        | Raise err => (st, Some err)
        | Ok true => (st, None)
        | Ok false =>
            let st := called (LoadData file_path) st in
            match load_data files file_path with
            | Raise err => (st, Some err)
            | Ok raw_data =>
                if empty raw_data then (st, None)
                else
                  let st := called (PreprocessData file_path) st in
                  match preprocess_data parse_number raw_data PyFloat.half with
                  | Raise err => (st, Some err)
                  | Ok processed_data =>
                      if empty processed_data then (st, None)
                      else
                        let st := called (SaveToDatabase file_path) st in
                        ({| engine := save_to_database processed_data (engine st) table_name;
                            processed_any_file := true;
                            calls := calls st |}, None)
                  end
            end
        end
    end
  else (st, None).

(** [for filename in os.listdir(data_directory)]. *)
Fixpoint process_files (st : State) (filenames : list string) : State * option exception :=
  match filenames with
  | [] => (st, None)
  | filename :: rest =>
      match process_file st filename with
      | (st', None) => process_files st' rest
      | (st', Some err) => (st', Some err)
      end
  end.

(** The main block from the check of the data directory on. [listing] is
    what [os.listdir(data_directory)] gives, [None] when the directory does
    not exist. [validate_data], which follows the loop, only reads the store
    and prints. *)
Definition main (listing : option (list string)) (e : Engine) : State * outcome :=
  match listing with
  | None => (initial_state e, Exited 1)
  | Some filenames =>
      match process_files (initial_state e) filenames with
      | (st, None) => (st, Completed)
      | (st, Some err) => (st, Crashed err)
      end
  end.

End Driver.

(** ** More string operations *)

Module PyText.

(** [s[:n]]. *)
Fixpoint take (n : nat) (s : string) : string :=
  match n, s with
  | S n', String c s' => String c (take n' s')
  | _, _ => EmptyString
  end.

(** [s.index(c)] for a one-character [c]: the first position of [c]. *)
Fixpoint index (c : ascii) (s : string) : result nat :=
  match s with
  | EmptyString => Raise ValueError
  | String d s' =>
      if Ascii.eqb d c then Ok 0%nat
      else i ← index c s'; Ok (S i)
  end.

(** [s.rfind(c) + 1]: the position after the last [c], 0 without any. *)
Fixpoint after_last (c : ascii) (s : string) : nat :=
  match s with
  | EmptyString => 0%nat
  | String d s' =>
      match after_last c s' with
      | O => if Ascii.eqb d c then 1%nat else 0%nat
      | S i => S (S i)
      end
  end.

(** [s == c * len(s)]. *)
Fixpoint all_char (c : ascii) (s : string) : bool :=
  match s with
  | EmptyString => true
  | String d s' => Ascii.eqb d c && all_char c s'
  end.

(** [s.rstrip(c)] for a one-character [c]. *)
Fixpoint rstrip_char (c : ascii) (s : string) : string :=
  match s with
  | EmptyString => EmptyString
  | String d s' =>
      match rstrip_char c s' with
      | EmptyString => if Ascii.eqb d c then EmptyString else String d EmptyString
      | t => String d t
      end
  end.

(** [s[:-1]]. *)
Fixpoint drop_last (s : string) : string :=
  match s with
  | EmptyString => EmptyString
  | String _ EmptyString => EmptyString
  | String c s' => String c (drop_last s')
  end.

End PyText.

(** ** Argument parser *)

(** The standard [getopt] module, which [parse_arguments] calls. *)
Module Getopt.

(** [GetoptError(msg, opt)]. *)
Inductive error : Type := GetoptError (msg : string) (opt : string).

(** A call that returns or raises [GetoptError]. *)
Inductive parsed (A : Type) : Type :=
| Parsed (a : A)
| Failed (err : error).
Arguments Parsed {A} a.
Arguments Failed {A} err.

#[global] Instance parsed_ret : MRet parsed := fun A a => Parsed a.
#[global] Instance parsed_bind : MBind parsed := fun A B k r =>
  match r with
  | Parsed a => k a
  | Failed err => Failed err
  end.

Definition options : Type := list (string * string).

Definition char (c : ascii) : string := String c EmptyString.

(** [opts.append((option, value))]. *)
Definition append (opts : options) (option value : string) : options :=
  (opts ++ [(option, value)])%list.

Fixpoint short_has_arg (opt : ascii) (shortopts : string) : parsed bool :=
  match shortopts with
  | EmptyString =>
      Failed (GetoptError ("option -" +:+ char opt +:+ " not recognized") (char opt))
  | String c rest =>
      if Ascii.eqb opt c && negb (Ascii.eqb c ":")
      then Parsed (PyStr.startswith ":" rest)
      else short_has_arg opt rest
  end.

Fixpoint do_shorts (opts : options) (optstring shortopts : string)
    (args : list string) : parsed (options * list string) :=
  match optstring with
  | EmptyString => Parsed (opts, args)
  | String opt optstring =>
      has_arg ← short_has_arg opt shortopts;
      if has_arg : bool then
        match optstring, args with
        | EmptyString, [] =>
            Failed (GetoptError ("option -" +:+ char opt +:+ " requires argument")
                      (char opt))
        | EmptyString, optarg :: args => Parsed (append opts ("-" +:+ char opt) optarg, args)
        | optarg, _ => Parsed (append opts ("-" +:+ char opt) optarg, args)
        end
      else do_shorts (append opts ("-" +:+ char opt) EmptyString) optstring shortopts args
  end.

Definition long_has_args (opt : string) (longopts : list string)
    : parsed (bool * string) :=
  let possibilities := List.filter (PyStr.startswith opt) longopts in
  match possibilities with
  | [] => Failed (GetoptError ("option --" +:+ opt +:+ " not recognized") opt)
  | unique_match :: others =>
      if bool_decide (opt ∈ possibilities) then Parsed (false, opt)
      else if bool_decide (opt +:+ "=" ∈ possibilities) then Parsed (true, opt)
      else
        match others with
        | _ :: _ =>
            Failed (GetoptError ("option --" +:+ opt +:+ " not a unique prefix") opt)
        | [] =>
            let has_arg := PyStr.endswith_char "=" unique_match in
            Parsed (has_arg, if has_arg then PyText.drop_last unique_match
                             else unique_match)
        end
  end.

Definition do_longs (opts : options) (opt : string) (longopts args : list string)
    : parsed (options * list string) :=
  let '(opt, optarg) :=
    match PyText.index "=" opt with
    | Raise _ => (opt, None)
    | Ok i => (PyText.take i opt, Some (PyStr.drop (S i) opt))
    end in
  '(has_arg, opt) ← long_has_args opt longopts;
  if has_arg : bool then
    match optarg, args with
    | None, [] => Failed (GetoptError ("option --" +:+ opt +:+ " requires argument") opt)
    | None, optarg :: args => Parsed (append opts ("--" +:+ opt) optarg, args)
    | Some optarg, _ => Parsed (append opts ("--" +:+ opt) optarg, args)
    end
  else
    match optarg with
    | Some _ =>
        Failed (GetoptError ("option --" +:+ opt +:+ " must not have an argument") opt)
    | None => Parsed (append opts ("--" +:+ opt) EmptyString, args)
    end.

(** The [while] loop of [getopt]; every turn takes at least one argument, so
    [fuel] as large as the number of arguments is never used up. *)
Fixpoint getopt_loop (fuel : nat) (opts : options) (args : list string)
    (shortopts : string) (longopts : list string) : parsed (options * list string) :=
  match fuel, args with
  | S fuel, arg :: rest =>
      if PyStr.startswith "-" arg && negb (String.eqb arg "-") then
        if String.eqb arg "--" then Parsed (opts, rest)
        else
          '(opts, args) ←
            (if PyStr.startswith "--" arg
             then do_longs opts (PyStr.drop 2 arg) longopts rest
             else do_shorts opts (PyStr.drop 1 arg) shortopts rest);
          getopt_loop fuel opts args shortopts longopts
      else Parsed (opts, args)
  | _, _ => Parsed (opts, args)
  end.

Definition getopt (args : list string) (shortopts : string) (longopts : list string)
    : parsed (options * list string) :=
  getopt_loop (length args) [] args shortopts longopts.

End Getopt.

(** What a function of the script ends with: a value, or [sys.exit]. *)
Inductive exit_or (A : Type) : Type :=
| Returned (a : A)
| SysExit (code : Z).
Arguments Returned {A} a.
Arguments SysExit {A} code.

(** The [for] loop of [parse_arguments]: the value of the last [-f] or
    [--file] pair. *)
Fixpoint last_file_value (file_path : string) (arguments : Getopt.options) : string :=
  match arguments with
  | [] => file_path
  | (currentArgument, currentValue) :: arguments =>
      if bool_decide (currentArgument ∈ ["-f"; "--file"])
      then last_file_value currentValue arguments
      else last_file_value file_path arguments
  end.

(** [sys_argv] is [sys.argv]. *)
Definition parse_arguments (sys_argv : list string) : exit_or string :=
  let unixOptions := "f:" in
  let gnuOptions := ["file="] in
  let fullCmdArguments := sys_argv in
  let argumentList := List.skipn 1 fullCmdArguments in
  let file_path := EmptyString in
  match Getopt.getopt argumentList unixOptions gnuOptions with
  | Getopt.Parsed (arguments, values) => Returned (last_file_value file_path arguments)
  | Getopt.Failed err => SysExit 2
  end.

(** ** Database engine factory: the path of the store *)

(** [posixpath.dirname(p)]. *)
Definition os_path_dirname (p : string) : string :=
  let i := PyText.after_last "/" p in
  let head := PyText.take i p in
  if negb (String.eqb head "") && negb (PyText.all_char "/" head)
  then PyText.rstrip_char "/" head
  else head.

(** [db_path] of the main block, from [__file__]. *)
Definition db_path (file : string) : string :=
  os_path_join (os_path_join (os_path_dirname file) "database")
    "ministerio_de_salud_chile.db".

(** [db_dir] of [create_db_engine]. *)
Definition db_dir (db_path : string) : string := os_path_dirname db_path.

(** * Vocabulary of the properties *)

(** ** Year extractor *)

Definition four_digits (g : string) : Prop :=
  exists d1 d2 d3 d4,
    g = String d1 (String d2 (String d3 (String d4 EmptyString)))
    /\ PyStr.is_digit d1 = true /\ PyStr.is_digit d2 = true
    /\ PyStr.is_digit d3 = true /\ PyStr.is_digit d4 = true.

(** The path ends with four digits immediately followed by [.csv]. *)
Definition ends_with_year_csv (s : string) : Prop :=
  exists pre g, four_digits g /\ s = pre +:+ g +:+ ".csv".

(** The same, with one newline closing the path. *)
Definition ends_with_year_csv_newline (s : string) : Prop :=
  exists pre g, four_digits g
    /\ s = pre +:+ g +:+ ".csv" +:+ String PyStr.newline EmptyString.

(** The decimal value of four digits. *)
Definition year_value (d1 d2 d3 d4 : ascii) : Z :=
  1000 * PyStr.digit_value d1 + 100 * PyStr.digit_value d2
  + 10 * PyStr.digit_value d3 + PyStr.digit_value d4.

(** What the fallback reads: the last four characters of the part of the
    last path segment that comes before its first dot. *)
Definition fallback_year_str (file_path : string) : string :=
  PyStr.last_chars 4
    (hd EmptyString (PyStr.split "." (List.last (PyStr.split "/" file_path) EmptyString))).

(** ** Preprocessor *)

(** The floor of the exact product of an integer and a finite float, with
    no rounding of the product. *)
Definition exact_floor_product (n : Z) (t : spec_float) : option Z :=
  match t with
  | S754_zero _ => Some 0
  | S754_finite s m e => Some (Z.shiftl (n * cond_Zopp s (Z.pos m)) e)
  | _ => None
  end.

(** [t] is the float that the decimal fraction [num / den] of [0.5, 1)
    denotes: 53 bits, within half a unit in the last place of it. *)
Definition nearest_float (num den : Z) (t : spec_float) : Prop :=
  match t with
  | S754_finite false m e =>
      e = -53 /\ 2 ^ 52 <= Z.pos m < 2 ^ 53
      /\ 2 * Z.abs (den * Z.pos m - num * 2 ^ 53) <= den
  | _ => False
  end.

(** What the rename step does to one column name. *)
Definition rename_column (c : string) : string := default c (column_mapping !! c).

(** [r'] is [r] with the same label and the same cells, except perhaps
    under the column names in [excluded]. *)
Definition same_outside (excluded cols : list string) (r r' : row) : Prop :=
  label r' = label r
  /\ length (cells r') = length (cells r)
  /\ forall j name, cols !! j = Some name -> name ∉ excluded ->
       cells r' !! j = cells r !! j.

Section CoercionVocabulary.

Variable parse_number : string -> option numeric.

(** The cell is missing for [pd.to_numeric]: text that is not parseable as
    a number, or a missing value. *)
Definition coerced_to_nan (c : cell) : Prop :=
  to_numeric_cell parse_number c = NFloat S754_nan.

(** The cell is not an infinite number. *)
Definition not_infinite (c : cell) : Prop :=
  PyFloat.is_finite (fillna_zero (as_float (to_numeric_cell parse_number c))) = true.

(** What the coercion makes of one cell. *)
Definition coerced (c c' : cell) : Prop :=
  (exists z, c' = CInt z) /\ (coerced_to_nan c -> c' = CInt 0).

(** The state of a row while the integer columns are converted one after
    the other: under a column already handled ([done]) the cell is the
    coerced input cell, elsewhere it is the input cell. *)
Definition converted (cols done : list string) (r r' : row) : Prop :=
  label r' = label r
  /\ forall j name, cols !! j = Some name ->
       (name ∈ done -> forall c', cells r' !! j = Some c' ->
          exists c, cells r !! j = Some c /\ coerced c c')
       /\ (name ∉ done -> cells r' !! j = cells r !! j).

End CoercionVocabulary.

(** ** Persister and driver *)

(** The value a batch row brings for the year column of the table. *)
Definition row_year_value (batch_columns : list string) (r : row) : sql_value :=
  match positions year_column batch_columns 0 with
  | j :: _ => to_sql_value (cells r !!! j)
  | [] => SqlNull
  end.

(** The number of rows of a batch that carry the year. *)
Definition batch_year_count (df : DataFrame) (year : Z) : nat :=
  length (filter (fun r => row_year_value (columns df) r = SqlInteger year) (rows df)).

(** What [os.path.join] puts in front of a relative name. *)
Definition join_prefix (a : string) : string :=
  if String.eqb a "" || PyStr.endswith_char "/" a then a else a +:+ "/".

Section DriverVocabulary.

Variable parse_number : string -> option numeric.
Variable files : gmap string (result DataFrame).
Variable data_directory : string.

(** The file, once loaded and preprocessed, brings no row for the year. *)
Definition adds_no_year (year : Z) (filename : string) : Prop :=
  forall raw processed,
    files !! os_path_join data_directory filename = Some (Ok raw) ->
    preprocess_data parse_number raw PyFloat.half = Ok processed ->
    batch_year_count processed year = 0%nat.

End DriverVocabulary.

(** ** Example data *)

(** The floats that the literals [0.6] and [0.7] denote. *)
Definition three_fifths : spec_float :=
  PyFloat.of_mantissa_exponent 5404319552844595 (-53).

Definition seven_tenths : spec_float :=
  PyFloat.of_mantissa_exponent 6305039478318694 (-53).

(** Five columns and one row with three sentinel cells. *)
Definition three_of_five : DataFrame :=
  {| columns := ["DIAG1"; "DIAG2"; "PREVISION"; "INTERV_Q"; "PROCED"];
     rows := [ {| label := 0;
                  cells := [CStr "*"; CStr "*"; CStr "*"; CStr "A00"; CStr "1"] |} ] |}.

(** Ninety columns and one row with 63 sentinel cells. *)
Definition sixty_three_of_ninety : DataFrame :=
  {| columns := map (fun i => "V" +:+ String (ascii_of_nat i) EmptyString) (seq 33 90);
     rows := [ {| label := 0;
                  cells := (repeat (CStr "*") 63 ++ repeat (CStr "A00") 27)%list |} ] |}.

Definition two_star_rows : DataFrame :=
  {| columns := ["PERTE"; "SEXO_PERSONA"; "ANO_EGRESO"; "DIAS_ESTADIA"];
     rows := [ {| label := 0; cells := [CStr "*"; CStr "*"; CStr "2019"; CStr "5"] |};
               {| label := 1; cells := [CStr "*"; CStr "*"; CStr "*"; CStr "3"] |} ] |}.

Definition both_stay_names : DataFrame :=
  {| columns := ["DIAS_ESTADIA"; "DIAS_ESTADA"];
     rows := [ {| label := 0; cells := [CStr "x"; CStr "3"] |} ] |}.

Definition infinite_year : DataFrame :=
  {| columns := ["ANO_EGRESO"; "DIAG1"];
     rows := [ {| label := 0; cells := [CFloat (S754_infinity false); CStr "A00"] |} ] |}.

Definition unparseable_stay : DataFrame :=
  {| columns := ["ANO_EGRESO"; "DIAS_ESTADIA"; "DIAG1"];
     rows := [ {| label := 0; cells := [CInt 2019; CStr "x"; CStr "A00"] |};
               {| label := 1; cells := [CInt 2019; CStr "7"; CStr "*"] |} ] |}.

Definition stored_2019 : Engine :=
  {| tables := {[ table_name :=
                    {| t_columns := ["ANO_EGRESO"; "DIAG1"];
                       t_rows := [[SqlInteger 2019; SqlText "A00"]] |} ]};
     failure := None |}.


Definition rows_of_2018 : DataFrame :=
  {| columns := ["ANO_EGRESO"; "DIAG1"];
     rows := [ {| label := 0; cells := [CInt 2018; CStr "B00"] |} ] |}.

(** ** Further vocabulary *)

(** The calls of a run, most recent first, come in blocks, one per file
    that is not skipped: the file is loaded, then perhaps preprocessed, then
    perhaps saved. *)
Inductive call_blocks : list call -> Prop :=
| call_blocks_nil : call_blocks []
| call_blocks_load p cs :
    call_blocks cs -> call_blocks (LoadData p :: cs)
| call_blocks_preprocess p cs :
    call_blocks cs -> call_blocks (PreprocessData p :: LoadData p :: cs)
| call_blocks_save p cs :
    call_blocks cs ->
    call_blocks (SaveToDatabase p :: PreprocessData p :: LoadData p :: cs).

(** The store [e'] holds every table of [e], with the same columns and the
    same rows in front of whatever was appended. *)
Definition extends (e e' : Engine) : Prop :=
  failure e' = failure e
  /\ forall tn t, tables e !! tn = Some t ->
       exists new, tables e' !! tn
                   = Some {| t_columns := t_columns t; t_rows := t_rows t ++ new |}.

(** The number of rows of a table, 0 when it does not exist. *)
Definition table_size (e : Engine) (tn : string) : nat :=
  match tables e !! tn with
  | Some t => length (t_rows t)
  | None => 0%nat
  end.

(** Every row has one cell per column, as in any DataFrame. *)
Definition well_formed (df : DataFrame) : Prop :=
  Forall (fun r => length (cells r) = length (columns df)) (rows df).

(** The source names that the rename step replaces by another name. *)
Definition replaced_names : list string :=
  [ "PERTE"; "SEXO_PERSONA"; "EDAD_GRUPO"; "GRUPOS_ETAREOS"; "DIAS_ESTADIA" ].

(** [r'] is [r] with some cells replaced by integers. *)
Definition refined (r r' : row) : Prop :=
  label r' = label r
  /\ Forall2 (fun c c' => c' = c \/ exists z, c' = CInt z) (cells r) (cells r').

(** The cell of the row at position [j] is an integer. *)
Definition int_at (j : nat) (r : row) : Prop := exists z, cells r !! j = Some (CInt z).

(** Each of the columns named in [cols] is absent, or occurs once and holds
    integers only. *)
Definition integer_columns (cols : list string) (df : DataFrame) : Prop :=
  forall col, col ∈ cols ->
    positions col (columns df) 0 = []
    \/ exists j, positions col (columns df) 0 = [j] /\ Forall (int_at j) (rows df).

(** [two_star_rows] after the stage. *)
Definition cleaned_two_star_rows : DataFrame :=
  {| columns := ["PERTENENCIA_ESTABLECIMIENTO_SALUD"; "SEXO"; "ANO_EGRESO";
                 "DIAS_ESTADA"];
     rows := [ {| label := 0;
                  cells := [CStr "*"; CStr "*"; CInt 2019; CInt 5] |} ] |}.

(** The store that holds [cleaned_two_star_rows] and nothing else. *)
Definition stored_cleaned : Engine :=
  {| tables := {[ table_name :=
                    {| t_columns := columns cleaned_two_star_rows;
                       t_rows := [[SqlText "*"; SqlText "*"; SqlInteger 2019;
                                   SqlInteger 5]] |} ]};
     failure := None |}.

(** ** Argument parser *)

(** An argument that [getopt] reads as an option: it starts with [-] and is
    not [-] alone. *)
Definition is_option_like (arg : string) : bool :=
  PyStr.startswith "-" arg && negb (String.eqb arg "-").

(** A prefix of the long option name [file], the empty one included. *)
Definition abbreviates_file (name : string) : Prop :=
  name ∈ [""; "f"; "fi"; "fil"; "file"].

(** The command lines that [getopt] accepts for [-f] and [--file]: the
    arguments, the pairs read from them, and the arguments left unread. *)
Inductive cmdline : list string -> Getopt.options -> list string -> Prop :=
| cmdline_end : cmdline [] [] []
| cmdline_positional a rest :
    is_option_like a = false -> cmdline (a :: rest) [] (a :: rest)
| cmdline_dashes rest : cmdline ("--" :: rest) [] rest
| cmdline_short v args opts rest :
    cmdline args opts rest ->
    cmdline ("-f" :: v :: args) (("-f", v) :: opts) rest
| cmdline_short_glued c v args opts rest :
    cmdline args opts rest ->
    cmdline (("-f" +:+ String c v) :: args) (("-f", String c v) :: opts) rest
| cmdline_long name v args opts rest :
    abbreviates_file name -> name <> "" ->
    cmdline args opts rest ->
    cmdline (("--" +:+ name) :: v :: args) (("--file", v) :: opts) rest
| cmdline_long_equals name v args opts rest :
    abbreviates_file name ->
    cmdline args opts rest ->
    cmdline (("--" +:+ name +:+ "=" +:+ v) :: args) (("--file", v) :: opts) rest.

(** The value that the last pair carries, [""] without any pair. *)
Definition last_value (opts : Getopt.options) : string :=
  List.last (map snd opts) "".

(** ** The path of the store *)

(** The name has no [/] in it. *)
Definition plain_name (b : string) : Prop := PyText.after_last "/" b = 0%nat.

(** * Properties *)

(** ** Year extractor *)

Lemma digit_props c :
  PyStr.is_digit c = true ->
  PyStr.is_space c = false /\ Ascii.eqb c "-" = false /\ Ascii.eqb c "+" = false
  /\ Ascii.eqb c "_" = false /\ 0 <= PyStr.digit_value c <= 9.
Proof.
  destruct c as [[] [] [] [] [] [] [] []]; vm_compute; intros H;
    try discriminate H; repeat split; congruence.
Qed.

Lemma int_four_digits d1 d2 d3 d4 :
  PyStr.is_digit d1 = true -> PyStr.is_digit d2 = true ->
  PyStr.is_digit d3 = true -> PyStr.is_digit d4 = true ->
  PyStr.int (String d1 (String d2 (String d3 (String d4 EmptyString))))
  = Ok (year_value d1 d2 d3 d4).
Proof.
  intros H1 H2 H3 H4.
  destruct (digit_props _ H1) as (S1 & M1 & P1 & U1 & _).
  destruct (digit_props _ H2) as (S2 & _).
  destruct (digit_props _ H3) as (S3 & _).
  destruct (digit_props _ H4) as (S4 & _).
  unfold PyStr.int. cbn [PyStr.lstrip PyStr.rstrip]. rewrite S1.
  cbn [PyStr.rstrip]. rewrite S4. rewrite M1, P1.
  cbn [PyStr.parse_digits]. rewrite H1, H2, H3, H4.
  unfold year_value. f_equal. lia.
Qed.

Lemma app_cons c s t : String c s +:+ t = String c (s +:+ t).
Proof. reflexivity. Qed.

Lemma app_nil t : EmptyString +:+ t = t.
Proof. reflexivity. Qed.

Ltac str_simpl := rewrite ?app_cons, ?app_nil.
Ltac str_simpl_in H := rewrite ?app_cons, ?app_nil in H.

Lemma string_length_app s t :
  String.length (s +:+ t) = (String.length s + String.length t)%nat.
Proof.
  induction s as [|c s IH]; str_simpl; simpl; [reflexivity | now rewrite IH].
Qed.

Lemma string_app_assoc s t u : (s +:+ t) +:+ u = s +:+ (t +:+ u).
Proof. induction s as [|c s IH]; str_simpl; [reflexivity | now f_equal]. Qed.

Lemma startswith_split p s :
  PyStr.startswith p s = true -> s = p +:+ PyStr.drop (String.length p) s.
Proof.
  unfold PyStr.startswith. revert s.
  induction p as [|a p IH]; intros s H; str_simpl.
  - now destruct s.
  - destruct s as [|b s]; simpl in H; [discriminate|].
    destruct (ascii_dec a b) as [->|]; [|discriminate].
    simpl. f_equal. now apply IH.
Qed.

Lemma at_dollar_inv r :
  at_dollar r = true -> r = EmptyString \/ r = String PyStr.newline EmptyString.
Proof.
  unfold at_dollar. intros H. apply orb_true_iff in H.
  destruct H as [H|H]; apply String.eqb_eq in H; auto.
Qed.

Lemma match_year_csv_here_inv s g :
  match_year_csv_here s = Some g ->
  four_digits g
  /\ (s = g +:+ ".csv" \/ s = g +:+ ".csv" +:+ String PyStr.newline EmptyString).
Proof.
  unfold match_year_csv_here.
  destruct s as [|d1 [|d2 [|d3 [|d4 rest]]]]; try discriminate.
  destruct (_ && _) eqn:E; [|discriminate]. intros [= <-].
  rewrite !andb_true_iff in E.
  destruct E as (((((H1 & H2) & H3) & H4) & Hp) & Hd). split.
  - exists d1, d2, d3, d4. auto.
  - apply startswith_split in Hp. simpl String.length in Hp.
    apply at_dollar_inv in Hd. destruct Hd as [Hd|Hd]; rewrite Hd in Hp;
      [left | right]; str_simpl; now rewrite Hp at 1.
Qed.

Lemma match_year_csv_here_tail g tail :
  four_digits g ->
  tail = EmptyString \/ tail = String PyStr.newline EmptyString ->
  match_year_csv_here (g +:+ ".csv" +:+ tail) = Some g.
Proof.
  intros (d1 & d2 & d3 & d4 & -> & H1 & H2 & H3 & H4) Ht.
  str_simpl. unfold match_year_csv_here. rewrite H1, H2, H3, H4.
  now destruct Ht as [->| ->].
Qed.

(** A match found by the search lies at the end of the subject. *)
Lemma re_search_year_csv_inv s g :
  re_search_year_csv s = Some g ->
  four_digits g /\ exists pre,
    s = pre +:+ g +:+ ".csv"
    \/ s = pre +:+ g +:+ ".csv" +:+ String PyStr.newline EmptyString.
Proof.
  induction s as [|c s IH]; intros H.
  - simpl in H. discriminate.
  - cbn [re_search_year_csv] in H.
    destruct (match_year_csv_here (String c s)) as [g'|] eqn:Hm.
    + injection H as ->. apply match_year_csv_here_inv in Hm.
      destruct Hm as [Hg Hs]. split; [exact Hg|]. exists EmptyString. exact Hs.
    + destruct (IH H) as [Hg [pre Hs]]. split; [exact Hg|].
      exists (String c pre). str_simpl. destruct Hs as [->| ->]; auto.
Qed.

Lemma re_search_year_csv_here s g :
  match_year_csv_here s = Some g -> re_search_year_csv s = Some g.
Proof. intros H. destruct s; simpl; simpl in H; now rewrite H. Qed.

(** A subject of one of the two shapes is matched. *)
Lemma re_search_year_csv_found pre g tail :
  four_digits g ->
  tail = EmptyString \/ tail = String PyStr.newline EmptyString ->
  re_search_year_csv (pre +:+ g +:+ ".csv" +:+ tail) <> None.
Proof.
  intros Hg Ht. induction pre as [|c pre IH]; str_simpl.
  - rewrite (re_search_year_csv_here _ g); [discriminate|].
    now apply match_year_csv_here_tail.
  - cbn [re_search_year_csv].
    destruct (match_year_csv_here _); [discriminate | exact IH].
Qed.

Lemma string_app_inv_length (p q s t : string) :
  p +:+ s = q +:+ t -> String.length p = String.length q -> p = q /\ s = t.
Proof.
  revert q. induction p as [|c p IH]; intros [|c' q] H Hl; simpl in Hl;
    try discriminate; str_simpl_in H.
  - auto.
  - injection H as -> H. destruct (IH _ H) as [-> ->]; [lia | auto].
Qed.

(** The search returns the four digits that precede a final [.csv]. *)
Lemma re_search_year_csv_suffix pre g :
  four_digits g -> re_search_year_csv (pre +:+ g +:+ ".csv") = Some g.
Proof.
  intros Hg.
  destruct (re_search_year_csv (pre +:+ g +:+ ".csv")) as [g'|] eqn:Hs.
  - f_equal. apply re_search_year_csv_inv in Hs.
    destruct Hs as [Hg' [pre' Hs]].
    destruct Hg as (d1 & d2 & d3 & d4 & -> & _), Hg' as (e1 & e2 & e3 & e4 & -> & _).
    destruct Hs as [Hs|Hs].
    + apply string_app_inv_length in Hs.
      * destruct Hs as [_ Hs]. str_simpl_in Hs. congruence.
      * apply (f_equal String.length) in Hs.
        rewrite !string_length_app in Hs. simpl in Hs. lia.
    + exfalso.
      assert (String.length pre = S (String.length pre')) as Hlen.
      { apply (f_equal String.length) in Hs.
        rewrite !string_length_app in Hs. simpl in Hs. lia. }
      destruct pre as [|c pre]; [discriminate|].
      replace (String c pre +:+ String d1 (String d2 (String d3 (String d4 ""))) +:+ ".csv")
        with ((String c pre +:+ String d1 (String d2 (String d3 ""))) +:+
              String d4 ".csv") in Hs
        by (rewrite !string_app_assoc; now str_simpl).
      replace (pre' +:+ String e1 (String e2 (String e3 (String e4 ""))) +:+ ".csv"
                 +:+ String PyStr.newline "")
        with ((pre' +:+ String e1 (String e2 (String e3 (String e4 "")))) +:+
              (".csv" +:+ String PyStr.newline "")) in Hs
        by (now rewrite !string_app_assoc).
      apply string_app_inv_length in Hs.
      * destruct Hs as [_ Hs]. discriminate Hs.
      * rewrite !string_length_app. simpl in *. lia.
  - exfalso.
    apply (re_search_year_csv_found pre g EmptyString Hg (or_introl eq_refl)).
    exact Hs.
Qed.

Lemma split_not_nil sep s : PyStr.split sep s <> [].
Proof.
  destruct s as [|c s]; simpl; [discriminate|].
  destruct (Ascii.eqb c sep); [discriminate|].
  destruct (PyStr.split sep s); discriminate.
Qed.

Lemma index_last_not_nil {A} (l : list A) (d : A) :
  l <> [] -> index_last l = Ok (List.last l d).
Proof.
  unfold index_last. induction l as [|x [|y l] IH]; intros H; try done.
  specialize (IH ltac:(discriminate)).
  change (last (x :: y :: l)) with (last (y :: l)).
  change (List.last (x :: y :: l) d) with (List.last (y :: l) d).
  exact IH.
Qed.

Lemma index_first_not_nil {A} (l : list A) (d : A) :
  l <> [] -> index_first l = Ok (hd d l).
Proof. now destruct l. Qed.

Lemma int_raises_value_error s e : PyStr.int s = Raise e -> e = ValueError.
Proof.
  unfold PyStr.int. destruct (PyStr.rstrip _) as [|c r].
  - destruct (PyStr.parse_digits _ _ _); congruence.
  - destruct (Ascii.eqb c "-"); [|destruct (Ascii.eqb c "+")];
      destruct (PyStr.parse_digits _ _ _); congruence.
Qed.

(** When the pattern finds nothing, the fallback decides. *)
Lemma extract_year_no_match file_path :
  re_search_year_csv file_path = None ->
  extract_year_from_path file_path =
    Ok (match PyStr.int (fallback_year_str file_path) with
        | Ok y => Some y
        | Raise _ => None
        end).
Proof.
  intros Hs. unfold extract_year_from_path, fallback_year_str. rewrite Hs.
  rewrite (index_last_not_nil _ EmptyString) by apply split_not_nil.
  cbn [mbind result_bind].
  rewrite (index_first_not_nil _ EmptyString) by apply split_not_nil.
  cbn [mbind result_bind].
  destruct (PyStr.int _) as [y|e] eqn:Hi; cbn [mbind result_bind try_except].
  - reflexivity.
  - now rewrite (int_raises_value_error _ _ Hi).
Qed.

(** When the pattern matches, group 1 is an integer literal. *)
Lemma extract_year_match file_path g :
  re_search_year_csv file_path = Some g ->
  exists d1 d2 d3 d4,
    g = String d1 (String d2 (String d3 (String d4 EmptyString)))
    /\ extract_year_from_path file_path = Ok (Some (year_value d1 d2 d3 d4)).
Proof.
  intros Hs. destruct (re_search_year_csv_inv _ _ Hs) as [Hg _].
  destruct Hg as (d1 & d2 & d3 & d4 & -> & H1 & H2 & H3 & H4).
  exists d1, d2, d3, d4. split; [reflexivity|].
  unfold extract_year_from_path. rewrite Hs.
  now rewrite int_four_digits.
Qed.

(** The extractor never raises. *)
Lemma extract_year_from_path_returns file_path :
  returns (extract_year_from_path file_path).
Proof.
  destruct (re_search_year_csv file_path) as [g|] eqn:Hs.
  - destruct (extract_year_match _ _ Hs) as (? & ? & ? & ? & _ & ->). now eexists.
  - rewrite (extract_year_no_match _ Hs). now eexists.
Qed.

(** C4: for every file path whose name is [EGRE_DATOS_ABIERTOS_YYYY.csv]
    with [YYYY] four digits, whatever the directory part [dir] in front
    of the name, [extract_year_from_path] returns exactly the integer
    [YYYY]. *)
Theorem extract_year_of_matching_name (dir : string) (d1 d2 d3 d4 : ascii) :
  PyStr.is_digit d1 = true -> PyStr.is_digit d2 = true ->
  PyStr.is_digit d3 = true -> PyStr.is_digit d4 = true ->
  extract_year_from_path
    (dir +:+ "EGRE_DATOS_ABIERTOS_" +:+ String d1 (String d2 (String d3 (String d4 ".csv"))))
  = Ok (Some (year_value d1 d2 d3 d4)).
Proof.
  intros H1 H2 H3 H4.
  set (g := String d1 (String d2 (String d3 (String d4 EmptyString)))).
  assert (four_digits g) as Hg by (exists d1, d2, d3, d4; auto).
  assert (dir +:+ "EGRE_DATOS_ABIERTOS_" +:+ String d1 (String d2 (String d3 (String d4 ".csv")))
          = (dir +:+ "EGRE_DATOS_ABIERTOS_") +:+ g +:+ ".csv") as ->.
  { rewrite string_app_assoc. reflexivity. }
  pose proof (re_search_year_csv_suffix (dir +:+ "EGRE_DATOS_ABIERTOS_") g Hg) as Hs.
  destruct (extract_year_match _ _ Hs) as (e1 & e2 & e3 & e4 & Eg & ->).
  unfold g in Eg. now injection Eg as <- <- <- <-.
Qed.

Lemma extract_year_of_matching_name_witness :
  extract_year_from_path "data/EGRE_DATOS_ABIERTOS_2019.csv" = Ok (Some 2019).
Proof.
  apply (extract_year_of_matching_name "data/" "2" "0" "1" "9"); reflexivity.
Defined.

(** C5 as stated fails: a path that does not end with four digits and
    [.csv] still gets a year from the fallback. *)
Lemma extract_year_fallback_counterexample :
  ~ ends_with_year_csv "data/report2019.txt"
  /\ extract_year_from_path "data/report2019.txt" = Ok (Some 2019).
Proof.
  split; [|reflexivity].
  intros (pre & g & Hg & E).
  apply (re_search_year_csv_found pre g EmptyString Hg (or_introl eq_refl)).
  change (".csv" +:+ "") with ".csv". rewrite <- E. reflexivity.
Qed.

(** C5 (amended): for every file path that does not end with four digits
    immediately followed by [.csv], nor with that followed by one final
    newline, [extract_year_from_path] does not raise; it returns the integer
    that [int()] reads from the last four characters of the last path
    segment's part before its first dot, and the failure signal [None] when
    those characters are not an integer literal. *)
Theorem extract_year_fallback (file_path : string) :
  ~ ends_with_year_csv file_path ->
  ~ ends_with_year_csv_newline file_path ->
  extract_year_from_path file_path =
    Ok (match PyStr.int (fallback_year_str file_path) with
        | Ok y => Some y
        | Raise _ => None
        end).
Proof.
  intros Hn1 Hn2. apply extract_year_no_match.
  destruct (re_search_year_csv file_path) as [g|] eqn:Hs; [exfalso | reflexivity].
  destruct (re_search_year_csv_inv _ _ Hs) as [Hg [pre [E|E]]].
  - apply Hn1. now exists pre, g.
  - apply Hn2. now exists pre, g.
Qed.

Lemma not_ends_with_year_csv_by_search s :
  re_search_year_csv s = None ->
  ~ ends_with_year_csv s /\ ~ ends_with_year_csv_newline s.
Proof.
  intros Hs. split; intros (pre & g & Hg & E).
  - apply (re_search_year_csv_found pre g EmptyString Hg (or_introl eq_refl)).
    change (".csv" +:+ "") with ".csv". now rewrite <- E.
  - apply (re_search_year_csv_found pre g _ Hg (or_intror eq_refl)).
    now rewrite <- E.
Qed.

Lemma extract_year_fallback_witness :
  extract_year_from_path "data/report.txt" = Ok None
  /\ extract_year_from_path "data/12.txt" = Ok (Some 12).
Proof.
  split.
  - refine (extract_year_fallback "data/report.txt" _ _);
      apply not_ends_with_year_csv_by_search; reflexivity.
  - refine (extract_year_fallback "data/12.txt" _ _);
      apply not_ends_with_year_csv_by_search; reflexivity.
Defined.

(** ** Preprocessor: the rename step *)

Lemma valid_column_mapping_lookup cols c :
  c ∈ cols -> valid_column_mapping cols !! c = column_mapping !! c.
Proof.
  intros Hc. unfold valid_column_mapping.
  destruct (column_mapping !! c) as [v|] eqn:E.
  - apply map_lookup_filter_Some. split; [exact E | exact Hc].
  - apply map_lookup_filter_None. left. exact E.
Qed.

(** Only the names that are present are looked up, so the restriction of
    the mapping to the present keys is not visible in the result. *)
Lemma rename_columns_map cols : rename_columns cols = map rename_column cols.
Proof.
  unfold rename_columns, rename_with, rename_column.
  apply map_ext_in. intros c Hc.
  rewrite valid_column_mapping_lookup; [reflexivity|].
  now apply list_elem_of_In.
Qed.

(** Every target name of the mapping is mapped to itself. *)
Lemma column_mapping_target_fixed k v :
  column_mapping !! k = Some v -> rename_column v = v.
Proof.
  intros H. unfold column_mapping in H. apply elem_of_list_to_map_2 in H.
  repeat (apply elem_of_cons in H; destruct H as [H|H];
          [injection H as -> ->; vm_compute; reflexivity|]).
  now apply elem_of_nil in H.
Qed.

Lemma rename_column_idempotent c : rename_column (rename_column c) = rename_column c.
Proof.
  unfold rename_column at 2 3.
  destruct (column_mapping !! c) as [v|] eqn:E; simpl.
  - now apply (column_mapping_target_fixed c).
  - unfold rename_column. now rewrite E.
Qed.

(** C8: the rename step of [preprocess_data] is idempotent: for every list
    of column names, renaming twice gives the same names as renaming
    once. *)
Theorem rename_columns_idempotent (cols : list string) :
  rename_columns (rename_columns cols) = rename_columns cols.
Proof.
  rewrite !rename_columns_map, map_map.
  apply map_ext. intros c. apply rename_column_idempotent.
Qed.

Lemma rename_columns_length cols : length (rename_columns cols) = length cols.
Proof. unfold rename_columns, rename_with. apply length_map. Qed.

(** ** Preprocessor: rows and cells *)

Lemma same_outside_refl excluded cols r : same_outside excluded cols r r.
Proof. repeat split. Qed.

Lemma same_outside_trans excluded cols r1 r2 r3 :
  same_outside excluded cols r1 r2 -> same_outside excluded cols r2 r3 ->
  same_outside excluded cols r1 r3.
Proof.
  intros (L1 & N1 & C1) (L2 & N2 & C2). repeat split; try congruence.
  intros j name Hj Hn. rewrite (C2 j name Hj Hn). exact (C1 j name Hj Hn).
Qed.

Lemma Forall2_same_outside_refl excluded cols rs :
  Forall2 (same_outside excluded cols) rs rs.
Proof. induction rs; constructor; auto using same_outside_refl. Qed.

Lemma Forall2_same_outside_trans excluded cols rs1 rs2 rs3 :
  Forall2 (same_outside excluded cols) rs1 rs2 ->
  Forall2 (same_outside excluded cols) rs2 rs3 ->
  Forall2 (same_outside excluded cols) rs1 rs3.
Proof.
  intros H. revert rs3. induction H; intros rs3 H3; inversion H3; subst;
    constructor; eauto using same_outside_trans.
Qed.

Lemma positions_lookup col cols from j :
  j ∈ positions col cols from ->
  (from <= j)%nat /\ cols !! (j - from)%nat = Some col.
Proof.
  revert from. induction cols as [|c cols IH]; intros from H; simpl in H.
  - now apply elem_of_nil in H.
  - destruct (String.eqb c col) eqn:E.
    + apply elem_of_cons in H. destruct H as [->|H].
      * apply String.eqb_eq in E. subst. split; [lia|].
        now rewrite Nat.sub_diag.
      * destruct (IH _ H) as [Hle Hl]. split; [lia|].
        replace (j - from)%nat with (S (j - S from)) by lia. exact Hl.
    + destruct (IH _ H) as [Hle Hl]. split; [lia|].
      replace (j - from)%nat with (S (j - S from)) by lia. exact Hl.
Qed.

Lemma positions_nil col cols from :
  positions col cols from = [] <-> col ∉ cols.
Proof.
  revert from. induction cols as [|c cols IH]; intros from; simpl.
  - split; [intros _; apply not_elem_of_nil | reflexivity].
  - rewrite not_elem_of_cons. destruct (String.eqb c col) eqn:E.
    + apply String.eqb_eq in E. subst. split; [discriminate | tauto].
    + apply String.eqb_neq in E. rewrite IH. split; [intros; split; congruence | tauto].
Qed.

Lemma set_column_frame excluded cols col j vs rs :
  length vs = length rs -> cols !! j = Some col -> col ∈ excluded ->
  Forall2 (same_outside excluded cols) rs (set_column j vs rs).
Proof.
  intros Hlen Hj Hex. unfold set_column. revert vs Hlen.
  induction rs as [|r rs IH]; intros [|v vs] Hlen; simpl in *; try discriminate.
  - constructor.
  - constructor; [|apply IH; lia].
    repeat split; simpl.
    + apply length_insert.
    + intros j' name Hj' Hn. apply list_lookup_insert_ne. congruence.
Qed.

Section PreprocessorFacts.

Variable parse_number : string -> option numeric.

Lemma to_int_series_length cs vs :
  to_int_series parse_number cs = Ok vs -> length vs = length cs.
Proof.
  unfold to_int_series. destruct (forallb _ _).
  - intros [= <-]. now rewrite !length_map.
  - destruct (forallb _ _); [|discriminate].
    intros [= <-]. now rewrite !length_map.
Qed.

Lemma convert_int_column_frame excluded df col df' :
  col ∈ excluded ->
  convert_int_column parse_number df col = Ok df' ->
  columns df' = columns df
  /\ Forall2 (same_outside excluded (columns df)) (rows df) (rows df').
Proof.
  intros Hex. unfold convert_int_column.
  destruct (positions col (columns df) 0) as [|j [|j' js]] eqn:Hp.
  - intros [= <-]. split; [reflexivity | apply Forall2_same_outside_refl].
  - destruct (to_int_series _ _) as [vs|e] eqn:Hs; [|discriminate].
    intros [= <-]. split; [reflexivity|]. simpl.
    apply (set_column_frame excluded (columns df) col); [| |exact Hex].
    + apply to_int_series_length in Hs. rewrite Hs.
      unfold column_values. apply length_map.
    + assert (j ∈ positions col (columns df) 0) as Hin by (rewrite Hp; left).
      apply positions_lookup in Hin. destruct Hin as [_ Hin].
      now rewrite Nat.sub_0_r in Hin.
  - discriminate.
Qed.

Lemma convert_int_columns_frame excluded cols df df' :
  (forall c, c ∈ cols -> c ∈ excluded) ->
  convert_int_columns parse_number df cols = Ok df' ->
  columns df' = columns df
  /\ Forall2 (same_outside excluded (columns df)) (rows df) (rows df').
Proof.
  revert df. induction cols as [|col cols IH]; intros df Hsub; simpl.
  - intros [= <-]. split; [reflexivity | apply Forall2_same_outside_refl].
  - destruct (convert_int_column parse_number df col) as [df1|e] eqn:H1;
      [|discriminate].
    cbn [mbind result_bind]. intros H2.
    apply (convert_int_column_frame excluded) in H1; [|apply Hsub; left].
    destruct H1 as [C1 F1].
    apply IH in H2; [|intros c Hc; apply Hsub; now right].
    destruct H2 as [C2 F2]. split; [congruence|].
    rewrite C1 in F2. eapply Forall2_same_outside_trans; eauto.
Qed.

(** What a returned batch looks like: the input itself when that is empty;
    otherwise the rows that pass the filter, in order, with the renamed
    column names and with cells changed only under the integer columns. *)
Lemma preprocess_data_inv df threshold out :
  preprocess_data parse_number df threshold = Ok out ->
  (empty df = true /\ out = df)
  \/ (empty df = false
      /\ exists allowed_stars,
           allowed_stars_of (Z.of_nat (length (columns df))) threshold = Ok allowed_stars
           /\ columns out = rename_columns (columns df)
           /\ Forall2 (same_outside int_columns_to_convert (columns out))
                (filter_rows allowed_stars (rows df)) (rows out)).
Proof.
  unfold preprocess_data. destruct (empty df).
  - intros [= <-]. now left.
  - destruct (allowed_stars_of _ _) as [a|e]; [|discriminate].
    cbn [mbind result_bind]. intros H. right. split; [reflexivity|].
    exists a. split; [reflexivity|].
    apply (convert_int_columns_frame int_columns_to_convert) in H; [|auto].
    cbn [columns rows] in H. destruct H as [-> H]. auto.
Qed.

End PreprocessorFacts.

(** ** Preprocessor: the threshold *)

Lemma binary_round_aux_sign s m e l :
  match binary_round_aux PyFloat.prec PyFloat.emax s m e l with
  | S754_zero s' | S754_finite s' _ _ => s' = s
  | _ => True
  end.
Proof.
  unfold binary_round_aux.
  destruct (shr_fexp _ _ m e l) as [mrs' e'].
  destruct (shr_fexp _ _ _ e' loc_Exact) as [mrs'' e''].
  destruct (shr_m mrs''); [reflexivity | | exact I].
  now destruct (Z.leb _ _).
Qed.

Lemma of_int_nonneg n f :
  0 <= n -> PyFloat.of_int n = Ok f -> PyFloat.is_finite f = true ->
  PyFloat.is_nonneg f = true.
Proof.
  unfold PyFloat.of_int, PyFloat.of_mantissa_exponent, binary_normalize.
  destruct n as [|m|m]; [| |lia]; intros _.
  - now intros [= <-].
  - unfold binary_round. destruct (shl_align _ _ _) as [mz ez].
    pose proof (binary_round_aux_sign false (Z.pos mz) ez loc_Exact) as Hs.
    destruct (binary_round_aux _ _ _ _ _ _); try discriminate;
      intros [= <-]; subst; try reflexivity; discriminate.
Qed.

(** The product of a count of columns and a threshold that is not negative
    is not negative. *)
Lemma int_mul_nonneg n t p :
  0 <= n -> PyFloat.is_nonneg t = true ->
  PyFloat.int_mul n t = Ok p -> PyFloat.is_finite p = true ->
  PyFloat.is_nonneg p = true.
Proof.
  intros Hn Ht. unfold PyFloat.int_mul.
  destruct (PyFloat.of_int n) as [f|e] eqn:Hf; [|discriminate].
  cbn [mbind result_bind]. intros [= <-] Hp.
  assert (PyFloat.is_finite f = true) as Hff.
  { destruct f, t; try discriminate; reflexivity. }
  pose proof (of_int_nonneg n f Hn Hf Hff) as Hfn.
  destruct f as [sf| | |sf mf ef], t as [st| | |st mt et]; try discriminate;
    try reflexivity.
  destruct sf, st; try discriminate.
  unfold SFmul in *. simpl xorb in *.
  pose proof (binary_round_aux_sign false (Z.pos (mf * mt)) (ef + et) loc_Exact) as Hs.
  destruct (binary_round_aux _ _ _ _ _ _); try discriminate; subst; reflexivity.
Qed.

(** On a float that is not negative, [int()] is the floor. *)
Lemma to_int_floor_nonneg p a :
  PyFloat.is_nonneg p = true -> PyFloat.to_int p = Ok a -> PyFloat.floor p = Some a.
Proof.
  destruct p as [s| | |[] m e]; try discriminate; simpl; now intros _ [= <-].
Qed.

(** With the default threshold 0.5 the bound is half the number of columns,
    rounded down; checked here for every batch of up to 1024 columns. *)
Lemma default_threshold_allowed_stars n :
  1 <= n <= 1024 -> allowed_stars_of n PyFloat.half = Ok (n / 2).
Proof.
  intros Hn.
  assert (forallb
            (fun k => match allowed_stars_of (Z.of_nat k) PyFloat.half with
                      | Ok a => a =? Z.of_nat k / 2
                      | Raise _ => false
                      end)
            (seq 1 1024) = true) as Hall by (vm_compute; reflexivity).
  rewrite forallb_forall in Hall.
  specialize (Hall (Z.to_nat n)). rewrite Z2Nat.id in Hall by lia.
  destruct (allowed_stars_of n PyFloat.half) as [a|e].
  - f_equal. apply Z.eqb_eq, Hall, in_seq. lia.
  - discriminate Hall. apply in_seq. lia.
Qed.

Lemma filter_rows_labels allowed_stars rs rs' excluded cols :
  Forall2 (same_outside excluded cols) (filter_rows allowed_stars rs) rs' ->
  forall l, l ∈ map label rs' <->
            exists r, r ∈ rs /\ label r = l /\ count_stars r <= allowed_stars.
Proof.
  intros HF l.
  assert (map label rs' = map label (filter_rows allowed_stars rs)) as ->.
  { induction HF as [|r r' ? ? (L & _) _ IH]; simpl; [reflexivity | now f_equal]. }
  unfold filter_rows. rewrite list_elem_of_In, in_map_iff. split.
  - intros (r & Hl & Hr). apply list_elem_of_In, list_elem_of_filter in Hr.
    exists r. tauto.
  - intros (r & Hr & Hl & Hc). exists r. split; [exact Hl|].
    apply list_elem_of_In, list_elem_of_filter. tauto.
Qed.

(** C2 as stated fails, whichever way the product [N * t] is read as a
    real number, for thresholds that are proportions. On the float that
    [0.6] is: with 5 columns the exact product is just below 3 and its floor
    is 2, yet the row with 3 sentinel cells is kept, because the float
    product rounds to 3.0. On the decimal [0.7]: with 90 columns the floor
    of the product is 63, yet the row with 63 sentinel cells is dropped,
    because the float product is 62.99999999999999 and [int()] gives 62. *)
Lemma preprocess_bound_is_float_product_counterexample :
  (nearest_float 6 10 three_fifths
   /\ empty three_of_five = false
   /\ exact_floor_product (Z.of_nat (length (columns three_of_five))) three_fifths
      = Some 2
   /\ Forall (fun r => count_stars r = 3) (rows three_of_five)
   /\ preprocess_data parse_decimal three_of_five three_fifths = Ok three_of_five)
  /\ (nearest_float 7 10 seven_tenths
      /\ empty sixty_three_of_ninety = false
      /\ Z.of_nat (length (columns sixty_three_of_ninety)) * 7 / 10 = 63
      /\ Forall (fun r => count_stars r = 63) (rows sixty_three_of_ninety)
      /\ allowed_stars_of (Z.of_nat (length (columns sixty_three_of_ninety)))
           seven_tenths = Ok 62
      /\ preprocess_data parse_decimal sixty_three_of_ninety seven_tenths
         = Ok {| columns := columns sixty_three_of_ninety; rows := [] |}).
Proof.
  split.
  - split; [vm_compute; repeat split; discriminate|].
    split; [reflexivity|]. split; [reflexivity|].
    split; [repeat constructor | vm_compute; reflexivity].
  - split; [vm_compute; repeat split; discriminate|].
    split; [reflexivity|]. split; [reflexivity|].
    split; [repeat constructor|]. split; vm_compute; reflexivity.
Qed.

(** C2 (amended): for every non-empty batch with [N] columns and threshold
    [t] for which [int(N * t)] is defined (the float product is finite),
    the row selection of [preprocess_data] keeps a row if and only if the
    number of its cells equal to ['*'] is at most [int(N * t)], where
    [N * t] is the float product, rounded to the nearest float, and [int]
    truncates toward zero; whenever the stage returns a batch, the labels of
    its rows are exactly the labels of the rows so selected. A row with
    exactly that many sentinel cells is kept. For a threshold that is not negative the
    bound is the floor of the float product; for the default threshold 0.5
    and up to 1024 columns it is exactly [floor(N / 2)]. *)
Theorem preprocess_keeps_up_to_allowed_stars
    (parse_number : string -> option numeric) (df : DataFrame)
    (threshold : spec_float) (allowed_stars : Z) :
  empty df = false ->
  allowed_stars_of (Z.of_nat (length (columns df))) threshold = Ok allowed_stars ->
  (forall r, r ∈ filter_rows allowed_stars (rows df) <->
             r ∈ rows df /\ count_stars r <= allowed_stars)
  /\ (forall out, preprocess_data parse_number df threshold = Ok out ->
        forall l, l ∈ labels out <->
                  exists r, r ∈ rows df /\ label r = l /\ count_stars r <= allowed_stars)
  /\ (exists p, PyFloat.int_mul (Z.of_nat (length (columns df))) threshold = Ok p
        /\ PyFloat.to_int p = Ok allowed_stars
        /\ (PyFloat.is_nonneg threshold = true -> PyFloat.floor p = Some allowed_stars))
  /\ (threshold = PyFloat.half -> Z.of_nat (length (columns df)) <= 1024 ->
        allowed_stars = Z.of_nat (length (columns df)) / 2).
Proof.
  intros Hne Ha. split; [|split; [|split]].
  - intros r. unfold filter_rows. rewrite list_elem_of_filter. tauto.
  - intros out Hout l.
    apply preprocess_data_inv in Hout.
    destruct Hout as [[He _]|[_ (a & Ha' & _ & HF)]]; [congruence|].
    rewrite Ha in Ha'. injection Ha' as <-.
    unfold labels. eapply filter_rows_labels. exact HF.
  - unfold allowed_stars_of in Ha.
    destruct (PyFloat.int_mul _ _) as [p|e] eqn:Hp; [|discriminate].
    cbn [mbind result_bind] in Ha. exists p. split; [reflexivity|].
    split; [exact Ha|]. intros Ht.
    apply to_int_floor_nonneg; [|exact Ha].
    apply (int_mul_nonneg (Z.of_nat (length (columns df))) threshold);
      [lia | exact Ht | exact Hp |].
    destruct p; try discriminate; reflexivity.
  - intros -> Hn.
    rewrite default_threshold_allowed_stars in Ha; [now injection Ha as <-|].
    split; [|exact Hn]. unfold empty in Hne.
    destruct (columns df); [discriminate | cbn [length]; lia].
Qed.

Lemma preprocess_keeps_up_to_allowed_stars_witness :
  (forall r, r ∈ filter_rows 2 (rows two_star_rows) <->
             r ∈ rows two_star_rows /\ count_stars r <= 2)
  /\ (forall out, preprocess_data parse_decimal two_star_rows PyFloat.half = Ok out ->
        forall l, l ∈ labels out <->
                  exists r, r ∈ rows two_star_rows /\ label r = l /\ count_stars r <= 2)
  /\ (exists p, PyFloat.int_mul (Z.of_nat (length (columns two_star_rows))) PyFloat.half = Ok p
        /\ PyFloat.to_int p = Ok 2
        /\ (PyFloat.is_nonneg PyFloat.half = true -> PyFloat.floor p = Some 2))
  /\ (PyFloat.half = PyFloat.half ->
        Z.of_nat (length (columns two_star_rows)) <= 1024 ->
        2 = Z.of_nat (length (columns two_star_rows)) / 2).
Proof.
  apply (preprocess_keeps_up_to_allowed_stars parse_decimal two_star_rows PyFloat.half 2);
    reflexivity.
Defined.

(** ** Preprocessor: shape and frame *)

Lemma Forall2_same_outside_labels excluded cols rs rs' :
  Forall2 (same_outside excluded cols) rs rs' -> map label rs' = map label rs.
Proof.
  induction 1 as [|r r' ? ? (L & _) _ IH]; simpl; [reflexivity | now f_equal].
Qed.

(** C9: for every input batch, the batch returned by [preprocess_data] has
    exactly as many columns as the input and at most as many rows, and the
    rows it keeps are a sublist of the input rows: they appear in the same
    relative order, under the same labels. *)
Theorem preprocess_data_shape
    (parse_number : string -> option numeric) (df : DataFrame)
    (threshold : spec_float) (out : DataFrame) :
  preprocess_data parse_number df threshold = Ok out ->
  length (columns out) = length (columns df)
  /\ (length (rows out) <= length (rows df))%nat
  /\ exists kept, kept `sublist_of` rows df /\ labels out = map label kept.
Proof.
  intros H. apply preprocess_data_inv in H.
  destruct H as [[_ ->]|[_ (a & _ & Hc & HF)]].
  - split; [reflexivity|]. split; [lia|]. now exists (rows df).
  - split; [rewrite Hc; apply rename_columns_length|]. split.
    + rewrite <- (Forall2_length _ _ _ HF). apply length_filter.
    + exists (filter_rows a (rows df)). split; [apply sublist_filter|].
      unfold labels. eapply Forall2_same_outside_labels; eauto.
Qed.

Lemma preprocess_data_shape_witness :
  length (columns two_star_rows) = length (columns two_star_rows)
  /\ (1 <= length (rows two_star_rows))%nat
  /\ exists kept, kept `sublist_of` rows two_star_rows /\ [0] = map label kept.
Proof.
  exact (preprocess_data_shape parse_decimal two_star_rows PyFloat.half
           {| columns := ["PERTENENCIA_ESTABLECIMIENTO_SALUD"; "SEXO"; "ANO_EGRESO";
                          "DIAS_ESTADA"];
              rows := [ {| label := 0;
                           cells := [CStr "*"; CStr "*"; CInt 2019; CInt 5] |} ] |}
           eq_refl).
Defined.

(** C10: for every row kept by [preprocess_data], every cell in a column
    whose name in the returned batch is not one of the four integer columns
    is the same in the output as in the input; only the name of the column
    may change, through the rename mapping. *)
Theorem preprocess_data_frame
    (parse_number : string -> option numeric) (df : DataFrame)
    (threshold : spec_float) (out : DataFrame) :
  preprocess_data parse_number df threshold = Ok out ->
  (exists kept,
     kept `sublist_of` rows df
     /\ Forall2
          (fun r r' =>
             label r' = label r
             /\ forall j name, columns out !! j = Some name ->
                  name ∉ int_columns_to_convert ->
                  cells r' !! j = cells r !! j)
          kept (rows out))
  /\ (empty df = false -> columns out = map rename_column (columns df)).
Proof.
  intros H. apply preprocess_data_inv in H.
  destruct H as [[He ->]|[_ (a & _ & Hc & HF)]].
  - split; [|congruence]. exists (rows df). split; [reflexivity|].
    clear. induction (rows df); constructor; auto.
  - split; [|intros _; now rewrite Hc, rename_columns_map].
    exists (filter_rows a (rows df)). split; [apply sublist_filter|].
    eapply Forall2_impl; [exact HF|].
    intros r r' (L & _ & C). split; [exact L | exact C].
Qed.

Lemma preprocess_data_frame_witness :
  (exists kept,
     kept `sublist_of` rows two_star_rows
     /\ Forall2
          (fun r r' =>
             label r' = label r
             /\ forall j name,
                  ["PERTENENCIA_ESTABLECIMIENTO_SALUD"; "SEXO"; "ANO_EGRESO";
                   "DIAS_ESTADA"] !! j = Some name ->
                  name ∉ int_columns_to_convert ->
                  cells r' !! j = cells r !! j)
          kept [ {| label := 0; cells := [CStr "*"; CStr "*"; CInt 2019; CInt 5] |} ])
  /\ (empty two_star_rows = false ->
      ["PERTENENCIA_ESTABLECIMIENTO_SALUD"; "SEXO"; "ANO_EGRESO"; "DIAS_ESTADA"]
      = map rename_column (columns two_star_rows)).
Proof.
  exact (preprocess_data_frame parse_decimal two_star_rows PyFloat.half
           {| columns := ["PERTENENCIA_ESTABLECIMIENTO_SALUD"; "SEXO"; "ANO_EGRESO";
                          "DIAS_ESTADA"];
              rows := [ {| label := 0;
                           cells := [CStr "*"; CStr "*"; CInt 2019; CInt 5] |} ] |}
           eq_refl).
Defined.

(** ** Preprocessor: integer coercion *)

Lemma positions_complete col cols from j :
  cols !! j = Some col -> (from + j)%nat ∈ positions col cols from.
Proof.
  revert from j. induction cols as [|c cols IH]; intros from [|j] H; simpl in *;
    try discriminate.
  - injection H as ->. rewrite String.eqb_refl, Nat.add_0_r. left.
  - replace (from + S j)%nat with (S from + j)%nat by lia.
    destruct (String.eqb c col); [right|]; now apply IH.
Qed.

Section Coercion.

Variable parse_number : string -> option numeric.

Lemma unparseable_coerced_to_nan s :
  parse_number s = None -> coerced_to_nan parse_number (CStr s).
Proof. unfold coerced_to_nan. simpl. now intros ->. Qed.

Lemma coerced_to_nan_not_infinite c :
  coerced_to_nan parse_number c -> not_infinite parse_number c.
Proof. unfold coerced_to_nan, not_infinite. now intros ->. Qed.

Lemma to_int_series_coerced cs vs :
  to_int_series parse_number cs = Ok vs -> Forall2 (coerced parse_number) cs vs.
Proof.
  unfold to_int_series. destruct (forallb _ _) eqn:Hall.
  - intros [= <-]. rewrite forallb_forall in Hall.
    induction cs as [|c cs IH]; simpl; constructor.
    + assert (is_int (to_numeric_cell parse_number c) = true) as Hi
        by (apply Hall; now left).
      unfold coerced, coerced_to_nan.
      destruct (to_numeric_cell parse_number c); [|discriminate].
      split; [now eexists | discriminate].
    + apply IH. intros n Hn. apply Hall. now right.
  - clear Hall. destruct (forallb _ _); [|discriminate]. intros [= <-].
    induction cs as [|c cs IH]; simpl; constructor; [|exact IH].
    split; [now eexists|]. unfold coerced_to_nan. now intros ->.
Qed.

Lemma to_int_series_returns cs :
  Forall (not_infinite parse_number) cs -> returns (to_int_series parse_number cs).
Proof.
  intros H. unfold to_int_series.
  destruct (forallb is_int _); [now eexists|].
  assert (forallb PyFloat.is_finite
            (map (fun n => fillna_zero (as_float n))
                 (map (to_numeric_cell parse_number) cs)) = true) as ->;
    [|now eexists].
  induction H as [|c cs Hc _ IH]; simpl; [reflexivity|].
  unfold not_infinite in Hc. now rewrite Hc.
Qed.

Lemma converted_start cols rs : Forall2 (converted parse_number cols []) rs rs.
Proof.
  induction rs; constructor; [|assumption].
  split; [reflexivity|]. intros j name _. split; [|reflexivity].
  intros H. now apply elem_of_nil in H.
Qed.

Lemma set_column_converted cols col j vs rs :
  positions col cols 0 = [j] ->
  Forall2 (coerced parse_number) (column_values j rs) vs ->
  Forall2 (converted parse_number cols [col]) rs (set_column j vs rs).
Proof.
  intros Hp. unfold set_column, column_values. revert vs.
  induction rs as [|r rs IH]; intros vs HF; simpl in *.
  - inversion HF. constructor.
  - inversion HF as [|c v cs vs' Hcv HF']; subst. simpl. constructor; [|now apply IH].
    split; [reflexivity|]. intros j' name Hj'. simpl. split.
    + intros Hin c' Hc'. apply list_elem_of_singleton in Hin. subst name.
      assert (j' = j) as ->.
      { apply (positions_complete _ _ 0%nat) in Hj'. rewrite Hp in Hj'.
        apply list_elem_of_singleton in Hj'. simpl in Hj'. exact Hj'. }
      destruct (cells r !! j) as [c|] eqn:Hc.
      * exists c. split; [reflexivity|].
        rewrite list_lookup_insert_eq in Hc' by (now apply lookup_lt_Some in Hc).
        injection Hc' as <-.
        now rewrite (list_lookup_total_correct _ _ _ Hc) in Hcv.
      * apply lookup_ge_None in Hc.
        rewrite list_insert_ge in Hc' by exact Hc.
        apply lookup_lt_Some in Hc'. lia.
    + intros Hn. apply list_lookup_insert_ne. intros ->.
      apply Hn. apply list_elem_of_singleton.
      assert (j' ∈ positions col cols 0) as Hin by (rewrite Hp; left).
      apply positions_lookup in Hin. destruct Hin as [_ Hin].
      rewrite Nat.sub_0_r in Hin. congruence.
Qed.

Lemma converted_absent cols col rs :
  positions col cols 0 = [] -> Forall2 (converted parse_number cols [col]) rs rs.
Proof.
  intros Hp. apply positions_nil in Hp.
  induction rs; constructor; [|assumption].
  split; [reflexivity|]. intros j name Hj. split; [|reflexivity].
  intros Hin. apply list_elem_of_singleton in Hin. subst name.
  exfalso. apply Hp. eapply list_elem_of_lookup_2; eauto.
Qed.

Lemma converted_step cols col done r r1 r2 :
  col ∉ done ->
  converted parse_number cols done r r1 ->
  converted parse_number cols [col] r1 r2 ->
  converted parse_number cols (col :: done) r r2.
Proof.
  intros Hnew (L1 & C1) (L2 & C2). split; [congruence|].
  intros j name Hj. destruct (C1 j name Hj) as [D1 U1].
  destruct (C2 j name Hj) as [D2 U2]. split.
  - intros Hin c' Hc'. destruct (decide (name = col)) as [->|Hne].
    + destruct (D2 ltac:(now apply list_elem_of_singleton) c' Hc') as (c & Hc & Hco).
      exists c. split; [|exact Hco]. now rewrite <- (U1 Hnew).
    + apply elem_of_cons in Hin. destruct Hin as [?|Hin]; [contradiction|].
      apply (D1 Hin). rewrite <- Hc'. symmetry. apply U2.
      intros H. apply list_elem_of_singleton in H. contradiction.
  - intros Hn. apply not_elem_of_cons in Hn. destruct Hn as [Hne Hn].
    rewrite U2; [now apply U1|].
    intros H. apply list_elem_of_singleton in H. contradiction.
Qed.

Lemma Forall2_converted_step cols col done rs0 rs1 rs2 :
  col ∉ done ->
  Forall2 (converted parse_number cols done) rs0 rs1 ->
  Forall2 (converted parse_number cols [col]) rs1 rs2 ->
  Forall2 (converted parse_number cols (col :: done)) rs0 rs2.
Proof.
  intros Hn H. revert rs2.
  induction H; intros rs2 H2; inversion H2; subst; constructor;
    eauto using converted_step.
Qed.

Lemma convert_int_column_converted df col df' :
  convert_int_column parse_number df col = Ok df' ->
  columns df' = columns df
  /\ Forall2 (converted parse_number (columns df) [col]) (rows df) (rows df').
Proof.
  unfold convert_int_column.
  destruct (positions col (columns df) 0) as [|j [|j' js]] eqn:Hp.
  - intros [= <-]. split; [reflexivity | now apply converted_absent].
  - destruct (to_int_series _ _) as [vs|e] eqn:Hs; [|discriminate].
    intros [= <-]. split; [reflexivity|]. simpl.
    apply set_column_converted; [exact Hp | now apply to_int_series_coerced].
  - discriminate.
Qed.

Lemma convert_int_columns_converted cols done df df' :
  NoDup cols -> (forall c, c ∈ cols -> c ∉ done) ->
  convert_int_columns parse_number df cols = Ok df' ->
  forall rs0, Forall2 (converted parse_number (columns df) done) rs0 (rows df) ->
  columns df' = columns df
  /\ Forall2 (converted parse_number (columns df) (rev cols ++ done)) rs0 (rows df').
Proof.
  revert done df. induction cols as [|col cols IH]; intros done df Hnd Hfresh; simpl.
  - intros [= <-] rs0 H0. auto.
  - destruct (convert_int_column parse_number df col) as [df1|e] eqn:H1;
      [|discriminate].
    cbn [mbind result_bind]. intros H2 rs0 H0.
    apply convert_int_column_converted in H1. destruct H1 as [C1 F1].
    apply NoDup_cons in Hnd. destruct Hnd as [Hnotin Hnd].
    assert (Forall2 (converted parse_number (columns df) (col :: done)) rs0 (rows df1))
      as F01.
    { eapply Forall2_converted_step; eauto. apply Hfresh. left. }
    rewrite <- C1 in F01.
    destruct (IH (col :: done) df1 Hnd) with (rs0 := rs0) as [C2 F2]; auto.
    { intros c Hc Hin. apply elem_of_cons in Hin. destruct Hin as [->|Hin].
      - contradiction.
      - apply (Hfresh c); [now right | exact Hin]. }
    split; [congruence|]. rewrite C1 in F2. now rewrite <- app_assoc.
Qed.

End Coercion.

Section CoercionReturns.

Variable parse_number : string -> option numeric.

Lemma convert_int_column_returns df col :
  (length (positions col (columns df) 0) <= 1)%nat ->
  (forall j, columns df !! j = Some col ->
     Forall (fun r => not_infinite parse_number (cells r !!! j)) (rows df)) ->
  returns (convert_int_column parse_number df col).
Proof.
  intros Hlen Hfin. unfold convert_int_column.
  destruct (positions col (columns df) 0) as [|j [|j' js]] eqn:Hp.
  - now eexists.
  - assert (columns df !! j = Some col) as Hj.
    { assert (j ∈ positions col (columns df) 0) as Hin by (rewrite Hp; left).
      apply positions_lookup in Hin. destruct Hin as [_ Hin].
      now rewrite Nat.sub_0_r in Hin. }
    destruct (to_int_series_returns parse_number (column_values j (rows df)))
      as [vs Hvs].
    { unfold column_values. apply Forall_map. exact (Hfin j Hj). }
    rewrite Hvs. now eexists.
  - simpl in Hlen. lia.
Qed.

Lemma convert_int_columns_returns cols df :
  NoDup cols ->
  (forall col, col ∈ cols -> (length (positions col (columns df) 0) <= 1)%nat) ->
  (forall col j, col ∈ cols -> columns df !! j = Some col ->
     Forall (fun r => not_infinite parse_number (cells r !!! j)) (rows df)) ->
  returns (convert_int_columns parse_number df cols).
Proof.
  revert df. induction cols as [|col cols IH]; intros df Hnd Hlen Hfin; simpl.
  - now eexists.
  - apply NoDup_cons in Hnd. destruct Hnd as [Hnotin Hnd].
    destruct (convert_int_column_returns df col) as [df1 H1].
    { apply Hlen. left. }
    { intros j Hj. apply (Hfin col); [left | exact Hj]. }
    rewrite H1. cbn [mbind result_bind].
    apply convert_int_column_converted in H1. destruct H1 as [C1 F1].
    apply IH; [exact Hnd | |].
    + intros c Hc. rewrite C1. apply Hlen. now right.
    + intros c j Hc Hj. rewrite C1 in Hj.
      assert (Forall (fun r => not_infinite parse_number (cells r !!! j)) (rows df))
        as HF by (apply (Hfin c); [now right | exact Hj]).
      clear -HF F1 Hj Hc Hnotin. induction F1 as [|r r1 ? ? (_ & Hr) _ IHF];
        [constructor|].
      apply Forall_cons in HF. destruct HF as [Hr0 HF].
      constructor; [|now apply IHF].
      destruct (Hr j c Hj) as [_ Hsame].
      rewrite list_lookup_total_alt, Hsame, <- list_lookup_total_alt; [exact Hr0|].
      intros H. apply list_elem_of_singleton in H. congruence.
Qed.

End CoercionReturns.

(** C3 as stated fails: on a non-empty batch that has both [DIAS_ESTADIA]
    and [DIAS_ESTADA], the rename step gives two columns called
    [DIAS_ESTADA] and the stage raises; it also raises on an infinite value
    under an integer column. *)
Lemma preprocess_data_raises_counterexample :
  empty both_stay_names = false
  /\ preprocess_data parse_decimal both_stay_names PyFloat.half = Raise TypeError
  /\ empty infinite_year = false
  /\ preprocess_data parse_decimal infinite_year PyFloat.half = Raise IntCastingNaNError.
Proof. repeat split. Qed.

(** C3 (amended): for every non-empty batch for which [int(N * t)] is
    defined, in whose renamed schema each of the four designated columns
    ([COMUNA_RESIDENCIA], [REGION_RESIDENCIA], [ANO_EGRESO], [DIAS_ESTADA])
    occurs at most once, and whose kept rows hold no infinite number under
    a designated column, [preprocess_data] returns, and in the returned
    batch every cell under a designated column is an integer: a cell whose
    text is not parseable as a number has become the integer 0, and so has
    a missing (NaN) cell. Cells that are not numeric are no condition for
    the stage to return. *)
Theorem preprocess_data_integer_columns
    (parse_number : string -> option numeric) (df : DataFrame)
    (threshold : spec_float) (allowed_stars : Z) :
  empty df = false ->
  allowed_stars_of (Z.of_nat (length (columns df))) threshold = Ok allowed_stars ->
  (forall col, col ∈ int_columns_to_convert ->
     (length (positions col (rename_columns (columns df)) 0) <= 1)%nat) ->
  (forall r j name,
     r ∈ filter_rows allowed_stars (rows df) ->
     rename_columns (columns df) !! j = Some name ->
     name ∈ int_columns_to_convert ->
     not_infinite parse_number (cells r !!! j)) ->
  exists out,
    preprocess_data parse_number df threshold = Ok out
    /\ Forall2
         (fun r r' =>
            forall j name c',
              columns out !! j = Some name -> name ∈ int_columns_to_convert ->
              cells r' !! j = Some c' ->
              (exists z, c' = CInt z)
              /\ (forall s, cells r !! j = Some (CStr s) -> parse_number s = None ->
                    c' = CInt 0)
              /\ (cells r !! j = Some NaN -> c' = CInt 0))
         (filter_rows allowed_stars (rows df)) (rows out).
Proof.
  intros Hne Ha Hdup Hfin. unfold preprocess_data. rewrite Hne, Ha.
  cbn [mbind result_bind columns rows].
  set (cleaned := {| columns := rename_columns (columns df);
                     rows := filter_rows allowed_stars (rows df) |}).
  assert (NoDup int_columns_to_convert) as Hnd.
  { unfold int_columns_to_convert. repeat (apply NoDup_cons; split);
      [ | | | | apply NoDup_nil; exact I];
      rewrite ?not_elem_of_cons; repeat split; try discriminate; apply not_elem_of_nil. }
  destruct (convert_int_columns_returns parse_number int_columns_to_convert cleaned)
    as [out Hout]; [exact Hnd | exact Hdup | |].
  { intros col j Hc Hj. apply Forall_forall. intros r Hr.
    apply (Hfin r j col); [exact Hr | exact Hj | exact Hc]. }
  exists out. split; [exact Hout|].
  destruct (convert_int_columns_converted parse_number int_columns_to_convert []
              cleaned out Hnd) with (rs0 := rows cleaned) as [Hc HF];
    [intros c _; apply not_elem_of_nil | exact Hout | apply converted_start |].
  rewrite app_nil_r in HF. cbn [columns rows] in HF, Hc.
  eapply Forall2_impl; [exact HF|].
  intros r r' (_ & Hr) j name c' Hj Hin Hc'. rewrite Hc in Hj.
  destruct (Hr j name Hj) as [Hdone _].
  assert (name ∈ rev int_columns_to_convert) as Hrev.
  { apply list_elem_of_In, (proj1 (in_rev _ _)). now apply list_elem_of_In. }
  destruct (Hdone Hrev c' Hc') as (c & Hcell & Hz & Hnan).
  split; [exact Hz|]. split.
  - intros s Hs Hp. rewrite Hs in Hcell. injection Hcell as <-.
    apply Hnan. now apply unparseable_coerced_to_nan.
  - intros Hs. rewrite Hs in Hcell. injection Hcell as <-. now apply Hnan.
Qed.

Lemma preprocess_data_integer_columns_witness :
  exists out,
    preprocess_data parse_decimal unparseable_stay PyFloat.half = Ok out
    /\ Forall2
         (fun r r' =>
            forall j name c',
              columns out !! j = Some name -> name ∈ int_columns_to_convert ->
              cells r' !! j = Some c' ->
              (exists z, c' = CInt z)
              /\ (forall s, cells r !! j = Some (CStr s) -> parse_decimal s = None ->
                    c' = CInt 0)
              /\ (cells r !! j = Some NaN -> c' = CInt 0))
         (filter_rows 1 (rows unparseable_stay)) (rows out).
Proof.
  apply (preprocess_data_integer_columns parse_decimal unparseable_stay PyFloat.half 1).
  - reflexivity.
  - reflexivity.
  - intros col Hc. unfold int_columns_to_convert in Hc.
    rewrite !elem_of_cons in Hc.
    destruct Hc as [->|[->|[->|[->|Hc]]]]; [| | | |now apply elem_of_nil in Hc];
      apply Nat.leb_le; reflexivity.
  - intros r j name Hr Hj _.
    assert (filter_rows 1 (rows unparseable_stay) = rows unparseable_stay) as E
      by reflexivity.
    rewrite E in Hr. clear E Hj. unfold unparseable_stay, rows in Hr.
    rewrite !elem_of_cons in Hr.
    destruct Hr as [->|[->|Hr]]; [| |now apply elem_of_nil in Hr];
      destruct j as [|[|[|j]]]; reflexivity.
Defined.

(** ** Existence checker *)

Lemma data_already_exist_fetch engine tn y :
  data_already_exist engine tn (Some y) =
    Ok (match fetch_one_year engine tn y with
        | Ok (Some _) => true
        | _ => false
        end).
Proof.
  unfold data_already_exist.
  destruct (fetch_one_year engine tn y) as [[r|]|e]; cbn [mbind result_bind try_except].
  - reflexivity.
  - reflexivity.
  - destruct (is_operational_error e); reflexivity.
Qed.

(** C6: [data_already_exist] returns [False] when the year is absent;
    otherwise it returns [True] exactly when the query for the year over
    the named table gives at least one row, that is when the table has a
    row whose [ANO_EGRESO] is the year; and it returns [False], without
    raising, when the table is missing and on every other failure of the
    query. *)
Theorem data_already_exist_spec (engine : Engine) (tn : string) :
  data_already_exist engine tn None = Ok false
  /\ (forall y, returns (data_already_exist engine tn (Some y)))
  /\ (forall y found,
        select_year engine tn y = Ok found ->
        (data_already_exist engine tn (Some y) = Ok true <-> found <> []))
  /\ (forall y t j js,
        failure engine = None -> tables engine !! tn = Some t ->
        positions year_column (t_columns t) 0 = j :: js ->
        (data_already_exist engine tn (Some y) = Ok true
         <-> exists r, r ∈ t_rows t /\ r !! j = Some (SqlInteger y)))
  /\ (forall y, tables engine !! tn = None ->
        data_already_exist engine tn (Some y) = Ok false)
  /\ (forall y e, select_year engine tn y = Raise e ->
        data_already_exist engine tn (Some y) = Ok false).
Proof.
  assert (forall y found, select_year engine tn y = Ok found ->
            (data_already_exist engine tn (Some y) = Ok true <-> found <> [])) as Hiff.
  { intros y found Hs. rewrite data_already_exist_fetch.
    unfold fetch_one_year. rewrite Hs. cbn [mbind result_bind].
    destruct found; split; congruence. }
  split; [reflexivity|]. split; [|split; [exact Hiff|split; [|split]]].
  - intros y. rewrite data_already_exist_fetch. now eexists.
  - intros y t j js Hf Ht Hp.
    rewrite (Hiff y (filter (year_matches j y) (t_rows t))).
    + split.
      * intros Hne. destruct (filter _ _) as [|r rs] eqn:E; [congruence|].
        assert (r ∈ filter (year_matches j y) (t_rows t)) as Hin
          by (rewrite E; left).
        apply list_elem_of_filter in Hin. exists r. tauto.
      * intros (r & Hr & Hm) E.
        assert (r ∈ filter (year_matches j y) (t_rows t)) as Hin
          by (apply list_elem_of_filter; split; assumption).
        rewrite E in Hin. now apply elem_of_nil in Hin.
    + unfold select_year. now rewrite Hf, Ht, Hp.
  - intros y Ht. rewrite data_already_exist_fetch.
    unfold fetch_one_year, select_year. rewrite Ht.
    now destruct (failure engine).
  - intros y e Hs. rewrite data_already_exist_fetch.
    unfold fetch_one_year. now rewrite Hs.
Qed.

Lemma data_already_exist_spec_witness :
  data_already_exist stored_2019 table_name (Some 2019) = Ok true
  /\ data_already_exist stored_2019 table_name (Some 2018) = Ok false
  /\ data_already_exist stored_2019 "other" (Some 2019) = Ok false
  /\ data_already_exist
       {| tables := tables stored_2019; failure := Some (OtherError "disk I/O error") |}
       table_name (Some 2019) = Ok false.
Proof.
  split; [|split; [|split]].
  - destruct (data_already_exist_spec stored_2019 table_name) as (_ & _ & _ & H & _).
    apply (H 2019 {| t_columns := ["ANO_EGRESO"; "DIAG1"];
                     t_rows := [[SqlInteger 2019; SqlText "A00"]] |} 0%nat []);
      try reflexivity.
    exists [SqlInteger 2019; SqlText "A00"]. split; [left | reflexivity].
  - reflexivity.
  - destruct (data_already_exist_spec stored_2019 "other") as (_ & _ & _ & _ & H & _).
    apply H. reflexivity.
  - destruct (data_already_exist_spec
                {| tables := tables stored_2019;
                   failure := Some (OtherError "disk I/O error") |} table_name)
      as (_ & _ & _ & _ & _ & H).
    apply (H 2019 (OtherError "disk I/O error")). reflexivity.
Defined.

(** ** Data loader *)

Lemma load_data_value files file_path :
  load_data files file_path =
    Ok (match files !! file_path with
        | Some (Ok df) => df
        | Some (Raise _) | None => empty_frame
        end).
Proof.
  unfold load_data, read_csv.
  destruct (files !! file_path) as [[df|e]|]; cbn [mbind result_bind try_except].
  - reflexivity.
  - destruct (is_file_not_found e); reflexivity.
  - reflexivity.
Qed.

(** C7: for every file path, [load_data] returns the batch that reading
    the file gives, or, when the file is not found and on every other read
    error, an empty batch with zero rows; it never raises. *)
Theorem load_data_never_raises (files : gmap string (result DataFrame))
    (file_path : string) :
  load_data files file_path =
    Ok (match files !! file_path with
        | Some (Ok df) => df
        | Some (Raise _) | None => empty_frame
        end)
  /\ rows empty_frame = [] /\ empty empty_frame = true
  /\ returns (load_data files file_path).
Proof.
  split; [apply load_data_value|]. split; [reflexivity|]. split; [reflexivity|].
  rewrite load_data_value. now eexists.
Qed.

(** ** Persister *)

Lemma insert_values_year table_columns batch_columns r j js :
  positions year_column table_columns 0 = j :: js ->
  insert_values table_columns batch_columns r !! j
  = Some (row_year_value batch_columns r).
Proof.
  intros Hp. unfold insert_values.
  assert (table_columns !! j = Some year_column) as Hj.
  { assert (j ∈ positions year_column table_columns 0) as Hin by (rewrite Hp; left).
    apply positions_lookup in Hin. destruct Hin as [_ Hin].
    now rewrite Nat.sub_0_r in Hin. }
  match goal with |- map ?f ?l !! _ = _ => change (map f l) with (f <$> l) end.
  now rewrite list_lookup_fmap, Hj.
Qed.

Lemma filter_map_length {A B} (P : B -> Prop) `{!forall x, Decision (P x)}
    (f : A -> B) (l : list A) :
  length (filter P (map f l)) = length (filter (fun x => P (f x)) l).
Proof.
  induction l as [|x l IH]; simpl; [reflexivity|].
  rewrite !filter_cons. destruct (decide (P (f x))); simpl; now rewrite IH.
Qed.

Lemma inserted_year_count table_columns batch_columns rs j js y :
  positions year_column table_columns 0 = j :: js ->
  length (filter (year_matches j y) (map (insert_values table_columns batch_columns) rs))
  = length (filter (fun r => row_year_value batch_columns r = SqlInteger y) rs).
Proof.
  intros Hp. rewrite filter_map_length.
  induction rs as [|r rs IH]; [reflexivity|].
  rewrite !filter_cons.
  destruct (decide (year_matches j y (insert_values table_columns batch_columns r)))
    as [E|E], (decide (row_year_value batch_columns r = SqlInteger y)) as [E'|E'];
    simpl; try rewrite IH; try reflexivity; exfalso;
    unfold year_matches in E; rewrite (insert_values_year _ _ _ _ _ Hp) in E;
    congruence.
Qed.

Lemma batch_year_count_no_column df y :
  positions year_column (columns df) 0 = [] -> batch_year_count df y = 0%nat.
Proof.
  intros Hp. unfold batch_year_count, row_year_value. rewrite Hp.
  induction (rows df) as [|r rs IH]; [reflexivity|].
  rewrite filter_cons. destruct (decide _); [discriminate | exact IH].
Qed.

(** A successful append adds to the count of a year the rows of the batch
    that carry it. *)
Lemma to_sql_append_year_count df e tn e' y :
  to_sql_append df e tn = Ok e' ->
  year_count e' tn y = (year_count e tn y + batch_year_count df y)%nat.
Proof.
  unfold to_sql_append, year_count.
  destruct (failure e); [discriminate|].
  destruct (bool_decide (NoDup (columns df))); [|discriminate].
  destruct (tables e !! tn) as [t|] eqn:Ht.
  - destruct (bool_decide (columns df ⊆ t_columns t)) eqn:Hsub; [|discriminate].
    apply bool_decide_eq_true in Hsub.
    intros [= <-]. cbn [tables]. rewrite lookup_insert_eq. cbn [t_columns t_rows].
    destruct (positions year_column (t_columns t) 0) as [|j js] eqn:Hp.
    + rewrite batch_year_count_no_column; [reflexivity|].
      apply positions_nil. apply positions_nil in Hp. intros Hin. apply Hp.
      now apply Hsub.
    + rewrite filter_app, length_app.
      now rewrite (inserted_year_count _ _ _ _ _ _ Hp).
  - intros [= <-]. cbn [tables]. rewrite lookup_insert_eq. cbn [t_columns t_rows].
    destruct (positions year_column (columns df) 0) as [|j js] eqn:Hp.
    + now rewrite batch_year_count_no_column.
    + now rewrite (inserted_year_count _ _ _ _ _ _ Hp).
Qed.

Lemma save_to_database_year_count df e tn y :
  batch_year_count df y = 0%nat ->
  year_count (save_to_database df e tn) tn y = year_count e tn y.
Proof.
  intros H0. unfold save_to_database. destruct (empty df); [reflexivity|].
  destruct (to_sql_append df e tn) as [e'|err] eqn:Hs; [|reflexivity].
  rewrite (to_sql_append_year_count _ _ _ _ _ Hs), H0. lia.
Qed.

(** ** Driver *)

Lemma os_path_join_matching a filename :
  re_match_filename filename = true ->
  os_path_join a filename = join_prefix a +:+ filename.
Proof.
  unfold re_match_filename. intros H. apply andb_true_iff in H.
  destruct H as [H _]. apply startswith_split in H.
  unfold os_path_join, join_prefix. rewrite H. unfold file_prefix. str_simpl.
  cbn [PyStr.startswith String.prefix]. 
  destruct (ascii_dec "/" "E") as [E|_]; [discriminate|].
  destruct (_ || _); [reflexivity|]. now rewrite string_app_assoc.
Qed.

Lemma os_path_join_inj a f1 f2 :
  re_match_filename f1 = true -> re_match_filename f2 = true ->
  os_path_join a f1 = os_path_join a f2 -> f1 = f2.
Proof.
  intros H1 H2. rewrite !os_path_join_matching by assumption.
  apply String.app_inj.
Qed.

Section DriverFacts.

Variable parse_number : string -> option numeric.
Variable files : gmap string (result DataFrame).
Variable data_directory : string.

Local Abbreviation file_step := (process_file parse_number files data_directory).
Local Abbreviation loop := (process_files parse_number files data_directory).

(** A file whose year the checker finds is skipped: nothing is called and
    the state is the same. *)
Lemma process_file_skip st filename y :
  extract_year_from_path (os_path_join data_directory filename) = Ok (Some y) ->
  data_already_exist (engine st) table_name (Some y) = Ok true ->
  file_step st filename = (st, None).
Proof.
  intros Hy Hc. unfold process_file.
  destruct (re_match_filename filename); [|reflexivity].
  now rewrite Hy, Hc.
Qed.

Lemma process_file_effect st filename :
  (forall c, c ∈ calls (file_step st filename).1 ->
     c ∈ calls st
     \/ (re_match_filename filename = true
         /\ call_path c = os_path_join data_directory filename))
  /\ (forall y, adds_no_year parse_number files data_directory y filename ->
        year_count (engine (file_step st filename).1) table_name y
        = year_count (engine st) table_name y).
Proof.
  unfold process_file.
  destruct (re_match_filename filename) eqn:Hm; [|simpl; auto].
  set (file_path := os_path_join data_directory filename).
  assert (forall st' c, c ∈ calls (called (LoadData file_path) st') ->
            c ∈ calls st' \/ (true = true /\ call_path c = file_path)) as HL.
  { intros st' c Hc. apply elem_of_cons in Hc. destruct Hc as [->|Hc]; auto. }
  assert (forall st' c,
            c ∈ calls (called (PreprocessData file_path) (called (LoadData file_path) st')) ->
            c ∈ calls st' \/ (true = true /\ call_path c = file_path)) as HP.
  { intros st' c Hc. apply elem_of_cons in Hc. destruct Hc as [->|Hc]; auto. }
  assert (forall st' c,
            c ∈ SaveToDatabase file_path ::
                calls (called (PreprocessData file_path) (called (LoadData file_path) st')) ->
            c ∈ calls st' \/ (true = true /\ call_path c = file_path)) as HS.
  { intros st' c Hc. apply elem_of_cons in Hc. destruct Hc as [->|Hc]; auto. }
  destruct (extract_year_from_path file_path) as [[year|]|e]; [|simpl; auto..].
  destruct (data_already_exist _ _ _) as [[|]|e]; [simpl; auto| |simpl; auto].
  rewrite load_data_value.
  destruct (files !! file_path) as [[raw|e]|] eqn:Hf; cbn [empty empty_frame columns];
    [|simpl; auto..].
  destruct (empty raw); [simpl; auto|].
  destruct (preprocess_data parse_number raw PyFloat.half) as [processed|e] eqn:Hp;
    [|simpl; auto].
  destruct (empty processed); [simpl; auto|].
  cbn [fst engine calls called]. split; [apply HS|].
  intros y Hy. apply save_to_database_year_count. exact (Hy raw processed Hf Hp).
Qed.


Lemma process_files_effect st filenames :
  (forall c, c ∈ calls (loop st filenames).1 ->
     c ∈ calls st
     \/ exists filename, filename ∈ filenames
          /\ re_match_filename filename = true
          /\ call_path c = os_path_join data_directory filename)
  /\ (forall y,
        (forall filename, filename ∈ filenames ->
           adds_no_year parse_number files data_directory y filename) ->
        year_count (engine (loop st filenames).1) table_name y
        = year_count (engine st) table_name y).
Proof.
  revert st. induction filenames as [|f l IH]; intros st; simpl.
  - split; [auto | reflexivity].
  - destruct (process_file_effect st f) as [Hc1 Hy1].
    destruct (file_step st f) as [st' [err|]] eqn:Hf; simpl in *.
    + split.
      * intros c Hc. destruct (Hc1 c Hc) as [?|[? ?]]; [now left|].
        right. exists f. split; [left | auto].
      * intros y Hy. apply Hy1, Hy. left.
    + destruct (IH st') as [Hc2 Hy2]. split.
      * intros c Hc. destruct (Hc2 c Hc) as [Hc'|(f' & Hin & Hm & Hp)].
        -- destruct (Hc1 c Hc') as [?|[? ?]]; [now left|].
           right. exists f. split; [left | auto].
        -- right. exists f'. split; [now right | auto].
      * intros y Hy. rewrite Hy2; [apply Hy1, Hy; left|].
        intros f' Hin. apply Hy. now right.
Qed.

End DriverFacts.


(** The end-to-end scenario of the specification: the file of 2019 has one
    row with two sentinel cells out of four, which is kept, and one with
    three, which is dropped; the table gains one row for 2019, and a second
    run over the same directory adds nothing. *)
Example end_to_end_2019 :
  let files : gmap string (result DataFrame) :=
    {[ "data/EGRE_DATOS_ABIERTOS_2019.csv" := Ok two_star_rows ]} in
  let listing := Some ["EGRE_DATOS_ABIERTOS_2019.csv"; "notes.txt"] in
  let empty_store := {| tables := ∅; failure := None |} in
  let first := main parse_decimal files "data" listing empty_store in
  let second := main parse_decimal files "data" listing (engine first.1) in
  first.2 = Completed
  /\ tables (engine first.1) !! table_name
     = Some {| t_columns := ["PERTENENCIA_ESTABLECIMIENTO_SALUD"; "SEXO";
                             "ANO_EGRESO"; "DIAS_ESTADA"];
               t_rows := [[SqlText "*"; SqlText "*"; SqlInteger 2019; SqlInteger 5]] |}
  /\ calls second.1 = []
  /\ engine second.1 = engine first.1.
Proof. vm_compute. repeat split. Qed.


Lemma main_state parse_number files data_directory filenames e :
  (main parse_number files data_directory (Some filenames) e).1
  = (process_files parse_number files data_directory (initial_state e) filenames).1.
Proof.
  unfold main.
  now destruct (process_files _ _ _ _ _) as [st [err|]].
Qed.



(** * Further properties *)

(** ** Year extractor *)

Lemma drop_length n s :
  String.length (PyStr.drop n s) = (String.length s - n)%nat.
Proof.
  revert s. induction n as [|n IH]; intros [|c s]; simpl; try reflexivity; try lia.
  apply IH.
Qed.

Lemma last_chars_length k s : (String.length (PyStr.last_chars k s) <= k)%nat.
Proof. unfold PyStr.last_chars. rewrite drop_length. lia. Qed.

Lemma lstrip_length s : (String.length (PyStr.lstrip s) <= String.length s)%nat.
Proof.
  induction s as [|c s IH]; simpl; [lia|].
  destruct (PyStr.is_space c); simpl; lia.
Qed.

Lemma rstrip_length s : (String.length (PyStr.rstrip s) <= String.length s)%nat.
Proof.
  induction s as [|c s IH]; simpl; [lia|].
  destruct (PyStr.rstrip s) as [|d t]; simpl in *.
  - destruct (PyStr.is_space c); simpl; lia.
  - lia.
Qed.

(** The digits read give a number below the next power of ten. *)
Lemma parse_digits_bound s acc prev n :
  0 <= acc -> PyStr.parse_digits acc prev s = Some n ->
  0 <= n < (acc + 1) * 10 ^ Z.of_nat (String.length s).
Proof.
  revert acc prev. induction s as [|c s IH]; intros acc prev Hacc H.
  - simpl in H. destruct prev; [|discriminate]. injection H as <-.
    simpl. lia.
  - cbn [PyStr.parse_digits] in H.
    assert (10 ^ Z.of_nat (String.length (String c s))
            = 10 * 10 ^ Z.of_nat (String.length s)) as E.
    { cbn [String.length]. rewrite Nat2Z.inj_succ, Z.pow_succ_r by lia. reflexivity. }
    assert (0 < 10 ^ Z.of_nat (String.length s)) as Hpos by (apply Z.pow_pos_nonneg; lia).
    rewrite E. destruct (PyStr.is_digit c) eqn:Hd.
    + destruct (digit_props _ Hd) as (_ & _ & _ & _ & Hv).
      apply IH in H; [|lia]. nia.
    + destruct (Ascii.eqb c "_"); [|discriminate].
      destruct prev; [|discriminate].
      destruct s as [|d s']; [discriminate|].
      destruct (PyStr.is_digit d); [|discriminate].
      apply IH in H; [|lia]. nia.
Qed.

(** [int()] of at most four characters. *)
Lemma int_four_chars_bound s y :
  (String.length s <= 4)%nat -> PyStr.int s = Ok y -> -999 <= y <= 9999.
Proof.
  intros Hlen. unfold PyStr.int.
  pose proof (rstrip_length (PyStr.lstrip s)) as H1.
  pose proof (lstrip_length s) as H2.
  destruct (PyStr.rstrip (PyStr.lstrip s)) as [|c r] eqn:Et.
  - simpl. discriminate.
  - cbn [String.length] in H1.
    assert (forall body neg,
              (String.length body <= 4)%nat ->
              (neg = true -> (String.length body <= 3)%nat) ->
              match PyStr.parse_digits 0 false body with
              | Some n => Ok (if neg : bool then - n else n)
              | None => Raise ValueError
              end = Ok y -> -999 <= y <= 9999) as Hbody.
    { intros body neg Hb Hn.
      destruct (PyStr.parse_digits 0 false body) as [n|] eqn:Hp; [|discriminate].
      intros [= <-]. apply parse_digits_bound in Hp; [|lia].
      assert (10 ^ Z.of_nat (String.length body) <= 10 ^ 4) as P4
        by (apply Z.pow_le_mono_r; lia).
      destruct neg.
      - assert (10 ^ Z.of_nat (String.length body) <= 10 ^ 3) as P3
          by (apply Z.pow_le_mono_r; [lia | specialize (Hn eq_refl); lia]).
        lia.
      - lia. }
    destruct (Ascii.eqb c "-"); [|destruct (Ascii.eqb c "+")].
    + apply (Hbody r true); [lia | intros _; lia].
    + intros H. assert (-999 <= y <= 999); [|lia].
      destruct (PyStr.parse_digits 0 false r) as [n|] eqn:Hp; [|discriminate].
      injection H as <-. apply parse_digits_bound in Hp; [|lia].
      assert (10 ^ Z.of_nat (String.length r) <= 10 ^ 3) as P3
        by (apply Z.pow_le_mono_r; lia).
      lia.
    + apply (Hbody (String c r) false); [cbn [String.length]; lia | discriminate].
Qed.

Lemma year_value_bound d1 d2 d3 d4 :
  PyStr.is_digit d1 = true -> PyStr.is_digit d2 = true ->
  PyStr.is_digit d3 = true -> PyStr.is_digit d4 = true ->
  0 <= year_value d1 d2 d3 d4 <= 9999.
Proof.
  intros H1 H2 H3 H4.
  destruct (digit_props _ H1) as (_ & _ & _ & _ & V1).
  destruct (digit_props _ H2) as (_ & _ & _ & _ & V2).
  destruct (digit_props _ H3) as (_ & _ & _ & _ & V3).
  destruct (digit_props _ H4) as (_ & _ & _ & _ & V4).
  unfold year_value. lia.
Qed.

(** X1: [extract_year_from_path] never raises, whatever the path, and a
    year it returns lies between -999 and 9999: the pattern gives four
    digits, and the fallback reads at most four characters, of which a sign
    takes one. *)
Theorem extract_year_total_and_bounded (file_path : string) :
  exists r, extract_year_from_path file_path = Ok r
            /\ forall y, r = Some y -> -999 <= y <= 9999.
Proof.
  destruct (re_search_year_csv file_path) as [g|] eqn:Hs.
  - destruct (re_search_year_csv_inv _ _ Hs) as [(d1 & d2 & d3 & d4 & -> & H1 & H2 & H3 & H4) _].
    destruct (extract_year_match _ _ Hs) as (e1 & e2 & e3 & e4 & Eg & ->).
    injection Eg as <- <- <- <-.
    eexists. split; [reflexivity|]. intros y [= <-].
    pose proof (year_value_bound d1 d2 d3 d4 H1 H2 H3 H4). lia.
  - rewrite (extract_year_no_match _ Hs). eexists. split; [reflexivity|].
    intros y Hy. destruct (PyStr.int (fallback_year_str file_path)) as [z|e] eqn:Hi;
      [|discriminate].
    injection Hy as <-. apply (int_four_chars_bound _ _ (last_chars_length 4 _) Hi).
Qed.

Lemma re_search_year_csv_newline pre g :
  four_digits g ->
  re_search_year_csv (pre +:+ g +:+ ".csv" +:+ String PyStr.newline EmptyString) = Some g.
Proof.
  intros Hg.
  destruct (re_search_year_csv _) as [g'|] eqn:Hs.
  - f_equal. apply re_search_year_csv_inv in Hs.
    destruct Hs as [Hg' [pre' Hs]].
    destruct Hg as (d1 & d2 & d3 & d4 & -> & _), Hg' as (e1 & e2 & e3 & e4 & -> & _).
    destruct Hs as [Hs|Hs].
    + exfalso.
      assert (String.length pre' = S (String.length pre)) as Hlen.
      { apply (f_equal String.length) in Hs.
        rewrite !string_length_app in Hs. simpl in Hs. lia. }
      destruct pre' as [|c pre']; [discriminate|].
      replace (pre +:+ String d1 (String d2 (String d3 (String d4 ""))) +:+ ".csv"
                 +:+ String PyStr.newline "")
        with ((pre +:+ String d1 (String d2 (String d3 (String d4 "")))) +:+
              (".csv" +:+ String PyStr.newline "")) in Hs
        by (now rewrite !string_app_assoc).
      replace (String c pre' +:+ String e1 (String e2 (String e3 (String e4 ""))) +:+ ".csv")
        with ((String c pre' +:+ String e1 (String e2 (String e3 ""))) +:+
              String e4 ".csv") in Hs
        by (rewrite !string_app_assoc; now str_simpl).
      apply string_app_inv_length in Hs.
      * destruct Hs as [_ Hs]. discriminate Hs.
      * rewrite !string_length_app. simpl in *. lia.
    + apply string_app_inv_length in Hs.
      * destruct Hs as [_ Hs]. str_simpl_in Hs. congruence.
      * apply (f_equal String.length) in Hs.
        rewrite !string_length_app in Hs. simpl in Hs. lia.
  - exfalso.
    apply (re_search_year_csv_found pre g _ Hg (or_intror eq_refl)). exact Hs.
Qed.

Lemma extract_year_suffix pre d1 d2 d3 d4 tail :
  PyStr.is_digit d1 = true -> PyStr.is_digit d2 = true ->
  PyStr.is_digit d3 = true -> PyStr.is_digit d4 = true ->
  tail = EmptyString \/ tail = String PyStr.newline EmptyString ->
  extract_year_from_path
    (pre +:+ String d1 (String d2 (String d3 (String d4 EmptyString))) +:+ ".csv" +:+ tail)
  = Ok (Some (year_value d1 d2 d3 d4)).
Proof.
  intros H1 H2 H3 H4 Ht.
  set (g := String d1 (String d2 (String d3 (String d4 EmptyString)))).
  assert (four_digits g) as Hg by (exists d1, d2, d3, d4; auto).
  assert (re_search_year_csv (pre +:+ g +:+ ".csv" +:+ tail) = Some g) as Hs.
  { destruct Ht as [->| ->].
    - change (".csv" +:+ "") with ".csv". now apply re_search_year_csv_suffix.
    - now apply re_search_year_csv_newline. }
  destruct (extract_year_match _ _ Hs) as (e1 & e2 & e3 & e4 & Eg & ->).
  unfold g in Eg. now injection Eg as <- <- <- <-.
Qed.

(** X2: whenever a path ends with four digits and [.csv], with or without
    one closing newline, [extract_year_from_path] returns the value of those
    four digits, whatever comes before them: the fallback is not consulted
    and earlier digits of the path play no part. *)
Theorem extract_year_of_any_csv_suffix (pre : string) (d1 d2 d3 d4 : ascii)
    (tail : string) :
  PyStr.is_digit d1 = true -> PyStr.is_digit d2 = true ->
  PyStr.is_digit d3 = true -> PyStr.is_digit d4 = true ->
  tail = EmptyString \/ tail = String PyStr.newline EmptyString ->
  extract_year_from_path
    (pre +:+ String d1 (String d2 (String d3 (String d4 EmptyString))) +:+ ".csv" +:+ tail)
  = Ok (Some (year_value d1 d2 d3 d4)).
Proof. apply extract_year_suffix. Qed.

Lemma extract_year_of_any_csv_suffix_witness :
  extract_year_from_path
    ("archive/2017/totals_12018" +:+ ".csv" +:+ String PyStr.newline EmptyString)
  = Ok (Some 2018).
Proof.
  apply (extract_year_of_any_csv_suffix "archive/2017/totals_1" "2" "0" "1" "8"
           (String PyStr.newline EmptyString));
    try reflexivity.
  right. reflexivity.
Defined.

(** ** Driver: file names *)

Lemma re_match_filename_shape filename :
  re_match_filename filename = true ->
  exists d1 d2 d3 d4 tail,
    PyStr.is_digit d1 = true /\ PyStr.is_digit d2 = true
    /\ PyStr.is_digit d3 = true /\ PyStr.is_digit d4 = true
    /\ (tail = EmptyString \/ tail = String PyStr.newline EmptyString)
    /\ filename = file_prefix +:+ String d1 (String d2 (String d3 (String d4 EmptyString)))
                    +:+ ".csv" +:+ tail.
Proof.
  unfold re_match_filename. intros H. apply andb_true_iff in H.
  destruct H as [Hp Hm]. apply bool_decide_eq_true in Hm.
  destruct Hm as [g Hm]. apply startswith_split in Hp.
  apply match_year_csv_here_inv in Hm.
  destruct Hm as [(d1 & d2 & d3 & d4 & -> & H1 & H2 & H3 & H4) Hs].
  exists d1, d2, d3, d4.
  destruct Hs as [Hs|Hs]; [exists EmptyString | exists (String PyStr.newline EmptyString)];
    repeat split; auto; rewrite Hp at 1; rewrite Hs; reflexivity.
Qed.

Lemma extract_year_of_matching_filename dir filename :
  re_match_filename filename = true ->
  exists y, 0 <= y <= 9999
            /\ extract_year_from_path (os_path_join dir filename) = Ok (Some y).
Proof.
  intros Hm. rewrite (os_path_join_matching _ _ Hm).
  destruct (re_match_filename_shape _ Hm)
    as (d1 & d2 & d3 & d4 & tail & H1 & H2 & H3 & H4 & Ht & ->).
  exists (year_value d1 d2 d3 d4). split; [now apply year_value_bound|].
  rewrite <- string_app_assoc. now apply extract_year_suffix.
Qed.

(** X3: for every file name that the driver's pattern accepts and every
    data directory, the year extraction on the joined path succeeds with a
    year between 0 and 9999; the driver's branch for a failed extraction
    ([if year is None: continue]) is never taken. *)
Theorem driver_pattern_implies_year (data_directory filename : string) :
  re_match_filename filename = true ->
  exists y, 0 <= y <= 9999
            /\ extract_year_from_path (os_path_join data_directory filename)
               = Ok (Some y).
Proof. apply extract_year_of_matching_filename. Qed.

Lemma driver_pattern_implies_year_witness :
  exists y, 0 <= y <= 9999
            /\ extract_year_from_path
                 (os_path_join "/srv/app/data" "EGRE_DATOS_ABIERTOS_2020.csv")
               = Ok (Some y).
Proof.
  apply (driver_pattern_implies_year "/srv/app/data" "EGRE_DATOS_ABIERTOS_2020.csv").
  reflexivity.
Defined.

(** ** Persister *)

Lemma extends_refl e : extends e e.
Proof.
  split; [reflexivity|]. intros tn [tc tr] Ht. exists []. now rewrite app_nil_r.
Qed.

Lemma extends_trans e1 e2 e3 : extends e1 e2 -> extends e2 e3 -> extends e1 e3.
Proof.
  intros [F1 H1] [F2 H2]. split; [congruence|].
  intros tn t Ht. destruct (H1 tn t Ht) as [new1 Ht1].
  destruct (H2 tn _ Ht1) as [new2 Ht2]. cbn [t_columns t_rows] in Ht2.
  exists (new1 ++ new2)%list. now rewrite app_assoc.
Qed.

(** What a successful append does to the store. *)
Lemma to_sql_append_effect df e tn e' :
  to_sql_append df e tn = Ok e' ->
  failure e = None
  /\ extends e e'
  /\ (forall tn', tn' <> tn -> tables e' !! tn' = tables e !! tn')
  /\ table_size e' tn = (table_size e tn + length (rows df))%nat.
Proof.
  unfold to_sql_append, table_size.
  destruct (failure e) eqn:Hf; [discriminate|].
  destruct (bool_decide (NoDup (columns df))); [|discriminate].
  destruct (tables e !! tn) as [t|] eqn:Ht.
  - destruct (bool_decide (columns df ⊆ t_columns t)); [|discriminate].
    intros [= <-]. cbn [tables failure]. split; [reflexivity|]. split; [|split].
    + split; [cbn [failure]; now rewrite Hf|]. intros tn' t' Ht'. cbn [tables].
      destruct (decide (tn = tn')) as [<-|Hne].
      * rewrite lookup_insert_eq. rewrite Ht in Ht'. injection Ht' as <-.
        now eexists.
      * rewrite lookup_insert_ne by exact Hne. rewrite Ht'.
        exists []. destruct t'. now rewrite app_nil_r.
    + intros tn' Hne. now rewrite lookup_insert_ne.
    + rewrite lookup_insert_eq. cbn [t_rows].
      rewrite length_app, length_map. lia.
  - intros [= <-]. cbn [tables failure]. split; [reflexivity|]. split; [|split].
    + split; [cbn [failure]; now rewrite Hf|]. intros tn' t' Ht'. cbn [tables].
      assert (tn <> tn') as Hne by congruence.
      rewrite lookup_insert_ne by exact Hne. rewrite Ht'.
      exists []. destruct t'. now rewrite app_nil_r.
    + intros tn' Hne. now rewrite lookup_insert_ne.
    + rewrite lookup_insert_eq. cbn [t_rows]. now rewrite length_map.
Qed.

Lemma save_to_database_effect df e tn :
  extends e (save_to_database df e tn)
  /\ (forall tn', tn' <> tn ->
        tables (save_to_database df e tn) !! tn' = tables e !! tn')
  /\ (save_to_database df e tn = e
      \/ table_size (save_to_database df e tn) tn
         = (table_size e tn + length (rows df))%nat).
Proof.
  unfold save_to_database. destruct (empty df).
  - split; [apply extends_refl|]. split; [reflexivity | now left].
  - destruct (to_sql_append df e tn) as [e'|err] eqn:Hs.
    + apply to_sql_append_effect in Hs. destruct Hs as (_ & He & Ho & Hn).
      split; [exact He|]. split; [exact Ho | now right].
    + split; [apply extends_refl|]. split; [reflexivity | now left].
Qed.

(** X4: [save_to_database] only appends: every table that the store held
    is still there with the same columns and its old rows in front, no table
    other than the named one changes, and the named table grows by no more
    rows than the batch has. For an empty batch nothing is sent to the
    store, which stays as it is. *)
Theorem save_to_database_only_appends
    (df : DataFrame) (e : Engine) (tn : string) :
  extends e (save_to_database df e tn)
  /\ (forall tn', tn' <> tn ->
        tables (save_to_database df e tn) !! tn' = tables e !! tn')
  /\ (table_size e tn <= table_size (save_to_database df e tn) tn
      <= table_size e tn + length (rows df))%nat
  /\ (empty df = true -> save_to_database df e tn = e).
Proof.
  destruct (save_to_database_effect df e tn) as (He & Ho & Hs).
  split; [exact He|]. split; [exact Ho|]. split.
  - destruct Hs as [-> | ->]; lia.
  - intros Hempty. unfold save_to_database. now rewrite Hempty.
Qed.

Lemma data_already_exist_year_count e tn y :
  failure e = None ->
  data_already_exist e tn (Some y) = Ok (bool_decide (0 < year_count e tn y)%nat).
Proof.
  intros Hf. rewrite data_already_exist_fetch.
  unfold fetch_one_year, select_year, year_count. rewrite Hf.
  destruct (tables e !! tn) as [t|]; [|reflexivity].
  destruct (positions year_column (t_columns t) 0) as [|j js]; [reflexivity|].
  cbn [mbind result_bind].
  destruct (filter (year_matches j y) (t_rows t)); reflexivity.
Qed.

(** ** Preprocessor: what it can raise *)

Lemma iter_pos_invariant {A} (P : A -> Prop) (f : A -> A) :
  (forall x, P x -> P (f x)) -> forall p x, P x -> P (SpecFloat.iter_pos f p x).
Proof.
  intros Hf. induction p as [p IH|p IH|]; intros x Hx; simpl; auto.
Qed.

Lemma shr_1_nonneg mrs : 0 <= shr_m mrs -> 0 <= shr_m (shr_1 mrs).
Proof.
  destruct mrs as [m r s]. simpl. intros Hm.
  destruct m as [|[p|p|]|p]; simpl; lia.
Qed.

Lemma shr_fexp_nonneg m e l :
  0 <= m -> 0 <= shr_m (shr_fexp PyFloat.prec PyFloat.emax m e l).1.
Proof.
  intros Hm. unfold shr_fexp, shr.
  assert (0 <= shr_m (shr_record_of_loc m l)) as H0
    by (destruct l as [|[]]; exact Hm).
  destruct (_ - e) as [|p|p]; simpl; try exact H0.
  apply (iter_pos_invariant (fun mrs => 0 <= shr_m mrs)); [apply shr_1_nonneg | exact H0].
Qed.

Lemma round_nearest_even_nonneg m l : 0 <= m -> 0 <= round_nearest_even m l.
Proof.
  intros Hm. destruct l as [|[]]; simpl; try lia.
  destruct (Z.even m); lia.
Qed.

(** Rounding a mantissa that is not negative never gives NaN. *)
Lemma binary_round_aux_not_nan s m e l :
  0 <= m -> binary_round_aux PyFloat.prec PyFloat.emax s m e l <> S754_nan.
Proof.
  intros Hm. unfold binary_round_aux.
  pose proof (shr_fexp_nonneg m e l Hm) as H1.
  destruct (shr_fexp _ _ m e l) as [mrs' e']. simpl in H1.
  pose proof (shr_fexp_nonneg _ e' loc_Exact
                (round_nearest_even_nonneg _ (loc_of_shr_record mrs') H1)) as H2.
  destruct (shr_fexp _ _ _ e' loc_Exact) as [mrs'' e'']. simpl in H2.
  destruct (shr_m mrs''); [discriminate | | lia].
  destruct (Z.leb _ _); discriminate.
Qed.

Lemma of_int_not_nan n f : PyFloat.of_int n = Ok f -> PyFloat.is_finite f = true.
Proof.
  unfold PyFloat.of_int, PyFloat.of_mantissa_exponent, binary_normalize.
  destruct n as [|m|m].
  - now intros [= <-].
  - unfold binary_round. destruct (shl_align _ _ _) as [mz ez].
    pose proof (binary_round_aux_not_nan false (Z.pos mz) ez loc_Exact ltac:(lia)).
    destruct (binary_round_aux _ _ _ _ _ _); try discriminate; try congruence;
      now intros [= <-].
  - unfold binary_round. destruct (shl_align _ _ _) as [mz ez].
    pose proof (binary_round_aux_not_nan true (Z.pos mz) ez loc_Exact ltac:(lia)).
    destruct (binary_round_aux _ _ _ _ _ _); try discriminate; try congruence;
      now intros [= <-].
Qed.

(** With the default threshold, [int(num_columns * threshold)] can only
    fail by overflow. *)
Lemma allowed_stars_default_raises n err :
  allowed_stars_of n PyFloat.half = Raise err -> err = OverflowError.
Proof.
  unfold allowed_stars_of, PyFloat.int_mul.
  destruct (PyFloat.of_int n) as [f|e] eqn:Hf.
  - apply of_int_not_nan in Hf. cbn [mbind result_bind].
    assert (PyFloat.half = S754_finite false 4503599627370496 (-53)) as ->
      by reflexivity.
    destruct f as [s| | |s m e]; try discriminate; cbn [SFmul PyFloat.to_int].
    pose proof (binary_round_aux_not_nan (xorb s false)
                  (Z.pos (m * 4503599627370496)) (e + -53) loc_Exact ltac:(lia)).
    destruct (binary_round_aux _ _ _ _ _ _); cbn [PyFloat.to_int];
      try discriminate; try congruence.
  - cbn [mbind result_bind]. intros [= <-]. revert Hf.
    unfold PyFloat.of_int. destruct (PyFloat.of_mantissa_exponent n 0);
      try discriminate. now intros [= <-].
Qed.

Lemma convert_int_columns_raises parse_number df cols err :
  convert_int_columns parse_number df cols = Raise err ->
  err = TypeError \/ err = IntCastingNaNError.
Proof.
  revert df. induction cols as [|col cols IH]; intros df; simpl; [discriminate|].
  destruct (convert_int_column parse_number df col) as [df1|e] eqn:H1;
    cbn [mbind result_bind].
  - apply IH.
  - intros [= <-]. revert H1. unfold convert_int_column.
    destruct (positions col (columns df) 0) as [|j [|j' js]]; try discriminate.
    + unfold to_int_series. destruct (forallb is_int _); [discriminate|].
      destruct (forallb PyFloat.is_finite _); [discriminate|].
      cbn [mbind result_bind]. intros [= <-]. now right.
    + intros [= <-]. now left.
Qed.

Lemma preprocess_data_default_raises parse_number df err :
  preprocess_data parse_number df PyFloat.half = Raise err ->
  err = TypeError \/ err = IntCastingNaNError \/ err = OverflowError.
Proof.
  unfold preprocess_data. destruct (empty df); [discriminate|].
  destruct (allowed_stars_of _ _) as [a|e] eqn:Ha; cbn [mbind result_bind].
  - intros H. apply convert_int_columns_raises in H. tauto.
  - intros [= <-]. apply allowed_stars_default_raises in Ha. tauto.
Qed.

(** ** Driver: the shape of a run *)

Lemma extends_year_count e e' tn y :
  extends e e' -> (year_count e tn y <= year_count e' tn y)%nat.
Proof.
  intros [_ H]. unfold year_count.
  destruct (tables e !! tn) as [t|] eqn:Ht; [|lia].
  destruct (H tn t Ht) as [new ->]. cbn [t_columns t_rows].
  destruct (positions year_column (t_columns t) 0); [lia|].
  rewrite filter_app, length_app. lia.
Qed.

Section DriverShape.

Variable parse_number : string -> option numeric.
Variable files : gmap string (result DataFrame).
Variable data_directory : string.

Local Abbreviation turn := (process_file parse_number files data_directory).
Local Abbreviation turns := (process_files parse_number files data_directory).

(** One turn of the loop: the calls it adds, the flag, the store, and the
    only way it can stop the loop. *)
Lemma process_file_shape st filename :
  let p := os_path_join data_directory filename in
  exists block,
    calls (turn st filename).1 = (block ++ calls st)%list
    /\ (block = [] \/ block = [LoadData p] \/ block = [PreprocessData p; LoadData p]
        \/ block = [SaveToDatabase p; PreprocessData p; LoadData p])
    /\ (block <> [] -> re_match_filename filename = true)
    /\ processed_any_file (turn st filename).1
       = processed_any_file st || bool_decide (SaveToDatabase p ∈ block)
    /\ extends (engine st) (engine (turn st filename).1)
    /\ (forall tn, tn <> table_name ->
          tables (engine (turn st filename).1) !! tn = tables (engine st) !! tn)
    /\ (forall err, (turn st filename).2 = Some err ->
          block = [PreprocessData p; LoadData p]
          /\ (err = TypeError \/ err = IntCastingNaNError \/ err = OverflowError)).
Proof.
  intros p. unfold process_file. fold p.
  assert (forall b : bool, b = b || bool_decide (SaveToDatabase p ∈ @nil call)) as Hn.
  { intros b. rewrite bool_decide_eq_false_2, orb_false_r; [reflexivity|].
    apply not_elem_of_nil. }
  assert (forall b : bool, b = b || bool_decide (SaveToDatabase p ∈ [LoadData p])) as Hl.
  { intros b. rewrite bool_decide_eq_false_2, orb_false_r; [reflexivity|].
    intros H. apply list_elem_of_singleton in H. discriminate. }
  assert (forall b : bool,
            b = b || bool_decide (SaveToDatabase p ∈ [PreprocessData p; LoadData p]))
    as Hpl.
  { intros b. rewrite bool_decide_eq_false_2, orb_false_r; [reflexivity|].
    intros H. rewrite !elem_of_cons in H.
    destruct H as [H|[H|H]]; try discriminate. now apply elem_of_nil in H. }
  assert (exists block,
            calls st = (block ++ calls st)%list
            /\ (block = [] \/ block = [LoadData p]
                \/ block = [PreprocessData p; LoadData p]
                \/ block = [SaveToDatabase p; PreprocessData p; LoadData p])
            /\ (block <> [] -> re_match_filename filename = true)
            /\ processed_any_file st
               = processed_any_file st || bool_decide (SaveToDatabase p ∈ block)
            /\ extends (engine st) (engine st)
            /\ (forall tn, tn <> table_name ->
                  tables (engine st) !! tn = tables (engine st) !! tn)
            /\ (forall err, @None exception = Some err ->
                  block = [PreprocessData p; LoadData p]
                  /\ (err = TypeError \/ err = IntCastingNaNError
                      \/ err = OverflowError))) as Hskip.
  { exists []. split; [reflexivity|]. split; [now left|]. split; [congruence|].
    split; [apply Hn|]. split; [apply extends_refl|]. split; [reflexivity|].
    discriminate. }
  destruct (re_match_filename filename) eqn:Hm; [|exact Hskip].
  destruct (extract_year_from_path_returns p) as [r ->].
  destruct r as [year|]; [|exact Hskip].
  rewrite data_already_exist_fetch.
  destruct (match fetch_one_year _ _ _ with Ok (Some _) => true | _ => false end);
    [exact Hskip|].
  clear Hskip. rewrite load_data_value.
  set (raw := match files !! p with Some (Ok df) => df | _ => empty_frame end).
  destruct (empty raw) eqn:He.
  { exists [LoadData p]. cbn [fst snd calls called engine processed_any_file].
    split; [reflexivity|]. split; [auto|]. split; [reflexivity|].
    split; [apply Hl|]. split; [apply extends_refl|]. split; [reflexivity|].
    discriminate. }
  destruct (preprocess_data parse_number raw PyFloat.half) as [processed|e] eqn:Hp.
  - destruct (empty processed).
    + exists [PreprocessData p; LoadData p].
      cbn [fst snd calls called engine processed_any_file].
      split; [reflexivity|]. split; [auto|]. split; [reflexivity|].
      split; [apply Hpl|]. split; [apply extends_refl|]. split; [reflexivity|].
      discriminate.
    + exists [SaveToDatabase p; PreprocessData p; LoadData p].
      cbn [fst snd calls called engine processed_any_file].
      destruct (save_to_database_effect processed (engine st) table_name)
        as (Hx & Ho & _).
      split; [reflexivity|]. split; [auto 6|]. split; [reflexivity|].
      split; [|split; [exact Hx|split; [exact Ho | discriminate]]].
      rewrite bool_decide_eq_true_2, orb_true_r; [reflexivity | left].
  - exists [PreprocessData p; LoadData p].
    cbn [fst snd calls called engine processed_any_file].
    split; [reflexivity|]. split; [auto|]. split; [reflexivity|].
    split; [apply Hpl|]. split; [apply extends_refl|]. split; [reflexivity|].
    intros err [= <-]. split; [reflexivity|].
    now apply preprocess_data_default_raises in Hp.
Qed.

Lemma process_files_cons st filename rest :
  turns st (filename :: rest) =
    match (turn st filename).2 with
    | None => turns (turn st filename).1 rest
    | Some err => ((turn st filename).1, Some err)
    end.
Proof. cbn [process_files]. now destruct (turn st filename) as [st' [err|]]. Qed.

Lemma process_files_blocks st filenames :
  call_blocks (calls st) -> call_blocks (calls (turns st filenames).1).
Proof.
  revert st. induction filenames as [|f l IH]; intros st Hst; [exact Hst|].
  rewrite process_files_cons.
  destruct (process_file_shape st f) as (block & Hc & Hb & _).
  assert (call_blocks (calls (turn st f).1)) as Hst'.
  { rewrite Hc. destruct Hb as [-> | [-> | [-> | ->]]]; simpl; auto using call_blocks. }
  destruct (turn st f).2; [exact Hst' | now apply IH].
Qed.

Lemma process_files_flag st filenames :
  (processed_any_file st = true <-> exists p, SaveToDatabase p ∈ calls st) ->
  (processed_any_file (turns st filenames).1 = true
   <-> exists p, SaveToDatabase p ∈ calls (turns st filenames).1).
Proof.
  revert st. induction filenames as [|f l IH]; intros st Hst; [exact Hst|].
  rewrite process_files_cons.
  destruct (process_file_shape st f) as (block & Hc & Hb & _ & Hf & _).
  assert (processed_any_file (turn st f).1 = true
          <-> exists p, SaveToDatabase p ∈ calls (turn st f).1) as Hst'.
  { rewrite Hf, Hc, orb_true_iff, Hst, bool_decide_eq_true. split.
    - intros [[p Hp]|Hp]; [exists p | eexists]; apply elem_of_app; eauto.
    - intros [p Hp]. apply elem_of_app in Hp. destruct Hp as [Hp|Hp]; [right | eauto].
      destruct Hb as [-> | [-> | [-> | ->]]]; rewrite ?elem_of_cons in Hp;
        try (now apply elem_of_nil in Hp);
        repeat (destruct Hp as [Hp|Hp]; try discriminate Hp;
                try (now apply elem_of_nil in Hp)).
      injection Hp as ->. left. }
  destruct (turn st f).2; [exact Hst' | now apply IH].
Qed.

Lemma process_files_store st filenames :
  extends (engine st) (engine (turns st filenames).1)
  /\ (forall tn, tn <> table_name ->
        tables (engine (turns st filenames).1) !! tn = tables (engine st) !! tn).
Proof.
  revert st. induction filenames as [|f l IH]; intros st.
  - split; [apply extends_refl | reflexivity].
  - rewrite process_files_cons.
    destruct (process_file_shape st f) as (block & _ & _ & _ & _ & Hx & Ho & _).
    destruct (turn st f).2; [now split|].
    destruct (IH (turn st f).1) as [Hx' Ho']. split.
    + eapply extends_trans; eauto.
    + intros tn Hne. now rewrite Ho', Ho.
Qed.


Lemma process_files_NoDup st filenames :
  NoDup filenames -> NoDup (calls st) ->
  (forall c f, c ∈ calls st -> f ∈ filenames -> re_match_filename f = true ->
     call_path c <> os_path_join data_directory f) ->
  NoDup (calls (turns st filenames).1).
Proof.
  revert st. induction filenames as [|f l IH]; intros st Hl Hst Hfresh; [exact Hst|].
  apply NoDup_cons in Hl. destruct Hl as [Hf Hl].
  rewrite process_files_cons.
  destruct (process_file_shape st f) as (block & Hc & Hb & Hm & _).
  set (p := os_path_join data_directory f) in *.
  assert (forall c, c ∈ block -> call_path c = p) as Hpath.
  { intros c Hin. destruct Hb as [-> | [-> | [-> | ->]]]; rewrite ?elem_of_cons in Hin;
      try (now apply elem_of_nil in Hin);
      repeat (destruct Hin as [Hin|Hin]; [now subst c|]); now apply elem_of_nil in Hin. }
  assert (NoDup block) as Hnb.
  { assert (NoDup [PreprocessData p; LoadData p]) as H2.
    { constructor; [|apply NoDup_singleton].
      intros H. apply list_elem_of_singleton in H. discriminate H. }
    destruct Hb as [-> | [-> | [-> | ->]]];
      [constructor | apply NoDup_singleton | exact H2 |].
    constructor; [|exact H2]. rewrite !elem_of_cons.
    intros [H|[H|H]]; try discriminate H. now apply elem_of_nil in H. }
  assert (NoDup (calls (turn st f).1)) as Hst'.
  { rewrite Hc. apply NoDup_app. split; [exact Hnb|]. split; [|exact Hst].
    intros c Hin Hin'. apply (Hfresh c f Hin'); [left | |now apply Hpath].
    apply Hm. intros ->. now apply elem_of_nil in Hin. }
  destruct (turn st f).2; [exact Hst'|].
  apply IH; [exact Hl | exact Hst' |].
  intros c f' Hin Hf' Hm' Heq. rewrite Hc in Hin. apply elem_of_app in Hin.
  destruct Hin as [Hin|Hin].
  - rewrite (Hpath c Hin) in Heq. apply Hf.
    assert (re_match_filename f = true) as Hmf.
    { apply Hm. intros ->. now apply elem_of_nil in Hin. }
    now rewrite (os_path_join_inj data_directory f f' Hmf Hm' Heq).
  - apply (Hfresh c f' Hin); [now right | exact Hm' | exact Heq].
Qed.

Lemma process_files_filter st filenames :
  turns st filenames
  = turns st (filter (fun f => re_match_filename f = true) filenames).
Proof.
  revert st. induction filenames as [|f l IH]; intros st; [reflexivity|].
  rewrite filter_cons. destruct (decide (re_match_filename f = true)) as [Hm|Hm].
  - cbn [process_files]. destruct (turn st f) as [st' [err|]]; [reflexivity | apply IH].
  - cbn [process_files]. unfold process_file at 1.
    destruct (re_match_filename f); [congruence | apply IH].
Qed.

Lemma process_files_all_stored st filenames :
  (forall f y, f ∈ filenames -> re_match_filename f = true ->
     extract_year_from_path (os_path_join data_directory f) = Ok (Some y) ->
     data_already_exist (engine st) table_name (Some y) = Ok true) ->
  turns st filenames = (st, None).
Proof.
  intros H. induction filenames as [|f l IH]; [reflexivity|].
  cbn [process_files].
  assert (turn st f = (st, None)) as ->.
  { destruct (re_match_filename f) eqn:Hm.
    - destruct (extract_year_of_matching_filename data_directory f Hm) as (y & _ & Hy).
      apply (process_file_skip _ _ _ _ _ y Hy).
      apply (H f y); [left | exact Hm | exact Hy].
    - unfold process_file. now rewrite Hm. }
  apply IH. intros f' y Hin. apply H. now right.
Qed.

End DriverShape.

(** X6: in every run of the driver over a listing without repeated names,
    the calls come in blocks, one per file that is not skipped: the file is
    loaded, then perhaps preprocessed, then perhaps saved, so nothing is
    preprocessed that was not loaded and nothing saved that was not
    preprocessed; no call is made twice; and every call is for a file of the
    listing whose name the pattern accepts. *)
Theorem driver_calls_in_blocks
    (parse_number : string -> option numeric)
    (files : gmap string (result DataFrame)) (data_directory : string)
    (listing : list string) (e : Engine) :
  NoDup listing ->
  let final := (main parse_number files data_directory (Some listing) e).1 in
  call_blocks (calls final)
  /\ NoDup (calls final)
  /\ (forall c, c ∈ calls final ->
        exists filename, filename ∈ listing
          /\ re_match_filename filename = true
          /\ call_path c = os_path_join data_directory filename).
Proof.
  intros Hnd final. unfold final. rewrite main_state. split; [|split].
  - apply process_files_blocks. constructor.
  - apply process_files_NoDup; [exact Hnd | constructor |].
    intros c f Hc. now apply elem_of_nil in Hc.
  - intros c Hc.
    destruct (process_files_effect parse_number files data_directory
                (initial_state e) listing) as [H _].
    destruct (H c Hc) as [Hin|Hex]; [now apply elem_of_nil in Hin | exact Hex].
Qed.

Lemma driver_calls_in_blocks_witness :
  let files : gmap string (result DataFrame) :=
    {[ "data/EGRE_DATOS_ABIERTOS_2018.csv" := Ok rows_of_2018 ]} in
  let final :=
    (main parse_decimal files "data"
       (Some ["EGRE_DATOS_ABIERTOS_2019.csv"; "EGRE_DATOS_ABIERTOS_2018.csv"])
       stored_2019).1 in
  call_blocks (calls final)
  /\ NoDup (calls final)
  /\ (forall c, c ∈ calls final ->
        exists filename,
          filename ∈ ["EGRE_DATOS_ABIERTOS_2019.csv"; "EGRE_DATOS_ABIERTOS_2018.csv"]
          /\ re_match_filename filename = true
          /\ call_path c = os_path_join "data" filename).
Proof.
  intros files.
  apply (driver_calls_in_blocks parse_decimal files "data"
           ["EGRE_DATOS_ABIERTOS_2019.csv"; "EGRE_DATOS_ABIERTOS_2018.csv"] stored_2019).
  constructor; [|apply NoDup_singleton].
  intros H. apply list_elem_of_singleton in H. discriminate H.
Defined.

(** X7: at the end of every run, [processed_any_file] is true exactly when
    [save_to_database] was called for some file; it says that a save was
    attempted, not that rows were written. *)
Theorem driver_flag_iff_save_called
    (parse_number : string -> option numeric)
    (files : gmap string (result DataFrame)) (data_directory : string)
    (listing : list string) (e : Engine) :
  let final := (main parse_number files data_directory (Some listing) e).1 in
  processed_any_file final = true <-> exists p, SaveToDatabase p ∈ calls final.
Proof.
  intros final. unfold final. rewrite main_state.
  apply process_files_flag. cbn [initial_state processed_any_file calls].
  split; [discriminate|]. intros [p Hp]. now apply elem_of_nil in Hp.
Qed.

(** X8: a run of the driver only appends to the store: every table keeps
    its columns and its rows, in front of whatever the run added; only the
    destination table can change; and for every year the row count of the
    destination table after the run is at least the count before it. *)
Theorem driver_only_appends
    (parse_number : string -> option numeric)
    (files : gmap string (result DataFrame)) (data_directory : string)
    (listing : option (list string)) (e : Engine) :
  let final := (main parse_number files data_directory listing e).1 in
  extends e (engine final)
  /\ (forall tn, tn <> table_name -> tables (engine final) !! tn = tables e !! tn)
  /\ (forall y, (year_count e table_name y <= year_count (engine final) table_name y)%nat).
Proof.
  intros final.
  assert (extends e (engine final)
          /\ (forall tn, tn <> table_name ->
                tables (engine final) !! tn = tables e !! tn)) as [Hx Ho].
  { unfold final. destruct listing as [l|].
    - rewrite main_state.
      apply (process_files_store parse_number files data_directory (initial_state e) l).
    - split; [apply extends_refl | reflexivity]. }
  split; [exact Hx|]. split; [exact Ho|].
  intros y. now apply extends_year_count.
Qed.



(** X10: the file names that the pattern does not accept play no part: a
    run over a listing ends in the same state, and in the same way, as the
    run over the accepted names alone. *)
Theorem driver_ignores_other_names
    (parse_number : string -> option numeric)
    (files : gmap string (result DataFrame)) (data_directory : string)
    (listing : list string) (e : Engine) :
  main parse_number files data_directory (Some listing) e
  = main parse_number files data_directory
      (Some (filter (fun f => re_match_filename f = true) listing)) e.
Proof. unfold main. now rewrite process_files_filter. Qed.

(** X11: a run in which the existence check succeeds for the year of every
    accepted file is a no-op: it completes, makes no call, leaves the flag
    false and the store exactly as it was. This is the second run over an
    unchanged directory whose files all left a row for their year. *)
Theorem driver_all_years_stored_is_noop
    (parse_number : string -> option numeric)
    (files : gmap string (result DataFrame)) (data_directory : string)
    (listing : list string) (e : Engine) :
  (forall f y, f ∈ listing -> re_match_filename f = true ->
     extract_year_from_path (os_path_join data_directory f) = Ok (Some y) ->
     data_already_exist e table_name (Some y) = Ok true) ->
  main parse_number files data_directory (Some listing) e
  = (initial_state e, Completed).
Proof.
  intros H. unfold main.
  now rewrite (process_files_all_stored parse_number files data_directory
                 (initial_state e) listing H).
Qed.

Lemma driver_all_years_stored_is_noop_witness :
  main parse_decimal ∅ "data" (Some ["EGRE_DATOS_ABIERTOS_2019.csv"; "readme.md"])
    stored_2019
  = (initial_state stored_2019, Completed).
Proof.
  apply (driver_all_years_stored_is_noop parse_decimal ∅ "data"
           ["EGRE_DATOS_ABIERTOS_2019.csv"; "readme.md"] stored_2019).
  intros f y Hf Hm Hy. rewrite !elem_of_cons in Hf.
  destruct Hf as [->|[->|Hf]]; [| discriminate Hm | now apply elem_of_nil in Hf].
  vm_compute in Hy. injection Hy as <-. reflexivity.
Defined.

(** ** Preprocessor: a second pass *)

Lemma refined_refl r : refined r r.
Proof. split; [reflexivity|]. apply Forall2_same_length_lookup_2; [reflexivity|].
  intros i c c' H1 H2. left. congruence. Qed.

Lemma refined_trans r1 r2 r3 : refined r1 r2 -> refined r2 r3 -> refined r1 r3.
Proof.
  intros [L1 C1] [L2 C2]. split; [congruence|].
  revert C2. generalize (cells r3). induction C1 as [|c1 c2 l1 l2 H12 _ IH];
    intros l3 C2; inversion C2 as [|? c3 ? l3' H23 C2']; subst; constructor.
  - destruct H23 as [->|[z ->]]; [exact H12 | right; now exists z].
  - now apply IH.
Qed.

Lemma Forall2_refined_refl rs : Forall2 refined rs rs.
Proof. induction rs; constructor; auto using refined_refl. Qed.

Lemma Forall2_refined_trans rs1 rs2 rs3 :
  Forall2 refined rs1 rs2 -> Forall2 refined rs2 rs3 -> Forall2 refined rs1 rs3.
Proof.
  intros H. revert rs3. induction H; intros rs3 H3; inversion H3; subst;
    constructor; eauto using refined_trans.
Qed.

Lemma insert_refined j z (cs : list cell) :
  Forall2 (fun c c' => c' = c \/ exists z, c' = CInt z) cs (<[j := CInt z]> cs).
Proof.
  revert j. induction cs as [|c cs IH]; intros [|j]; simpl; constructor; eauto.
  - apply Forall2_same_length_lookup_2; [reflexivity|].
    intros i a b H1 H2. left. congruence.
Qed.

Lemma set_column_refined j vs rs :
  Forall (fun v => exists z, v = CInt z) vs -> length vs = length rs ->
  Forall2 refined rs (set_column j vs rs).
Proof.
  unfold set_column. intros Hvs. revert rs.
  induction Hvs as [|v vs [z ->] _ IH]; intros [|r rs] Hlen; simpl in *;
    try discriminate; constructor.
  - split; [reflexivity|]. apply insert_refined.
  - apply IH. lia.
Qed.

Lemma set_column_int_at j vs rs :
  Forall (fun v => exists z, v = CInt z) vs -> length vs = length rs ->
  Forall (fun r => (j < length (cells r))%nat) rs ->
  Forall (int_at j) (set_column j vs rs).
Proof.
  unfold set_column. intros Hvs. revert rs.
  induction Hvs as [|v vs [z ->] _ IH]; intros [|r rs] Hlen Hj; simpl in *;
    try discriminate; constructor.
  - exists z. cbn [cells]. apply list_lookup_insert_eq. now inversion Hj.
  - apply IH; [lia | now inversion Hj].
Qed.

Lemma refined_int_at j r r' : refined r r' -> int_at j r -> int_at j r'.
Proof.
  intros [_ C] [z Hz].
  destruct (Forall2_lookup_l _ _ _ _ _ C Hz) as (c' & Hc' & [->|[z' ->]]);
    [now exists z | now exists z'].
Qed.

Lemma Forall2_refined_int_at j rs rs' :
  Forall2 refined rs rs' -> Forall (int_at j) rs -> Forall (int_at j) rs'.
Proof.
  induction 1 as [|r r' rs rs' Hr _ IH]; intros Hi; inversion Hi; subst;
    constructor; eauto using refined_int_at.
Qed.

Lemma refined_length r r' : refined r r' -> length (cells r') = length (cells r).
Proof. intros [_ C]. symmetry. exact (Forall2_length _ _ _ C). Qed.

Lemma refined_count_stars r r' : refined r r' -> count_stars r' <= count_stars r.
Proof.
  intros [_ C]. unfold count_stars. apply inj_le.
  induction C as [|c c' l l' H _ IH]; [reflexivity|].
  cbn [List.filter]. destruct H as [->|[z ->]].
  - destruct (is_star c); cbn [length]; lia.
  - cbn [is_star]. destruct (is_star c); cbn [length]; lia.
Qed.

Section SecondPass.

Variable parse_number : string -> option numeric.

Lemma to_int_series_ints cs vs :
  to_int_series parse_number cs = Ok vs -> Forall (fun v => exists z, v = CInt z) vs.
Proof.
  unfold to_int_series. destruct (forallb _ _).
  - intros [= <-]. apply Forall_forall. intros v Hv.
    apply list_elem_of_In, in_map_iff in Hv. destruct Hv as (n & <- & _).
    destruct n; eauto.
  - destruct (forallb _ _); [|discriminate].
    intros [= <-]. apply Forall_forall. intros v Hv.
    apply list_elem_of_In, in_map_iff in Hv. destruct Hv as (n & <- & _). eauto.
Qed.

Lemma to_int_series_fixed cs :
  Forall (fun c => exists z, c = CInt z) cs -> to_int_series parse_number cs = Ok cs.
Proof.
  intros H. unfold to_int_series.
  assert (forallb is_int (map (to_numeric_cell parse_number) cs) = true) as ->.
  { induction H as [|c cs [z ->] _ IH]; [reflexivity | exact IH]. }
  f_equal. induction H as [|c cs [z ->] _ IH]; [reflexivity|].
  cbn [map to_numeric_cell]. now rewrite IH.
Qed.

Lemma set_column_fixed j rs :
  Forall (int_at j) rs -> set_column j (column_values j rs) rs = rs.
Proof.
  unfold set_column, column_values.
  induction 1 as [|r rs [z Hz] _ IH]; [reflexivity|].
  cbn [map zip_with]. rewrite IH. f_equal.
  rewrite (list_lookup_total_correct _ _ _ Hz), list_insert_id by exact Hz.
  now destruct r.
Qed.

Lemma convert_int_column_fixed df col :
  integer_columns [col] df -> convert_int_column parse_number df col = Ok df.
Proof.
  intros H. unfold convert_int_column.
  destruct (H col) as [->|(j & -> & Hj)]; [left | reflexivity |].
  assert (Forall (fun c => exists z, c = CInt z) (column_values j (rows df))) as Hc.
  { unfold column_values. apply Forall_forall. intros c Hc.
    apply list_elem_of_In, in_map_iff in Hc. destruct Hc as (r & <- & Hr).
    apply list_elem_of_In in Hr.
    destruct (proj1 (Forall_forall _ _) Hj r Hr) as [z Hz].
    exists z. now apply list_lookup_total_correct. }
  rewrite (to_int_series_fixed _ Hc). cbn [mbind result_bind].
  rewrite (set_column_fixed _ _ Hj). now destruct df.
Qed.

Lemma convert_int_columns_fixed cols df :
  integer_columns cols df -> convert_int_columns parse_number df cols = Ok df.
Proof.
  induction cols as [|col cols IH]; intros H; [reflexivity|].
  cbn [convert_int_columns]. rewrite convert_int_column_fixed.
  - cbn [mbind result_bind]. apply IH. intros c Hc. apply H. now right.
  - intros c Hc. apply list_elem_of_singleton in Hc. subst c. apply H. left.
Qed.

Lemma convert_int_column_refined df col df' :
  convert_int_column parse_number df col = Ok df' ->
  columns df' = columns df
  /\ Forall2 refined (rows df) (rows df')
  /\ (well_formed df -> integer_columns [col] df').
Proof.
  unfold convert_int_column.
  destruct (positions col (columns df) 0) as [|j [|j' js]] eqn:Hp.
  - intros [= <-]. split; [reflexivity|]. split; [apply Forall2_refined_refl|].
    intros _ c Hc. apply list_elem_of_singleton in Hc. subst c. now left.
  - destruct (to_int_series _ _) as [vs|e] eqn:Hs; [|discriminate].
    intros [= <-]. cbn [columns rows].
    pose proof (to_int_series_ints _ _ Hs) as Hints.
    assert (length vs = length (rows df)) as Hlen.
    { apply to_int_series_length in Hs. rewrite Hs.
      unfold column_values. apply length_map. }
    split; [reflexivity|]. split; [now apply set_column_refined|].
    intros Hwf c Hc. apply list_elem_of_singleton in Hc. subst c. right.
    exists j. split; [exact Hp|].
    apply set_column_int_at; [exact Hints | exact Hlen |].
    assert (j ∈ positions col (columns df) 0) as Hin by (rewrite Hp; left).
    apply positions_lookup in Hin. destruct Hin as [_ Hin].
    rewrite Nat.sub_0_r in Hin. apply lookup_lt_Some in Hin.
    eapply Forall_impl; [exact Hwf|]. cbn. intros r ->. exact Hin.
  - discriminate.
Qed.

Lemma well_formed_refined df df' :
  columns df' = columns df -> Forall2 refined (rows df) (rows df') ->
  well_formed df -> well_formed df'.
Proof.
  unfold well_formed. intros -> HF. induction HF as [|r r' rs rs' Hr _ IH];
    intros H; inversion H; subst; constructor.
  - rewrite (refined_length _ _ Hr). assumption.
  - now apply IH.
Qed.

Lemma integer_columns_refined cols df df' :
  columns df' = columns df -> Forall2 refined (rows df) (rows df') ->
  integer_columns cols df -> integer_columns cols df'.
Proof.
  intros Hc HF H col Hcol. rewrite Hc.
  destruct (H col Hcol) as [Hn|(j & Hj & Hi)]; [now left|].
  right. exists j. split; [exact Hj|]. eapply Forall2_refined_int_at; eauto.
Qed.

Lemma convert_int_columns_refined cols df df' :
  convert_int_columns parse_number df cols = Ok df' ->
  columns df' = columns df
  /\ Forall2 refined (rows df) (rows df')
  /\ (well_formed df -> integer_columns cols df').
Proof.
  revert df. induction cols as [|col cols IH]; intros df; cbn [convert_int_columns].
  - intros [= <-]. split; [reflexivity|]. split; [apply Forall2_refined_refl|].
    intros _ c Hc. now apply elem_of_nil in Hc.
  - destruct (convert_int_column parse_number df col) as [df1|e] eqn:H1;
      [|discriminate].
    cbn [mbind result_bind]. intros H2.
    apply convert_int_column_refined in H1. destruct H1 as (C1 & F1 & I1).
    apply IH in H2. destruct H2 as (C2 & F2 & I2).
    split; [congruence|]. split; [eapply Forall2_refined_trans; eauto|].
    intros Hwf c Hc. apply elem_of_cons in Hc. destruct Hc as [->|Hc].
    + apply (integer_columns_refined [col] df1); [exact C2 | exact F2 | |left].
      now apply I1.
    + apply I2; [|exact Hc]. now apply (well_formed_refined df).
Qed.

Lemma rename_columns_twice cols :
  rename_columns (rename_columns cols) = rename_columns cols.
Proof.
  rewrite !rename_columns_map, map_map. apply map_ext.
  intros c. apply rename_column_idempotent.
Qed.

Lemma filter_rows_all a rs :
  Forall (fun r => count_stars r <= a) rs -> filter_rows a rs = rs.
Proof.
  unfold filter_rows. induction 1 as [|r rs Hr _ IH]; [reflexivity|].
  rewrite filter_cons_True by exact Hr. now rewrite IH.
Qed.

Lemma filter_rows_bound a rs : Forall (fun r => count_stars r <= a) (filter_rows a rs).
Proof.
  apply Forall_forall. intros r Hr. unfold filter_rows in Hr.
  now apply list_elem_of_filter in Hr.
Qed.

(** The parts of a non-empty batch's way through the stage. *)
Lemma preprocess_data_parts df threshold out :
  empty df = false ->
  preprocess_data parse_number df threshold = Ok out ->
  exists allowed_stars,
    allowed_stars_of (Z.of_nat (length (columns df))) threshold = Ok allowed_stars
    /\ columns out = rename_columns (columns df)
    /\ Forall2 refined (filter_rows allowed_stars (rows df)) (rows out)
    /\ (well_formed df -> integer_columns int_columns_to_convert out).
Proof.
  intros He. unfold preprocess_data. rewrite He.
  destruct (allowed_stars_of _ _) as [a|e]; [|discriminate].
  cbn [mbind result_bind columns rows]. intros H. exists a. split; [reflexivity|].
  apply convert_int_columns_refined in H. cbn [columns rows] in H.
  destruct H as (C & F & I). split; [exact C|]. split; [exact F|].
  intros Hwf. apply I. unfold well_formed in *. cbn [columns rows].
  rewrite rename_columns_length. apply Forall_forall. intros r Hr.
  unfold filter_rows in Hr. apply list_elem_of_filter in Hr.
  exact (proj1 (Forall_forall _ _) Hwf r (proj2 Hr)).
Qed.

End SecondPass.

(** X12: the stage is idempotent on rectangular batches: when
    [preprocess_data] returns a batch, running it again on that batch, with
    the same threshold, returns the very same batch. *)
Theorem preprocess_data_idempotent
    (parse_number : string -> option numeric) (df : DataFrame)
    (threshold : spec_float) (out : DataFrame) :
  well_formed df ->
  preprocess_data parse_number df threshold = Ok out ->
  preprocess_data parse_number out threshold = Ok out.
Proof.
  intros Hwf H. destruct (empty df) eqn:He.
  { unfold preprocess_data in H. rewrite He in H. injection H as <-.
    unfold preprocess_data. now rewrite He. }
  destruct (preprocess_data_parts _ _ _ _ He H) as (a & Ha & Hc & HF & HI).
  unfold preprocess_data. destruct (empty out); [reflexivity|].
  rewrite Hc, rename_columns_length, Ha. cbn [mbind result_bind columns rows].
  rewrite rename_columns_twice, <- Hc.
  rewrite filter_rows_all.
  - replace {| columns := columns out; rows := rows out |} with out
      by now destruct out.
    apply convert_int_columns_fixed. now apply HI.
  - pose proof (filter_rows_bound a (rows df)) as Hb.
    revert HF Hb. generalize (filter_rows a (rows df)) (rows out).
    intros kept rs' HF Hb. clear -HF Hb.
    induction HF as [|r r' rs rs1 Hr _ IH]; constructor.
    + apply refined_count_stars in Hr. inversion Hb; subst. lia.
    + apply IH. now inversion Hb.
Qed.

Lemma preprocess_data_idempotent_witness :
  preprocess_data parse_decimal cleaned_two_star_rows PyFloat.half
  = Ok cleaned_two_star_rows.
Proof.
  apply (preprocess_data_idempotent parse_decimal two_star_rows PyFloat.half).
  - repeat constructor.
  - reflexivity.
Defined.

Lemma replaced_names_renamed n : n ∈ replaced_names -> rename_column n <> n.
Proof.
  unfold replaced_names. rewrite !elem_of_cons, elem_of_nil.
  intros [-> | [-> | [-> | [-> | [-> | []]]]]]; vm_compute; discriminate.
Qed.

(** X13: a batch returned for a non-empty input carries none of the source
    names that the mapping replaces ([PERTE], [SEXO_PERSONA], [EDAD_GRUPO],
    [GRUPOS_ETAREOS], [DIAS_ESTADIA]): every column name of the output is
    left as it is by the rename step. *)
Theorem preprocess_data_replaces_names
    (parse_number : string -> option numeric) (df : DataFrame)
    (threshold : spec_float) (out : DataFrame) :
  empty df = false ->
  preprocess_data parse_number df threshold = Ok out ->
  Forall (fun c => (c ∉ replaced_names) /\ rename_column c = c) (columns out).
Proof.
  intros He H.
  destruct (preprocess_data_parts _ _ _ _ He H) as (a & _ & -> & _).
  rewrite rename_columns_map. apply Forall_forall. intros c Hc.
  apply list_elem_of_In, in_map_iff in Hc. destruct Hc as (c0 & <- & _).
  pose proof (rename_column_idempotent c0) as Hi. split; [|exact Hi].
  intros Hr. now apply replaced_names_renamed in Hr.
Qed.

Lemma preprocess_data_replaces_names_witness :
  Forall (fun c => (c ∉ replaced_names) /\ rename_column c = c)
    (columns cleaned_two_star_rows).
Proof.
  apply (preprocess_data_replaces_names parse_decimal two_star_rows PyFloat.half
           cleaned_two_star_rows);
    reflexivity.
Defined.

(** X14: the stage keeps a batch rectangular and puts no sentinel in: when
    every input row has one cell per column, so has every output row, and
    each output row is an input row in which some cells were replaced by
    integers, so that no row has more [*] cells after the stage than it had
    before. *)
Theorem preprocess_data_rectangular
    (parse_number : string -> option numeric) (df : DataFrame)
    (threshold : spec_float) (out : DataFrame) :
  well_formed df ->
  preprocess_data parse_number df threshold = Ok out ->
  well_formed out
  /\ exists kept, kept `sublist_of` rows df
       /\ Forall2 (fun r r' => refined r r' /\ count_stars r' <= count_stars r)
            kept (rows out).
Proof.
  intros Hwf H. destruct (empty df) eqn:He.
  { unfold preprocess_data in H. rewrite He in H. injection H as <-.
    split; [exact Hwf|]. exists (rows df). split; [reflexivity|].
    clear. induction (rows df) as [|r rs IH]; constructor; [|exact IH].
    split; [apply refined_refl | lia]. }
  destruct (preprocess_data_parts _ _ _ _ He H) as (a & _ & Hc & HF & _).
  split.
  - apply (well_formed_refined
             {| columns := columns out; rows := filter_rows a (rows df) |});
      [reflexivity | exact HF |].
    unfold well_formed in *. cbn [columns rows].
    rewrite Hc, rename_columns_length. apply Forall_forall. intros r Hr.
    unfold filter_rows in Hr. apply list_elem_of_filter in Hr.
    exact (proj1 (Forall_forall _ _) Hwf r (proj2 Hr)).
  - exists (filter_rows a (rows df)). split; [apply sublist_filter|].
    eapply Forall2_impl; [exact HF|]. intros r r' Hr.
    split; [exact Hr | now apply refined_count_stars].
Qed.

Lemma preprocess_data_rectangular_witness :
  well_formed cleaned_two_star_rows
  /\ exists kept, kept `sublist_of` rows two_star_rows
       /\ Forall2 (fun r r' => refined r r' /\ count_stars r' <= count_stars r)
            kept (rows cleaned_two_star_rows).
Proof.
  apply (preprocess_data_rectangular parse_decimal two_star_rows PyFloat.half).
  - repeat constructor.
  - reflexivity.
Defined.

(** ** From the preprocessor to the store *)

Lemma batch_year_count_pos df j r y :
  positions year_column (columns df) 0 = [j] ->
  r ∈ rows df -> cells r !! j = Some (CInt y) ->
  (0 < batch_year_count df y)%nat.
Proof.
  intros Hp Hr Hy. unfold batch_year_count.
  assert (r ∈ filter (fun r => row_year_value (columns df) r = SqlInteger y) (rows df))
    as Hin.
  { apply list_elem_of_filter. split; [|exact Hr].
    unfold row_year_value. rewrite Hp.
    now rewrite (list_lookup_total_correct _ _ _ Hy). }
  destruct (filter _ (rows df)); [now apply elem_of_nil in Hin | cbn; lia].
Qed.

(** X15: what the stage returns and the store accepts is found again: when
    a rectangular batch is preprocessed, the result has the [ANO_EGRESO]
    column and is appended to the table, then every row of the result holds
    an integer year under that column, and the existence check on the new
    store succeeds for that year. *)
Theorem preprocessed_rows_are_found
    (parse_number : string -> option numeric) (df : DataFrame)
    (threshold : spec_float) (out : DataFrame) (e e' : Engine) (tn : string) :
  well_formed df ->
  preprocess_data parse_number df threshold = Ok out ->
  year_column ∈ columns out ->
  to_sql_append out e tn = Ok e' ->
  forall r, r ∈ rows out ->
    exists y, row_year_value (columns out) r = SqlInteger y
              /\ data_already_exist e' tn (Some y) = Ok true.
Proof.
  intros Hwf H Hcol Hs r Hr.
  destruct (empty df) eqn:He.
  { unfold preprocess_data in H. rewrite He in H. injection H as <-.
    unfold empty in He. destruct (columns df); [now apply elem_of_nil in Hcol|].
    destruct (rows df); [now apply elem_of_nil in Hr | discriminate]. }
  destruct (preprocess_data_parts _ _ _ _ He H) as (a & _ & _ & _ & HI).
  destruct (HI Hwf year_column) as [Hn|(j & Hj & Hint)].
  { unfold int_columns_to_convert, year_column. rewrite !elem_of_cons. auto. }
  { apply positions_nil in Hn. contradiction. }
  destruct (proj1 (Forall_forall _ _) Hint r Hr) as [y Hy].
  exists y. split.
  - unfold row_year_value. rewrite Hj.
    now rewrite (list_lookup_total_correct _ _ _ Hy).
  - pose proof (to_sql_append_year_count _ _ _ _ y Hs) as Hc.
    apply to_sql_append_effect in Hs. destruct Hs as (Hf & [Hf' _] & _).
    rewrite data_already_exist_year_count by congruence.
    f_equal. apply bool_decide_eq_true.
    pose proof (batch_year_count_pos out j r y Hj Hr Hy). lia.
Qed.

Lemma preprocessed_rows_are_found_witness :
  exists y,
    row_year_value (columns cleaned_two_star_rows)
      {| label := 0; cells := [CStr "*"; CStr "*"; CInt 2019; CInt 5] |}
    = SqlInteger y
    /\ data_already_exist stored_cleaned table_name (Some y) = Ok true.
Proof.
  apply (preprocessed_rows_are_found parse_decimal two_star_rows PyFloat.half
           cleaned_two_star_rows {| tables := ∅; failure := None |}
           stored_cleaned table_name).
  - repeat constructor.
  - reflexivity.
  - unfold year_column. cbn [columns cleaned_two_star_rows].
    rewrite !elem_of_cons. auto.
  - reflexivity.
  - left.
Defined.

(** ** Argument parser *)

Lemma do_shorts_file opts optstring args :
  Getopt.do_shorts opts optstring "f:" args =
  match optstring with
  | EmptyString => Getopt.Parsed (opts, args)
  | String c o =>
      if Ascii.eqb c "f" then
        match o, args with
        | EmptyString, [] =>
            Getopt.Failed (Getopt.GetoptError "option -f requires argument" "f")
        | EmptyString, v :: args' => Getopt.Parsed (Getopt.append opts "-f" v, args')
        | _, _ => Getopt.Parsed (Getopt.append opts "-f" o, args)
        end
      else Getopt.Failed
             (Getopt.GetoptError ("option -" +:+ Getopt.char c +:+ " not recognized")
                (Getopt.char c))
  end.
Proof.
  destruct optstring as [|c o]; [reflexivity|].
  cbn [Getopt.do_shorts Getopt.short_has_arg].
  destruct (Ascii.eqb c "f") eqn:Hc.
  - apply Ascii.eqb_eq in Hc. subst c. cbn. destruct o, args; reflexivity.
  - cbn. rewrite andb_false_r. reflexivity.
Qed.

Lemma index_split c s i :
  PyText.index c s = Ok i ->
  s = PyText.take i s +:+ String c (PyStr.drop (S i) s)
  /\ PyText.index c (PyText.take i s) = Raise ValueError.
Proof.
  revert i. induction s as [|d s IH]; intros i H; [discriminate|].
  cbn [PyText.index] in H. destruct (Ascii.eqb d c) eqn:Hd.
  - injection H as <-. apply Ascii.eqb_eq in Hd. subst d. now split.
  - destruct (PyText.index c s) as [j|e] eqn:Hj; [|discriminate].
    injection H as <-. destruct (IH j eq_refl) as [Hs Hn].
    cbn [PyText.take PyStr.drop PyText.index]. rewrite Hd, Hn. str_simpl.
    split; [|reflexivity]. f_equal. exact Hs.
Qed.

Lemma index_raises c s e : PyText.index c s = Raise e -> e = ValueError.
Proof.
  induction s as [|d s IH]; cbn [PyText.index]; [congruence|].
  destruct (Ascii.eqb d c); [discriminate|].
  destruct (PyText.index c s); [discriminate|].
  cbn. intros [= <-]. now apply IH.
Qed.

Lemma abbreviates_file_cases name :
  abbreviates_file name <->
  name = "" \/ name = "f" \/ name = "fi" \/ name = "fil" \/ name = "file".
Proof.
  unfold abbreviates_file. rewrite !elem_of_cons, elem_of_nil. tauto.
Qed.

Lemma long_has_args_file name :
  abbreviates_file name ->
  Getopt.long_has_args name ["file="] = Getopt.Parsed (true, "file").
Proof.
  rewrite abbreviates_file_cases.
  intros [-> | [-> | [-> | [-> | ->]]]]; reflexivity.
Qed.

Lemma prefix_of_file opt :
  PyStr.startswith opt "file=" = true -> abbreviates_file opt \/ opt = "file=".
Proof.
  intros H. apply startswith_split in H. revert H.
  generalize (PyStr.drop (String.length opt) "file="). intros t H.
  rewrite abbreviates_file_cases.
  repeat (destruct opt as [|? opt]; [tauto|];
          str_simpl_in H; injection H as <- H).
  destruct opt; [tauto | discriminate].
Qed.

Lemma long_has_args_other opt :
  ~ abbreviates_file opt -> PyText.index "=" opt = Raise ValueError ->
  Getopt.long_has_args opt ["file="]
  = Getopt.Failed (Getopt.GetoptError ("option --" +:+ opt +:+ " not recognized") opt).
Proof.
  intros Hn Hi. unfold Getopt.long_has_args. cbn [List.filter].
  destruct (PyStr.startswith opt "file=") eqn:Hp; [|reflexivity].
  apply prefix_of_file in Hp. destruct Hp as [Hp| ->]; [tauto | discriminate].
Qed.

Lemma do_longs_file_next acc name v args :
  abbreviates_file name ->
  Getopt.do_longs acc name ["file="] (v :: args)
  = Getopt.Parsed (Getopt.append acc "--file" v, args).
Proof.
  rewrite abbreviates_file_cases.
  intros [-> | [-> | [-> | [-> | ->]]]]; reflexivity.
Qed.

Lemma do_longs_file_equals acc name v args :
  abbreviates_file name ->
  Getopt.do_longs acc (name +:+ "=" +:+ v) ["file="] args
  = Getopt.Parsed (Getopt.append acc "--file" v, args).
Proof.
  rewrite abbreviates_file_cases.
  intros [-> | [-> | [-> | [-> | ->]]]]; reflexivity.
Qed.

Lemma do_longs_file_inv acc o args acc' args' :
  Getopt.do_longs acc o ["file="] args = Getopt.Parsed (acc', args') ->
  (exists name v, abbreviates_file name /\ o = name +:+ "=" +:+ v
     /\ acc' = Getopt.append acc "--file" v /\ args' = args)
  \/ (abbreviates_file o
      /\ exists v, args = v :: args' /\ acc' = Getopt.append acc "--file" v).
Proof.
  unfold Getopt.do_longs.
  destruct (PyText.index "=" o) as [i|e] eqn:Hi.
  - destruct (index_split _ _ _ Hi) as [Ho Hn].
    destruct (decide (abbreviates_file (PyText.take i o))) as [Ha|Ha].
    + rewrite (long_has_args_file _ Ha). cbn [mbind Getopt.parsed_bind].
      intros [= <- <-]. left. exists (PyText.take i o), (PyStr.drop (S i) o).
      repeat split; [exact Ha | exact Ho].
    + rewrite (long_has_args_other _ Ha Hn). discriminate.
  - apply index_raises in Hi as He. subst e.
    destruct (decide (abbreviates_file o)) as [Ha|Ha].
    + rewrite (long_has_args_file _ Ha). cbn [mbind Getopt.parsed_bind].
      destruct args as [|v args0]; [discriminate|].
      intros [= <- <-]. right. split; [exact Ha|]. now exists v.
    + rewrite (long_has_args_other _ Ha Hi). discriminate.
Qed.

Lemma getopt_loop_step fuel acc arg rest shortopts longopts :
  Getopt.getopt_loop (S fuel) acc (arg :: rest) shortopts longopts =
  if is_option_like arg then
    if String.eqb arg "--" then Getopt.Parsed (acc, rest)
    else
      '(opts, args) ←
        (if PyStr.startswith "--" arg
         then Getopt.do_longs acc (PyStr.drop 2 arg) longopts rest
         else Getopt.do_shorts acc (PyStr.drop 1 arg) shortopts rest);
      Getopt.getopt_loop fuel opts args shortopts longopts
  else Getopt.Parsed (acc, arg :: rest).
Proof. reflexivity. Qed.

Lemma getopt_loop_nil fuel acc shortopts longopts :
  Getopt.getopt_loop fuel acc [] shortopts longopts = Getopt.Parsed (acc, []).
Proof. now destruct fuel. Qed.

Lemma append_app acc o v opts :
  (Getopt.append acc o v ++ opts)%list = (acc ++ (o, v) :: opts)%list.
Proof. unfold Getopt.append. now rewrite <- app_assoc. Qed.

Lemma getopt_loop_complete args opts rest :
  cmdline args opts rest ->
  forall fuel acc, (length args <= fuel)%nat ->
    Getopt.getopt_loop fuel acc args "f:" ["file="]
    = Getopt.Parsed ((acc ++ opts)%list, rest).
Proof.
  induction 1 as [|a rest Ha|rest|v args opts rest _ IH|c v args opts rest _ IH
                  |name v args opts rest Hn Hne _ IH|name v args opts rest Hn _ IH];
    intros fuel acc Hf.
  - now rewrite getopt_loop_nil, app_nil_r.
  - destruct fuel as [|fuel]; [cbn in Hf; lia|].
    now rewrite getopt_loop_step, Ha, app_nil_r.
  - destruct fuel as [|fuel]; [cbn in Hf; lia|].
    now rewrite getopt_loop_step, app_nil_r.
  - destruct fuel as [|fuel]; [cbn in Hf; lia|].
    rewrite getopt_loop_step. cbn [length] in Hf.
    change (is_option_like "-f") with true. cbv iota.
    change (String.eqb "-f" "--") with false. cbv iota.
    change (PyStr.startswith "--" "-f") with false. cbv iota.
    change (PyStr.drop 1 "-f") with "f".
    rewrite do_shorts_file. cbn [Ascii.eqb Bool.eqb mbind Getopt.parsed_bind].
    rewrite IH by lia. now rewrite append_app.
  - destruct fuel as [|fuel]; [cbn in Hf; lia|].
    rewrite getopt_loop_step. cbn [length] in Hf.
    change (is_option_like ("-f" +:+ String c v)) with true. cbv iota.
    change (String.eqb ("-f" +:+ String c v) "--") with false. cbv iota.
    change (PyStr.startswith "--" ("-f" +:+ String c v)) with false. cbv iota.
    change (PyStr.drop 1 ("-f" +:+ String c v)) with (String "f" (String c v)).
    rewrite do_shorts_file. cbn [Ascii.eqb Bool.eqb mbind Getopt.parsed_bind].
    rewrite IH by lia. now rewrite append_app.
  - destruct fuel as [|fuel]; [cbn in Hf; lia|].
    rewrite getopt_loop_step. cbn [length] in Hf.
    assert (is_option_like ("--" +:+ name) = true
            /\ String.eqb ("--" +:+ name) "--" = false
            /\ PyStr.startswith "--" ("--" +:+ name) = true
            /\ PyStr.drop 2 ("--" +:+ name) = name) as (-> & -> & -> & ->).
    { destruct name; [congruence|]. repeat split. }
    rewrite (do_longs_file_next _ _ _ _ Hn). cbn [mbind Getopt.parsed_bind].
    rewrite IH by lia. now rewrite append_app.
  - destruct fuel as [|fuel]; [cbn in Hf; lia|].
    rewrite getopt_loop_step. cbn [length] in Hf.
    assert (is_option_like ("--" +:+ name +:+ "=" +:+ v) = true
            /\ String.eqb ("--" +:+ name +:+ "=" +:+ v) "--" = false
            /\ PyStr.startswith "--" ("--" +:+ name +:+ "=" +:+ v) = true
            /\ PyStr.drop 2 ("--" +:+ name +:+ "=" +:+ v) = name +:+ "=" +:+ v)
      as (-> & -> & -> & ->).
    { destruct name; repeat split. }
    rewrite (do_longs_file_equals _ _ _ _ Hn). cbn [mbind Getopt.parsed_bind].
    rewrite IH by lia. now rewrite append_app.
Qed.

Lemma is_option_like_inv arg :
  is_option_like arg = true -> exists c o, arg = String "-" (String c o).
Proof.
  destruct arg as [|a arg]; [discriminate|].
  unfold is_option_like, PyStr.startswith. cbn [String.prefix].
  destruct (ascii_dec "-" a) as [<-|]; [|discriminate].
  destruct arg as [|c o]; [discriminate|]. intros _. now exists c, o.
Qed.

Lemma getopt_loop_sound fuel :
  forall acc args acc' rest, (length args <= fuel)%nat ->
    Getopt.getopt_loop fuel acc args "f:" ["file="] = Getopt.Parsed (acc', rest) ->
    exists opts, acc' = (acc ++ opts)%list /\ cmdline args opts rest.
Proof.
  induction fuel as [|fuel IH]; intros acc args acc' rest Hf H.
  { destruct args; [|cbn in Hf; lia]. injection H as <- <-.
    exists []. split; [now rewrite app_nil_r | constructor]. }
  destruct args as [|arg args].
  { injection H as <- <-. exists []. split; [now rewrite app_nil_r | constructor]. }
  rewrite getopt_loop_step in H. cbn [length] in Hf.
  destruct (is_option_like arg) eqn:Ho.
  2:{ injection H as <- <-. exists []. split; [now rewrite app_nil_r|].
      now constructor. }
  destruct (String.eqb arg "--") eqn:Hd.
  { apply String.eqb_eq in Hd. subst arg. injection H as <- <-.
    exists []. split; [now rewrite app_nil_r | constructor]. }
  apply String.eqb_neq in Hd.
  destruct (is_option_like_inv _ Ho) as (c & o & ->).
  destruct (PyStr.startswith "--" (String "-" (String c o))) eqn:Hl.
  - assert (c = "-"%char) as ->.
    { unfold PyStr.startswith in Hl. cbn [String.prefix] in Hl.
      destruct (ascii_dec "-" "-") as [_|]; [|congruence].
      destruct (ascii_dec "-" c); [now subst | discriminate]. }
    change (PyStr.drop 2 (String "-" (String "-" o))) with o in H.
    destruct (Getopt.do_longs acc o ["file="] args) as [[acc1 args1]|err] eqn:Hs;
      [|discriminate].
    cbn [mbind Getopt.parsed_bind] in H.
    apply do_longs_file_inv in Hs.
    destruct Hs as [(name & v & Hn & -> & -> & ->)|(Hn & v & -> & ->)].
    + apply IH in H; [|lia]. destruct H as (opts & -> & Hc).
      exists (("--file", v) :: opts). split; [apply append_app|].
      now apply (cmdline_long_equals name v).
    + apply IH in H; [|cbn [length] in Hf; lia]. destruct H as (opts & -> & Hc).
      exists (("--file", v) :: opts). split; [apply append_app|].
      apply (cmdline_long o v); [exact Hn | | exact Hc].
      intros ->. now apply Hd.
  - change (PyStr.drop 1 (String "-" (String c o))) with (String c o) in H.
    rewrite do_shorts_file in H.
    destruct (Ascii.eqb c "f") eqn:Hc; [|discriminate].
    apply Ascii.eqb_eq in Hc. subst c.
    destruct o as [|c v].
    + destruct args as [|v args]; [discriminate|].
      cbn [mbind Getopt.parsed_bind] in H.
      apply IH in H; [|cbn [length] in Hf; lia]. destruct H as (opts & -> & Hc).
      exists (("-f", v) :: opts). split; [apply append_app|]. now constructor.
    + cbn [mbind Getopt.parsed_bind] in H.
      apply IH in H; [|lia]. destruct H as (opts & -> & Hc).
      exists (("-f", String c v) :: opts). split; [apply append_app|].
      now apply (cmdline_short_glued c v).
Qed.

Lemma getopt_cmdline args opts rest :
  Getopt.getopt args "f:" ["file="] = Getopt.Parsed (opts, rest)
  <-> cmdline args opts rest.
Proof.
  unfold Getopt.getopt. split.
  - intros H. apply getopt_loop_sound in H; [|lia].
    destruct H as (opts' & -> & H). exact H.
  - intros H. now rewrite (getopt_loop_complete _ _ _ H).
Qed.

Lemma last_cons {A} (a : A) l d : List.last (a :: l) d = List.last l a.
Proof.
  revert a d. induction l as [|b l IH]; intros a d; [reflexivity|].
  change (List.last (a :: b :: l) d) with (List.last (b :: l) d).
  now rewrite (IH b d), (IH b a).
Qed.

Lemma last_file_value_cmdline args opts rest :
  cmdline args opts rest ->
  forall p, last_file_value p opts = List.last (map snd opts) p.
Proof.
  induction 1 as [|a rest Ha|rest|v args opts rest _ IH|c v args opts rest _ IH
                  |name v args opts rest Hn Hne _ IH|name v args opts rest Hn _ IH];
    intros p; try reflexivity.
  all: cbn [last_file_value map snd].
  all: rewrite bool_decide_eq_true_2
    by (rewrite !elem_of_cons; auto).
  all: now rewrite IH, last_cons.
Qed.

Lemma index_app c x y :
  PyText.index c x = Raise ValueError ->
  PyText.index c (x +:+ String c y) = Ok (String.length x).
Proof.
  induction x as [|d x IH]; str_simpl; cbn [PyText.index String.length].
  - now rewrite Ascii.eqb_refl.
  - destruct (Ascii.eqb d c); [discriminate|].
    destruct (PyText.index c x) as [i|e] eqn:Hx; [discriminate|].
    apply index_raises in Hx. subst e. intros _. now rewrite IH.
Qed.

Lemma take_app x t : PyText.take (String.length x) (x +:+ t) = x.
Proof.
  induction x as [|d x IH]; str_simpl; cbn [PyText.take String.length].
  - now destruct t.
  - now rewrite IH.
Qed.

Lemma abbreviates_file_index name :
  abbreviates_file name -> PyText.index "=" name = Raise ValueError.
Proof.
  rewrite abbreviates_file_cases.
  intros [-> | [-> | [-> | [-> | ->]]]]; reflexivity.
Qed.

(** The part of a long option before its [=] is determined. *)
Lemma equals_split_inj n1 v1 n2 v2 :
  PyText.index "=" n1 = Raise ValueError ->
  PyText.index "=" n2 = Raise ValueError ->
  n1 +:+ "=" +:+ v1 = n2 +:+ "=" +:+ v2 -> n1 = n2.
Proof.
  intros H1 H2 H.
  pose proof (index_app "=" n1 v1 H1) as E1.
  pose proof (index_app "=" n2 v2 H2) as E2.
  change (String "=" v1) with ("=" +:+ v1) in E1.
  change (String "=" v2) with ("=" +:+ v2) in E2.
  rewrite H, E2 in E1. injection E1 as E.
  rewrite <- (take_app n1 ("=" +:+ v1)), <- (take_app n2 ("=" +:+ v2)).
  now rewrite H, E.
Qed.

Lemma dashes_app_inj s t : "--" +:+ s = "--" +:+ t -> s = t.
Proof. str_simpl. now intros [= ->]. Qed.

Lemma cmdline_head_inv arg args opts r :
  cmdline (arg :: args) opts r ->
  is_option_like arg = false
  \/ arg = "--"
  \/ (exists o, arg = String "-" (String "f" o))
  \/ (exists name, abbreviates_file name /\ name <> "" /\ arg = "--" +:+ name)
  \/ (exists name v, abbreviates_file name /\ arg = "--" +:+ name +:+ "=" +:+ v).
Proof.
  inversion 1; subst; eauto 10.
Qed.

(** X16: [parse_arguments] returns exactly on the command lines of the
    grammar [cmdline] ([-f v], [-fv], [--file v], [--file=v] and the
    abbreviations of [--file], read up to the first argument that is not an
    option or up to [--]), and then returns the value of the last option,
    [""] without any; on every other command line it exits with status 2,
    and with no other status. *)
Theorem parse_arguments_grammar (prog : string) (args : list string) :
  (forall p, parse_arguments (prog :: args) = Returned p <->
             exists opts rest, cmdline args opts rest /\ p = last_value opts)
  /\ (forall code, parse_arguments (prog :: args) = SysExit code <->
             code = 2 /\ ~ exists opts rest, cmdline args opts rest).
Proof.
  unfold parse_arguments. change (List.skipn 1 (prog :: args)) with args.
  destruct (Getopt.getopt args "f:" ["file="]) as [[opts rest]|err] eqn:H.
  - apply getopt_cmdline in H as Hc. split.
    + intros p. rewrite (last_file_value_cmdline _ _ _ Hc). split.
      * intros [= <-]. now exists opts, rest.
      * intros (opts' & rest' & Hc' & ->). apply getopt_cmdline in Hc'.
        rewrite H in Hc'. now injection Hc' as <- <-.
    + intros code. split; [discriminate|]. intros [_ Hn]. destruct Hn. eauto.
  - split.
    + intros p. split; [discriminate|]. intros (opts & rest & Hc & _).
      apply getopt_cmdline in Hc. congruence.
    + intros code. split.
      * intros [= <-]. split; [reflexivity|]. intros (opts & rest & Hc).
        apply getopt_cmdline in Hc. congruence.
      * now intros [-> _].
Qed.

(** X17: every spelling of the option gives its value, whatever the value
    is, a value that itself looks like an option included: [-f v], [-fv]
    for a non-empty [v], [--file v], [--file=v], and the abbreviations
    [--fil], [--fi], [--f] and even [--=v]. *)
Theorem parse_arguments_spellings (prog v : string) (c : ascii) :
  parse_arguments [prog; "-f"; v] = Returned v
  /\ parse_arguments [prog; "-f" +:+ String c v] = Returned (String c v)
  /\ parse_arguments [prog; "--file"; v] = Returned v
  /\ parse_arguments [prog; "--file=" +:+ v] = Returned v
  /\ parse_arguments [prog; "--fil"; v] = Returned v
  /\ parse_arguments [prog; "--fi=" +:+ v] = Returned v
  /\ parse_arguments [prog; "--f"; v] = Returned v
  /\ parse_arguments [prog; "--=" +:+ v] = Returned v.
Proof. repeat split. Qed.

(** X18: an unknown option as first argument makes [parse_arguments] exit
    with status 2: a short option whose letter is not [f], and a long
    option, with or without [=value], whose name is no abbreviation of
    [file]. *)
Theorem parse_arguments_rejects_unknown
    (prog : string) (c : ascii) (o name v : string) (rest : list string) :
  c <> "f"%char -> c <> "-"%char ->
  ~ abbreviates_file name -> PyText.index "=" name = Raise ValueError ->
  parse_arguments (prog :: String "-" (String c o) :: rest) = SysExit 2
  /\ parse_arguments (prog :: ("--" +:+ name) :: rest) = SysExit 2
  /\ parse_arguments (prog :: ("--" +:+ name +:+ "=" +:+ v) :: rest) = SysExit 2.
Proof.
  intros Hf Hd Hn Hi.
  assert (forall args, (forall opts r, ~ cmdline args opts r) ->
            parse_arguments (prog :: args) = SysExit 2) as Hexit.
  { intros args Hno. unfold parse_arguments.
    change (List.skipn 1 (prog :: args)) with args.
    destruct (Getopt.getopt args "f:" ["file="]) as [[opts r]|err] eqn:H;
      [|reflexivity].
    apply getopt_cmdline in H. now apply Hno in H. }
  assert (name <> "") as Hne.
  { intros ->. apply Hn, abbreviates_file_cases. auto. }
  split; [|split]; apply Hexit; intros opts r Hc;
    apply cmdline_head_inv in Hc;
    destruct Hc as [Hc|[Hc|[[o' Hc]|[(n & Ha & Hne' & Hc)|(n & w & Ha & Hc)]]]].
  - discriminate.
  - injection Hc as -> _. congruence.
  - injection Hc as -> _. congruence.
  - str_simpl_in Hc. injection Hc as -> _. congruence.
  - str_simpl_in Hc. injection Hc as -> _. congruence.
  - destruct name; [congruence | discriminate].
  - destruct name; [congruence | discriminate].
  - destruct name as [|a [|b name]]; discriminate.
  - apply dashes_app_inj in Hc. now subst n.
  - apply dashes_app_inj in Hc. subst name.
    apply abbreviates_file_index in Ha.
    change ("=" +:+ w) with (String "=" w) in Hi.
    rewrite (index_app _ _ _ Ha) in Hi. discriminate.
  - destruct name; discriminate.
  - destruct name; discriminate.
  - destruct name as [|a [|b name]]; discriminate.
  - apply dashes_app_inj in Hc. subst n.
    apply abbreviates_file_index in Ha.
    change ("=" +:+ v) with (String "=" v) in Ha.
    rewrite (index_app _ _ _ Hi) in Ha. discriminate.
  - apply dashes_app_inj in Hc. apply equals_split_inj in Hc;
      [subst n; tauto | exact Hi | now apply abbreviates_file_index].
Qed.

Lemma parse_arguments_rejects_unknown_witness :
  parse_arguments ["etl.py"; "-x"; "data.csv"] = SysExit 2
  /\ parse_arguments ["etl.py"; "--verbose"; "data.csv"] = SysExit 2
  /\ parse_arguments ["etl.py"; "--verbose=1"; "data.csv"] = SysExit 2.
Proof.
  apply (parse_arguments_rejects_unknown "etl.py" "x" "" "verbose" "1" ["data.csv"]).
  - discriminate.
  - discriminate.
  - unfold abbreviates_file. rewrite !elem_of_cons, elem_of_nil.
    intros [H|[H|[H|[H|[H|[]]]]]]; discriminate H.
  - reflexivity.
Defined.

(** ** The path of the store *)

Lemma after_last_app c x y :
  PyText.after_last c y = 0%nat ->
  PyText.after_last c (x +:+ String c y) = S (String.length x).
Proof.
  intros Hy. induction x as [|d x IH]; str_simpl; cbn [PyText.after_last String.length].
  - now rewrite Hy, Ascii.eqb_refl.
  - now rewrite IH.
Qed.

Lemma take_app_cons x c y :
  PyText.take (S (String.length x)) (x +:+ String c y) = x +:+ String c EmptyString.
Proof.
  induction x as [|d x IH]; str_simpl.
  - cbn. now destruct y.
  - cbn [String.length]. change (PyText.take (S ?n) (String d ?s))
      with (String d (PyText.take n s)). now rewrite IH.
Qed.

Lemma after_last_zero_take c s :
  PyText.after_last c s = 0%nat -> PyText.take (PyText.after_last c s) s = "".
Proof. intros ->. now destruct s. Qed.

Lemma endswith_char_app c x d :
  PyStr.endswith_char c (x +:+ String d EmptyString) = Ascii.eqb c d.
Proof.
  induction x as [|e x IH]; str_simpl; [reflexivity|].
  cbn [PyStr.endswith_char]. rewrite IH.
  destruct x; str_simpl; reflexivity.
Qed.

Lemma rstrip_char_app c x :
  PyText.rstrip_char c (x +:+ String c EmptyString) = PyText.rstrip_char c x.
Proof.
  induction x as [|d x IH]; str_simpl; cbn [PyText.rstrip_char].
  - now rewrite Ascii.eqb_refl.
  - now rewrite IH.
Qed.

Lemma rstrip_char_id c x :
  PyStr.endswith_char c x = false -> PyText.rstrip_char c x = x.
Proof.
  induction x as [|d x IH]; [reflexivity|].
  cbn [PyStr.endswith_char PyText.rstrip_char]. destruct x as [|e x].
  - cbn [PyText.rstrip_char]. rewrite Ascii.eqb_sym. now intros ->.
  - intros H. rewrite (IH H). reflexivity.
Qed.

Lemma all_char_endswith c x :
  x <> "" -> PyStr.endswith_char c x = false -> PyText.all_char c x = false.
Proof.
  induction x as [|d x IH]; [congruence|]. intros _.
  cbn [PyStr.endswith_char PyText.all_char]. destruct x as [|e x].
  - rewrite Ascii.eqb_sym. intros ->. reflexivity.
  - intros H. rewrite IH by (congruence || exact H). apply andb_false_r.
Qed.

Lemma all_char_app c x y :
  PyText.all_char c (x +:+ y) = PyText.all_char c x && PyText.all_char c y.
Proof.
  induction x as [|d x IH]; str_simpl; cbn [PyText.all_char]; [reflexivity|].
  now rewrite IH, andb_assoc.
Qed.

Lemma plain_name_startswith b : plain_name b -> PyStr.startswith "/" b = false.
Proof.
  unfold plain_name, PyStr.startswith. destruct b as [|d b]; [reflexivity|].
  cbn [PyText.after_last String.prefix].
  destruct (ascii_dec "/" d) as [<-|Hd]; [|reflexivity].
  destruct (PyText.after_last "/" b); discriminate.
Qed.

Lemma app_not_empty x c y : x +:+ String c y <> "".
Proof. destruct x; str_simpl; discriminate. Qed.

Lemma dirname_join a b :
  PyStr.endswith_char "/" a = false -> plain_name b ->
  os_path_dirname (os_path_join a b) = a.
Proof.
  intros Ha Hb. unfold os_path_join.
  rewrite (plain_name_startswith _ Hb), Ha, orb_false_r.
  destruct (String.eqb a "") eqn:He.
  - apply String.eqb_eq in He. subst a. str_simpl.
    unfold os_path_dirname. cbv zeta. rewrite (after_last_zero_take _ _ Hb).
    reflexivity.
  - apply String.eqb_neq in He.
    change ("/" +:+ b) with (String "/" b).
    unfold os_path_dirname. cbv zeta.
    rewrite (after_last_app _ _ _ Hb), take_app_cons.
    assert (String.eqb (a +:+ "/") "" = false) as ->.
    { apply String.eqb_neq, app_not_empty. }
    rewrite all_char_app, (all_char_endswith _ _ He Ha).
    cbn [negb andb]. rewrite rstrip_char_app. now apply rstrip_char_id.
Qed.

Lemma endswith_char_join a b c d :
  plain_name (b +:+ String d EmptyString) ->
  PyStr.endswith_char c (os_path_join a (b +:+ String d EmptyString)) = Ascii.eqb c d.
Proof.
  intros Hb. unfold os_path_join. rewrite (plain_name_startswith _ Hb).
  destruct (_ || _).
  - now rewrite <- string_app_assoc, endswith_char_app.
  - now rewrite <- !string_app_assoc, endswith_char_app.
Qed.

(** X19: taking the directory undoes joining: for a directory that does
    not end with [/] (the empty one included) and a name without [/],
    [dirname(join(a, b))] is [a]. *)
Theorem dirname_of_join (a b : string) :
  PyStr.endswith_char "/" a = false -> plain_name b ->
  os_path_dirname (os_path_join a b) = a.
Proof. apply dirname_join. Qed.

Lemma dirname_of_join_witness :
  os_path_dirname (os_path_join "/srv/etl" "data") = "/srv/etl".
Proof. apply (dirname_of_join "/srv/etl" "data"); reflexivity. Defined.

(** X20: wherever the script lies, the directory that [create_db_engine]
    looks for and creates is the [database] directory beside the script;
    it is never the empty string, so the test of [db_dir] on line 220 only
    depends on whether the directory exists. *)
Theorem db_dir_beside_script (file : string) :
  db_dir (db_path file) = os_path_join (os_path_dirname file) "database"
  /\ db_dir (db_path file) <> "".
Proof.
  assert (db_dir (db_path file) = os_path_join (os_path_dirname file) "database") as E.
  { unfold db_dir, db_path. apply dirname_join; [|reflexivity].
    apply (endswith_char_join _ "databas" "/" "e"). reflexivity. }
  split; [exact E|]. rewrite E. unfold os_path_join.
  change (PyStr.startswith "/" "database") with false. cbv iota.
  destruct (_ || _); [apply app_not_empty|].
  rewrite <- string_app_assoc. apply app_not_empty.
Qed.
